(** * A shallow embedding of [scraper.py]

    The script downloads the attachments of imageboard threads.  This
    development models it function by function: the regular expression of
    [check_url], the [Scraper] class (URL parsing, thread fetch, filename
    resolution, the hash check and the streaming download) and [main] with
    the [__main__] block that turns exceptions into exit statuses. *)

From Stdlib Require Import ZArith Ascii String List Bool Lia.
From stdpp Require Import base decidable option list strings gmap fin_maps pretty.

Local Open Scope string_scope.
Local Open Scope list_scope.

(** ** Characters and strings *)

(** Strings are sequences of 8-bit characters, which covers the URLs, file
    names and messages of the script as far as they are ASCII. *)
Definition chars := list ascii.

Definition chars_of (s : string) : chars := list_ascii_of_string s.
Definition string_of (l : chars) : string := string_of_list_ascii l.

Definition newline : ascii := ascii_of_nat 10.
Definition slash : ascii := "/"%char.

Definition ascii_between (lo hi c : ascii) : bool :=
  (nat_of_ascii lo <=? nat_of_ascii c)%nat && (nat_of_ascii c <=? nat_of_ascii hi)%nat.

Definition is_lower (c : ascii) : bool := ascii_between "a" "z" c.
Definition is_digit (c : ascii) : bool := ascii_between "0" "9" c.

(** ** Regular expressions, as far as [re] is used by the script *)

Module Re.

(** The operators that occur in the pattern of [check_url]. *)
Inductive regex : Type :=
| Eps
| Caret                              (* ^ *)
| Dollar                             (* $ *)
| Chr (c : ascii)                    (* a literal, also an escaped one: \/ *)
| Dot                                (* . *)
| Range (lo hi : ascii)              (* [lo-hi] *)
| Seq (r1 r2 : regex)
| Alt (r1 r2 : regex)                (* r1|r2 *)
| Star (r : regex)                   (* r* *)
| Repeat (lo hi : nat) (r : regex).  (* r{lo,hi} *)

(** [star_iter f fuel s]: the suffixes left after any number of rounds of
    [f], each round consuming at least one character. *)
Fixpoint star_iter (f : chars -> list chars) (fuel : nat) (s : chars) : list chars :=
  s :: match fuel with
       | O => []
       | S k => flat_map (star_iter f k)
                  (List.filter (fun t => (length t <? length s)%nat) (f s))
       end.

(** [rep_iter f lo hi s]: the suffixes left after between [lo] and [hi]
    rounds of [f]. *)
Fixpoint rep_iter (f : chars -> list chars) (lo hi : nat) (s : chars) : list chars :=
  (if (lo =? 0)%nat then [s] else []) ++
  match hi with
  | O => []
  | S hi' => flat_map (rep_iter f (pred lo) hi') (f s)
  end.

(** [ends n r s]: every suffix of [s] that can remain after [r] has matched
    a prefix of [s]; [n] is the length of the whole subject, so that the
    position of [s] in it is [n - length s].  No flag is set in the script:
    [^] holds at position 0 only, [$] holds at the end and before a final
    newline, [.] is any character but a newline. *)
Fixpoint ends (n : nat) (r : regex) (s : chars) : list chars :=
  match r with
  | Eps => [s]
  | Caret => if (length s =? n)%nat then [s] else []
  | Dollar =>
      match s with
      | [] => [s]
      | [c] => if Ascii.eqb c newline then [s] else []
      | _ => []
      end
  | Chr c =>
      match s with
      | x :: t => if Ascii.eqb x c then [t] else []
      | [] => []
      end
  | Dot =>
      match s with
      | x :: t => if Ascii.eqb x newline then [] else [t]
      | [] => []
      end
  | Range lo hi =>
      match s with
      | x :: t => if ascii_between lo hi x then [t] else []
      | [] => []
      end
  | Seq r1 r2 => flat_map (ends n r2) (ends n r1 s)
  | Alt r1 r2 => ends n r1 s ++ ends n r2 s
  | Star r1 => star_iter (ends n r1) (length s) s
  | Repeat lo hi r1 => rep_iter (ends n r1) lo hi s
  end.

(** [re.search]: a match starting at some position of the subject. *)
Definition search (r : regex) (s : chars) : bool :=
  existsb (fun p => negb (forallb (fun _ => false) (ends (length s) r (drop p s))))
          (seq 0 (S (length s))).

(** A run of literal characters. *)
Fixpoint str (l : chars) : regex :=
  match l with
  | [] => Eps
  | c :: t => Seq (Chr c) (str t)
  end.

Definition lit (s : string) : regex := str (chars_of s).

End Re.

Import Re.

Declare Scope re_scope.
Delimit Scope re_scope with re.
Infix "⋅" := Seq (at level 40, left associativity) : re_scope.
Infix "∣" := Alt (at level 50, left associativity) : re_scope.

(** ** [check_url]

<<
exp = re.compile(r"^(https:\/\/boards.4channel.org\/|https:\/\/boards.4chan.org\/)[a-z]{1,5}\/thread\/[0-9]*$")
>> *)
Definition exp : regex :=
  (Caret
   ⋅ ( (lit "https://boards" ⋅ Dot ⋅ lit "4channel" ⋅ Dot ⋅ lit "org/")
     ∣ (lit "https://boards" ⋅ Dot ⋅ lit "4chan" ⋅ Dot ⋅ lit "org/") )
   ⋅ Repeat 1 5 (Range "a" "z")
   ⋅ lit "/thread/"
   ⋅ Star (Range "0" "9")
   ⋅ Dollar)%re.

Definition check_url (url : string) : bool :=
  if search exp (chars_of url) then true else false.

(** The grammar of the specification, in its words:
    [https://boards.<host-suffix>/<board>/thread/<id>] with host suffix
    [4chan.org] or [4channel.org], a board of 1 to 5 lowercase letters and
    an id of one or more decimal digits. *)
Definition spec_host_suffixes : list string := ["4chan.org"; "4channel.org"].

Definition spec_url_grammar (url : string) : Prop :=
  ∃ (host : string) (board id : chars),
    host ∈ spec_host_suffixes ∧
    (1 <= length board <= 5)%nat ∧
    forallb is_lower board = true ∧
    id ≠ [] ∧
    forallb is_digit id = true ∧
    url = "https://boards." +:+ host +:+ "/" +:+ string_of board
          +:+ "/thread/" +:+ string_of id.

(** ** Strings, paths and bytes *)

Definition bytes := list Byte.byte.

(** [str.split(sep)] for a one-character separator. *)
Fixpoint split_on (sep : ascii) (s : string) : list string :=
  match s with
  | EmptyString => [""]
  | String c t =>
      if Ascii.eqb c sep then "" :: split_on sep t
      else match split_on sep t with
           | x :: r => String c x :: r
           | [] => [String c ""]
           end
  end.

Definition starts_with_slash (s : string) : bool :=
  match s with
  | String c _ => Ascii.eqb c slash
  | EmptyString => false
  end.

Fixpoint ends_with_slash (s : string) : bool :=
  match s with
  | EmptyString => false
  | String c EmptyString => Ascii.eqb c slash
  | String _ t => ends_with_slash t
  end.

Definition is_empty (s : string) : bool :=
  match s with EmptyString => true | _ => false end.

(** [os.path.join] of two parts (posixpath). *)
Definition path_join (a b : string) : string :=
  if starts_with_slash b then b
  else if is_empty a || ends_with_slash a then a +:+ b
  else a +:+ "/" +:+ b.

(** A path as the file system sees it: its components; an absolute path
    keeps an empty first component.  The components [.] and [..] and links
    are not interpreted. *)
Abbreviation path := (list string).

Definition components (p : string) : path :=
  (if starts_with_slash p then [""] else []) ++
  List.filter (fun c => negb (is_empty c)) (split_on slash p).

Definition hex_digit (n : N) : ascii :=
  match n with
  | 0 => "0" | 1 => "1" | 2 => "2" | 3 => "3" | 4 => "4" | 5 => "5"
  | 6 => "6" | 7 => "7" | 8 => "8" | 9 => "9" | 10 => "a" | 11 => "b"
  | 12 => "c" | 13 => "d" | 14 => "e" | _ => "f"
  end%N%char.

(** [bytes.hex()] *)
Fixpoint hex (b : bytes) : string :=
  match b with
  | [] => ""
  | x :: t =>
      let n := Byte.to_N x in
      String (hex_digit (n / 16)) (String (hex_digit (n mod 16)) (hex t))
  end.

(** [str(n)] of an integer *)
Definition str_of_int (n : Z) : string := pretty n.

(** ** The data of a thread *)

(** A post of the API's thread document.  [tim] is there when the post
    has an attachment, and then so are [filename], [ext] and [md5]. *)
Record post := Post {
  tim : option Z;
  filename : string;
  ext : string;
  md5 : string
}.

Record thread := Thread { posts : list post }.

(** ** The world outside the program *)

Inductive node :=
| Dir
| File (readable writable : bool) (data : bytes).

Inductive content_length :=
| NoHeader
| NotANumber
| Length (n : Z).

Record response := Response {
  text : string;
  content : bytes;
  header_content_length : content_length
}.

Record world := World {
  fs : gmap path node;
  requests : list string;     (* the GET requests issued, oldest first *)
  stdout : list string;       (* the lines printed *)
  clock : nat                 (* the interruptible operations started *)
}.

Definition set_fs (f : gmap path node → gmap path node) (w : world) : world :=
  World (f (fs w)) (requests w) (stdout w) (clock w).

Inductive exn :=
| InvalidThreadURL (message : string)
| ThreadDoesNotExist (board thread_id : string)
| KeyboardInterrupt
| SystemExit (code : Z)
| IndexError
| KeyError (key : string)
| ValueError
| ZeroDivisionError
| JSONDecodeError
| BinasciiError
| OSError (file : string)
| UnboundLocalError.

Definition exn_str (e : exn) : string :=
  match e with
  | InvalidThreadURL message => message +:+ " is an invalid thread URL."
  | ThreadDoesNotExist board thread_id =>
      "Thread with ID " +:+ thread_id +:+ " in board " +:+ board +:+ " does not exist."
  | _ => ""
  end.

(** What is not part of the script: the remote hosts, the user at the
    keyboard and the library functions [hashlib.md5(..).digest],
    [base64.b64decode] and [json.loads].  The answer of a host may depend
    on how many requests were made before.  [b64decode] and [json_loads]
    give [None] where the library function raises; the documents that
    [json_loads] decodes are thread documents of the API, with the fields
    of [post]. *)
Record env := Env {
  net : nat → string → response;   (* the answer to the n-th request *)
  sigint : option nat;             (* when the user interrupts, if ever *)
  hashlib_md5 : bytes → bytes;
  b64decode : string → option bytes;
  json_loads : string → option thread
}.

(** ** Computations: a world, and a value or a raised exception *)

Inductive outcome (A : Type) :=
| Ok (a : A)
| Raise (e : exn).
Arguments Ok {A} a.
Arguments Raise {A} e.

Definition M (A : Type) : Type := world → outcome A * world.

Definition ret {A} (a : A) : M A := λ w, (Ok a, w).

Definition bind {A B} (m : M A) (k : A → M B) : M B :=
  λ w, match m w with
       | (Ok a, w') => k a w'
       | (Raise e, w') => (Raise e, w')
       end.

Definition raise {A} (e : exn) : M A := λ w, (Raise e, w).

(** [try: m  except <the exceptions h answers>: h e] *)
Definition try_except {A} (m : M A) (h : exn → option (M A)) : M A :=
  λ w, match m w with
       | (Raise e, w') =>
           match h e with
           | Some k => k w'
           | None => (Raise e, w')
           end
       | r => r
       end.

(** [try: m  finally: f]; an exception of [f] replaces the pending one. *)
Definition finally {A} (m : M A) (f : M unit) : M A :=
  λ w, match m w with
       | (r, w') =>
           match f w' with
           | (Ok _, w'') => (r, w'')
           | (Raise e, w'') => (Raise e, w'')
           end
       end.

Declare Scope prog_scope.
Delimit Scope prog_scope with prog.
Notation "x <- m ;; k" := (bind m (λ x, k))
  (at level 100, m at next level, k at level 200, right associativity) : prog_scope.
Notation "' p <- m ;; k" := (bind m (λ x, match x with p => k end))
  (at level 20, p pattern, m at level 99, k at level 200) : prog_scope.
Notation "m ;; k" := (bind m (λ _, k))
  (at level 100, k at level 200, right associativity) : prog_scope.
Local Open Scope prog_scope.

(** The outcome of [m] as a value: how a [with] or [try] block learns
    whether a name was bound before the exception. *)
Definition attempt {A} (m : M A) : M (outcome A) :=
  λ w, let '(r, w') := m w in (Ok r, w').

Definition print (line : string) : M unit :=
  λ w, (Ok tt, World (fs w) (requests w) (stdout w ++ [line]) (clock w)).

(** ** The file system calls the script makes *)

Definition parent_is_dir (f : gmap path node) (p : path) : bool :=
  match removelast p with
  | [] => true
  | [EmptyString] => true
  | parent => match f !! parent with Some Dir => true | _ => false end
  end.

(** [os.path.exists] *)
Definition os_path_exists (p : string) : M bool :=
  λ w, (Ok (bool_decide (is_Some (fs w !! components p))), w).

Definition path_str (p : path) : string := String.concat "/" p.

(** [os.mkdir] of the directory with the components [p] *)
Definition mkdir_at (p : path) : M unit :=
  λ w, match fs w !! p with
       | Some _ => (Raise (OSError (path_str p)), w)
       | None =>
           if parent_is_dir (fs w) p
           then (Ok tt, set_fs <[p := Dir]> w)
           else (Raise (OSError (path_str p)), w)
       end.

(** [os.makedirs]: when the parent is missing it is made first, in the
    same way, then the directory itself.  [rev_parts] are the components
    of the path, innermost first. *)
Fixpoint makedirs_from (rev_parts : list string) : M unit :=
  match rev_parts with
  | [] => raise (OSError "")
  | _ :: rev_head =>
      (match rev_head with
       | [] => ret tt
       | _ => λ w, match fs w !! rev rev_head with
                   | Some _ => (Ok tt, w)
                   | None => makedirs_from rev_head w
                   end
       end : M unit);;
      mkdir_at (rev rev_parts)
  end.

Definition os_makedirs (p : string) : M unit := makedirs_from (rev (components p)).

(** [open(p, 'rb')] followed by [read()] *)
Definition read_file (p : string) : M bytes :=
  λ w, match fs w !! components p with
       | Some (File true _ data) => (Ok data, w)
       | _ => (Raise (OSError p), w)
       end.

(** [open(p, 'wb')]: an existing file is emptied, a missing one created. *)
Definition open_wb (p : string) : M unit :=
  λ w, match fs w !! components p with
       | Some (File r true _) => (Ok tt, set_fs <[components p := File r true []]> w)
       | Some _ => (Raise (OSError p), w)
       | None =>
           if parent_is_dir (fs w) (components p)
           then (Ok tt, set_fs <[components p := File true true []]> w)
           else (Raise (OSError p), w)
       end.

(** [file.write(chunk)] on the file opened at [p] *)
Definition file_write (p : string) (chunk : bytes) : M unit :=
  λ w, match fs w !! components p with
       | Some (File r wr data) =>
           (Ok tt, set_fs <[components p := File r wr (data ++ chunk)]> w)
       | _ => (Ok tt, w)
       end.

(** [os.remove] *)
Definition os_remove (p : string) : M unit :=
  λ w, match fs w !! components p with
       | Some (File _ _ _) => (Ok tt, set_fs (delete (components p)) w)
       | _ => (Raise (OSError p), w)
       end.

(** [iter_slices] of requests: the body in pieces of [n] bytes.  The body
    has been read in full by [requests.get], which is called without
    [stream=True]. *)
Fixpoint iter_slices (fuel : nat) (s : bytes) (n : nat) : list bytes :=
  match fuel with
  | O => []
  | S k =>
      match s with
      | [] => []
      | _ => take n s :: iter_slices k (drop n s) n
      end
  end.

Definition iter_content (r : response) (chunk_size : nat) : list bytes :=
  iter_slices (length (content r)) (content r) chunk_size.

(** ** The class [Scraper] *)

Record Scraper := {
  url : string;
  keep_names : bool;
  board : string;
  thread_id : string;
  destination : string;
  downloaded_files : list string;
  bar_length : nat;
  the_thread : thread;
  image_total : nat;
  image_count : nat
}.

Definition set_thread (t : thread) (self : Scraper) : Scraper :=
  {| url := url self; keep_names := keep_names self; board := board self;
     thread_id := thread_id self; destination := destination self;
     downloaded_files := downloaded_files self; bar_length := bar_length self;
     the_thread := t; image_total := image_total self;
     image_count := image_count self |}.

Definition set_downloaded_files (l : list string) (self : Scraper) : Scraper :=
  {| url := url self; keep_names := keep_names self; board := board self;
     thread_id := thread_id self; destination := destination self;
     downloaded_files := l; bar_length := bar_length self;
     the_thread := the_thread self; image_total := image_total self;
     image_count := image_count self |}.

Definition set_image_total (n : nat) (self : Scraper) : Scraper :=
  {| url := url self; keep_names := keep_names self; board := board self;
     thread_id := thread_id self; destination := destination self;
     downloaded_files := downloaded_files self; bar_length := bar_length self;
     the_thread := the_thread self; image_total := n;
     image_count := image_count self |}.

Definition set_image_count (n : nat) (self : Scraper) : Scraper :=
  {| url := url self; keep_names := keep_names self; board := board self;
     thread_id := thread_id self; destination := destination self;
     downloaded_files := downloaded_files self; bar_length := bar_length self;
     the_thread := the_thread self; image_total := image_total self;
     image_count := n |}.

(** [list.count] *)
Definition count (x : string) (l : list string) : nat :=
  length (List.filter (String.eqb x) l).

(** [x in l] *)
Definition contains (x : string) (l : list string) : bool :=
  existsb (String.eqb x) l.

(** Lines 58-67 of [__download_image], the branch taken when
    [keep_names] is set: the file name chosen for [image] and the ledger
    [downloaded_files] after it. *)
Definition original_name (ledger : list string) (image : post) : string * list string :=
  let name := filename image +:+ ext image in
  let ledger := ledger ++ [name] in
  if contains name (removelast ledger)
  then (filename image +:+ "_"
          +:+ str_of_int (Z.of_nat (count name ledger) - 1)
          +:+ ext image, ledger)
  else (name, ledger).

(** [__parse_url] *)
Definition parse_url (url : string) : M (string * string) :=
  let parts := split_on slash url in
  match parts !! 3%nat, parts !! 5%nat with
  | Some board, Some thread_id => ret (board, thread_id)
  | _, _ => raise IndexError
  end.

Definition api_url (board thread_id : string) : string :=
  "https://a.4cdn.org/" +:+ board +:+ "/thread/" +:+ thread_id +:+ ".json".

Definition image_url (board : string) (file : string) : string :=
  "https://i.4cdn.org/" +:+ board +:+ "/" +:+ file.

(** The names chosen for [images] in turn, and the ledger after them:
    the branch above, once per image as [__get_images] runs it. *)
Fixpoint original_names (ledger : list string) (images : list post)
  : list string * list string :=
  match images with
  | [] => ([], ledger)
  | image :: rest =>
      let '(name, ledger) := original_name ledger image in
      let '(names, ledger) := original_names ledger rest in
      (name :: names, ledger)
  end.

Section Program.

Context (E : env).

(** An operation during which the interrupt of the user can arrive: a
    request, a round of the loop that writes the chunks, and the write
    that follows the loop.  The interrupt arrives once, at the operation
    that starts at time [sigint E], and is raised there as
    [KeyboardInterrupt]. *)
Definition tick : M unit :=
  λ w, let w' := World (fs w) (requests w) (stdout w) (S (clock w)) in
       if bool_decide (sigint E = Some (clock w))
       then (Raise KeyboardInterrupt, w')
       else (Ok tt, w').

(** [requests.get] *)
Definition requests_get (u : string) : M response :=
  tick;;
  λ w, (Ok (net E (length (requests w)) u),
        World (fs w) (requests w ++ [u]) (stdout w) (clock w)).

(** [__get_thread] *)
Definition get_thread (self : Scraper) : M Scraper :=
  response <- requests_get (api_url (board self) (thread_id self));;
  if (String.length (text response) =? 0)%nat
  then raise (ThreadDoesNotExist (board self) (thread_id self))
  else match json_loads E (text response) with
       | Some t => ret (set_thread t self)
       | None => raise JSONDecodeError
       end.

(** [__md5check] *)
Definition md5check (p : string) (md5 : string) : M bool :=
  data <- read_file p;;
  let file_md5 := hex (hashlib_md5 E data) in
  ret (String.eqb file_md5 md5).

(** The loop of lines 92-111.  The progress bar written to the terminal is
    left out; its quotient [dl / size] is not, as it can raise. *)
Fixpoint write_chunks (file_path : string) (size dl : Z) (chunks : list bytes) : M unit :=
  match chunks with
  | [] => ret tt
  | chunk :: rest =>
      tick;;
      match chunk with
      | [] => write_chunks file_path size dl rest
      | _ =>
          let dl := (dl + Z.of_nat (length chunk))%Z in
          file_write file_path chunk;;
          (if (size =? 0)%Z then raise ZeroDivisionError else ret tt);;
          write_chunks file_path size dl rest
      end
  end.

(** Lines 90-118 of [__download_image]: the [try] statement that writes
    the body of [response] to [file_path].  [file] is bound once [open]
    has returned, so the [finally] clause fails when [open] did. *)
Definition save_response (file_path : string) (size : Z) (response : response) : M unit :=
  opened <- attempt (open_wb file_path);;
  finally
    (try_except
       (match opened with
        | Raise e => raise e
        | Ok _ =>
            write_chunks file_path size 0 (iter_content response 1024);;
            tick                                       (* the final newline *)
        end)
       (λ e, match e with
             | KeyboardInterrupt =>
                 Some (os_remove file_path;; raise KeyboardInterrupt)
             | _ => None
             end))
    (match opened with                                 (* file.close() *)
     | Raise _ => raise UnboundLocalError
     | Ok _ => ret tt
     end).

(** [__download_image] *)
Definition download_image (self : Scraper) (image : post) : M Scraper :=
  '(filename, self) <-
    (if keep_names self then
       let '(name, ledger) := original_name (downloaded_files self) image in
       ret (name, set_downloaded_files ledger self)
     else
       match tim image with
       | Some t => ret (str_of_int t +:+ ext image, self)
       | None => raise (KeyError "tim")
       end);;
  let file_path := path_join (destination self) filename in
  present <- os_path_exists file_path;;
  skip <-
    (if present then
       match b64decode E (md5 image) with
       | None => raise BinasciiError
       | Some raw =>
           same <- md5check file_path (hex raw);;
           if same then print (filename +:+ " already exists. Skipping...");; ret true
           else ret false
       end
     else ret false);;
  if skip then ret self else
  match tim image with
  | None => raise (KeyError "tim")
  | Some t =>
      response <- requests_get (image_url (board self) (str_of_int t +:+ ext image));;
      size <- match header_content_length response with
              | NoHeader => raise (KeyError "content-length")
              | NotANumber => raise ValueError
              | Length n => ret n
              end;;
      save_response file_path size response;;
      ret self
  end.

(** The loop of [__get_images] over [enumerate(images)] *)
Fixpoint download_all (self : Scraper) (i : nat) (images : list post) : M Scraper :=
  match images with
  | [] => ret self
  | image :: rest =>
      self <- download_image (set_image_count i self) image;;
      download_all self (S i) rest
  end.

Definition has_attachment (p : post) : bool :=
  match tim p with Some _ => true | None => false end.

(** [__get_images] *)
Definition get_images (self : Scraper) : M Scraper :=
  let posts := posts (the_thread self) in
  let images := List.filter has_attachment posts in
  let self := set_image_total (length images) self in
  download_all self 0 images.

(** [Scrape] *)
Definition Scrape (self : Scraper) : M Scraper :=
  self <- get_thread self;;
  get_images self.

(** [__init__] *)
Definition Scraper_init (url : string) (keep_names : bool) : M Scraper :=
  '(board, thread_id) <- parse_url url;;
  let destination := path_join board thread_id in
  let self :=
    {| url := url; keep_names := keep_names; board := board;
       thread_id := thread_id; destination := destination;
       downloaded_files := []; bar_length := 20;
       the_thread := Thread []; image_total := 0; image_count := 0 |} in
  present <- os_path_exists destination;;
  (if negb present then os_makedirs destination else ret tt);;
  get_thread self.

(** ** [main] and the [__main__] block *)

Record args := Args {
  URLs : list string;
  arg_keep_names : bool
}.

(** The first loop of [main]: the valid URLs and the exit code so far. *)
Fixpoint validate (urls : list string) (validURLs : list string) (exitcode : Z)
  : M (list string * Z) :=
  match urls with
  | [] => ret (validURLs, exitcode)
  | url :: rest =>
      '(validURLs, exitcode) <-
        try_except
          (let valid := check_url url in
           (if negb valid then raise (InvalidThreadURL url) else ret tt);;
           ret (validURLs ++ [url], exitcode))
          (λ err, match err with
                  | InvalidThreadURL _ =>
                      Some (print (exn_str err);; ret (validURLs, 1%Z))
                  | _ => None
                  end);;
      validate rest validURLs exitcode
  end.

(** The second loop: one [Scraper] per valid URL whose thread exists. *)
Fixpoint construct (keep : bool) (validURLs : list string)
                   (threads : list Scraper) (exitcode : Z)
  : M (list Scraper * Z) :=
  match validURLs with
  | [] => ret (threads, exitcode)
  | url :: rest =>
      '(threads, exitcode) <-
        try_except
          (s <- Scraper_init url keep;;
           ret (threads ++ [s], exitcode))
          (λ err, match err with
                  | ThreadDoesNotExist _ _ =>
                      Some (print (exn_str err);; ret (threads, 1%Z))
                  | _ => None
                  end);;
      construct keep rest threads exitcode
  end.

(** The third loop *)
Fixpoint scrape_all (threads : list Scraper) : M unit :=
  match threads with
  | [] => ret tt
  | t :: rest => Scrape t;; scrape_all rest
  end.

(** [main]; [exit(exitcode)] raises [SystemExit]. *)
Definition main (a : args) : M unit :=
  '(validURLs, exitcode) <- validate (URLs a) [] 0%Z;;
  '(threads, exitcode) <- construct (arg_keep_names a) validURLs [] exitcode;;
  scrape_all threads;;
  raise (SystemExit exitcode).

(** The [__main__] block after the arguments are parsed, and the exit
    status of the interpreter: the code of [exit], and 1 when another
    exception reaches the top. *)
Definition script (a : args) (w : world) : Z * world :=
  match try_except (main a)
          (λ e, match e with
                | KeyboardInterrupt =>
                    Some (print (String newline "Program Aborted.");;
                          raise (SystemExit 130))
                | _ => None
                end) w with
  | (Ok _, w') => (0%Z, w')
  | (Raise (SystemExit code), w') => (code, w')
  | (Raise _, w') => (1%Z, w')
  end.

End Program.

(** ** The library functions, for the examples

    The program above takes [hashlib.md5], [base64.b64decode] and
    [json.loads] from its environment.  The examples run it with MD5 as
    RFC 1321 defines it and with base64 decoding as [binascii.a2b_base64]
    does it when it is not strict. *)

Module MD5.

Local Open Scope Z_scope.

Definition mask32 : Z := 0xffffffff.
Definition add32 (a b : Z) : Z := Z.land (a + b) mask32.
Definition not32 (a : Z) : Z := Z.lxor a mask32.
Definition rotl32 (x c : Z) : Z :=
  Z.land (Z.lor (Z.shiftl x c) (Z.shiftr x (32 - c))) mask32.

Definition shifts : list Z :=
  [7; 12; 17; 22; 7; 12; 17; 22; 7; 12; 17; 22; 7; 12; 17; 22;
   5; 9; 14; 20; 5; 9; 14; 20; 5; 9; 14; 20; 5; 9; 14; 20;
   4; 11; 16; 23; 4; 11; 16; 23; 4; 11; 16; 23; 4; 11; 16; 23;
   6; 10; 15; 21; 6; 10; 15; 21; 6; 10; 15; 21; 6; 10; 15; 21].

Definition sines : list Z :=
  [0xd76aa478; 0xe8c7b756; 0x242070db; 0xc1bdceee; 0xf57c0faf; 0x4787c62a;
   0xa8304613; 0xfd469501; 0x698098d8; 0x8b44f7af; 0xffff5bb1; 0x895cd7be;
   0x6b901122; 0xfd987193; 0xa679438e; 0x49b40821; 0xf61e2562; 0xc040b340;
   0x265e5a51; 0xe9b6c7aa; 0xd62f105d; 0x02441453; 0xd8a1e681; 0xe7d3fbc8;
   0x21e1cde6; 0xc33707d6; 0xf4d50d87; 0x455a14ed; 0xa9e3e905; 0xfcefa3f8;
   0x676f02d9; 0x8d2a4c8a; 0xfffa3942; 0x8771f681; 0x6d9d6122; 0xfde5380c;
   0xa4beea44; 0x4bdecfa9; 0xf6bb4b60; 0xbebfbc70; 0x289b7ec6; 0xeaa127fa;
   0xd4ef3085; 0x04881d05; 0xd9d4d039; 0xe6db99e5; 0x1fa27cf8; 0xc4ac5665;
   0xf4292244; 0x432aff97; 0xab9423a7; 0xfc93a039; 0x655b59c3; 0x8f0ccc92;
   0xffeff47d; 0x85845dd1; 0x6fa87e4f; 0xfe2ce6e0; 0xa3014314; 0x4e0811a1;
   0xf7537e82; 0xbd3af235; 0x2ad7d2bb; 0xeb86d391].

Fixpoint le_bytes (n : nat) (x : Z) : list Z :=
  match n with
  | O => []
  | S k => x mod 256 :: le_bytes k (x / 256)
  end.

Fixpoint le_words (l : list Z) : list Z :=
  match l with
  | b0 :: b1 :: b2 :: b3 :: t =>
      (b0 + 256 * b1 + 65536 * b2 + 16777216 * b3) :: le_words t
  | _ => []
  end.

Definition padded (msg : list Z) : list Z :=
  let len := Z.of_nat (length msg) in
  msg ++ 128 :: repeat 0 (Z.to_nat ((55 - len) mod 64)) ++ le_bytes 8 (8 * len).

Definition state : Type := Z * Z * Z * Z.

Definition step (m : list Z) (st : state) (i : nat) : state :=
  let '(a, b, c, d) := st in
  let iz := Z.of_nat i in
  let '(f, g) :=
    if iz <? 16 then (Z.lor (Z.land b c) (Z.land (not32 b) d), iz)
    else if iz <? 32 then (Z.lor (Z.land d b) (Z.land (not32 d) c), (5 * iz + 1) mod 16)
    else if iz <? 48 then (Z.lxor b (Z.lxor c d), (3 * iz + 5) mod 16)
    else (Z.lxor c (Z.lor b (not32 d)), (7 * iz) mod 16) in
  let f := add32 (add32 (add32 f a) (nth i sines 0)) (nth (Z.to_nat g) m 0) in
  (d, add32 b (rotl32 f (nth i shifts 0)), b, c).

Definition block (st : state) (m : list Z) : state :=
  let '(a, b, c, d) := st in
  let '(a', b', c', d') := fold_left (step m) (seq 0 64) st in
  (add32 a a', add32 b b', add32 c c', add32 d d').

Fixpoint blocks (fuel : nat) (st : state) (ws : list Z) : state :=
  match fuel with
  | O => st
  | S k =>
      match ws with
      | [] => st
      | _ => blocks k (block st (take 16 ws)) (drop 16 ws)
      end
  end.

Definition byte_of_Z (z : Z) : Byte.byte :=
  match Byte.of_N (Z.to_N z) with
  | Some b => b
  | None => Byte.x00
  end.

Definition Z_of_byte (b : Byte.byte) : Z := Z.of_N (Byte.to_N b).

Definition digest (data : bytes) : bytes :=
  let ws := le_words (padded (map Z_of_byte data)) in
  let '(a, b, c, d) :=
    blocks (length ws) (0x67452301, 0xefcdab89, 0x98badcfe, 0x10325476) ws in
  map byte_of_Z (le_bytes 4 a ++ le_bytes 4 b ++ le_bytes 4 c ++ le_bytes 4 d).

End MD5.

Module Base64.

Local Open Scope Z_scope.

Definition value (c : ascii) : option Z :=
  let n := Z.of_nat (nat_of_ascii c) in
  if (65 <=? n) && (n <=? 90) then Some (n - 65)
  else if (97 <=? n) && (n <=? 122) then Some (n - 71)
  else if (48 <=? n) && (n <=? 57) then Some (n + 4)
  else if n =? 43 then Some 62
  else if n =? 47 then Some 63
  else None.

(** The loop of [a2b_base64]: characters outside the alphabet are skipped,
    a complete run of padding ends the input, and input that stops inside
    a group of four is an error. *)
Fixpoint a2b (s : chars) (quad_pos : nat) (leftchar : Z) (pads : nat)
             (out : list Z) : option (list Z) :=
  match s with
  | [] => if (quad_pos =? 0)%nat then Some out else None
  | c :: t =>
      if Ascii.eqb c "="%char then
        if (2 <=? quad_pos)%nat then
          if (4 <=? quad_pos + S pads)%nat then Some out
          else a2b t quad_pos leftchar (S pads) out
        else a2b t quad_pos leftchar pads out
      else
        match value c with
        | None => a2b t quad_pos leftchar pads out
        | Some v =>
            match quad_pos with
            | 0%nat => a2b t 1%nat v 0%nat out
            | 1%nat => a2b t 2%nat (Z.land v 15) 0%nat
                         (out ++ [Z.lor (Z.shiftl leftchar 2) (Z.shiftr v 4)])
            | 2%nat => a2b t 3%nat (Z.land v 3) 0%nat
                         (out ++ [Z.lor (Z.shiftl leftchar 4) (Z.shiftr v 2)])
            | _ => a2b t 0%nat 0 0%nat
                     (out ++ [Z.lor (Z.shiftl leftchar 6) v])
            end
        end
  end.

Definition decode (s : string) : option bytes :=
  option_map (map MD5.byte_of_Z) (a2b (chars_of s) 0 0 0 []).

End Base64.

Definition bytes_of_string (s : string) : bytes := map byte_of_ascii (chars_of s).

(** ** Sample data for the examples *)

Module Sample.

Local Open Scope Z_scope.

(** A remote host that answers from a table; a URL not in it gets an
    empty body, which is how the API answers for a thread it does not
    have. *)
Definition serve (pages : list (string * response)) (u : string) : response :=
  match List.find (λ p, String.eqb (fst p) u) pages with
  | Some p => snd p
  | None => Response "" [] NoHeader
  end.

(** The documents of the examples stand for JSON texts; [loads] decodes
    the ones it is given and fails on every other text. *)
Definition loads (docs : list (string * thread)) (s : string) : option thread :=
  option_map snd (List.find (λ p, String.eqb (fst p) s) docs).

Definition abc : bytes := bytes_of_string "abc".
Definition md5_of_abc : string := "kAFQmDzST7DWlj99KOF/cg==".

Definition no_attachment : post := Post None "" "" "".
Definition pic (t : Z) : post := Post (Some t) "pic" ".png" md5_of_abc.
Definition pic_1 (t : Z) : post := Post (Some t) "pic_1" ".png" md5_of_abc.

Definition image (u : string) : string * response :=
  (u, Response "" abc (Length 3)).

Definition thread_url : string := "https://boards.4channel.org/g/thread/51971506".

Definition pages (doc : string) : list (string * response) :=
  [ (api_url "g" "51971506", Response doc [] NoHeader);
    image (image_url "g" "1.png");
    image (image_url "g" "2.png");
    image (image_url "g" "3.png");
    (image_url "g" "9.bin", Response "" (repeat (byte_of_ascii "x") 2500) (Length 2500)) ].

Definition three_pics : thread := Thread [no_attachment; pic 1; pic 2; pic 3].
Definition two_pics : thread := Thread [pic 1; no_attachment; pic 2].
Definition clash : thread := Thread [pic 1; pic_1 2; pic 3].

Definition docs : list (string * thread) :=
  [ ("three pics", three_pics); ("two pics", two_pics); ("clash", clash) ].

(** The environment in which the API serves the document [doc] for the
    thread [g/51971506] and the user interrupts at [intr]. *)
Definition environment (doc : string) (intr : option nat) : env :=
  Env (λ _, serve (pages doc)) intr MD5.digest Base64.decode (loads docs).

Definition empty_world : world := World ∅ [] [] 0.

(** A larger attachment, sent in three chunks. *)
Definition large_body : bytes := repeat (byte_of_ascii "x") 2500.
Definition large : post := Post (Some 9) "large" ".bin" "fzMMbpETUH/xMG9PFofjKg==".
Definition large_response : response := Response "" large_body (Length 2500).

(** The scraper of the thread [g/51971506] as [__init__] leaves it, and
    the working directory with the thread directory and [files] in it. *)
Definition scraper (keep : bool) : Scraper :=
  {| url := thread_url; keep_names := keep; board := "g";
     thread_id := "51971506"; destination := "g/51971506";
     downloaded_files := []; bar_length := 20;
     the_thread := two_pics; image_total := 0; image_count := 0 |}.

Definition disk (files : list (string * node)) : world :=
  World (list_to_map ([ (["g"], Dir); (["g"; "51971506"], Dir) ]
                      ++ map (λ f, (["g"; "51971506"; fst f], snd f)) files))
        [] [] 0.

Definition other_bytes : bytes := bytes_of_string "zzz".

End Sample.

(** Answers and disks that make a download fail. *)

Module Faulty.

(** The sample hosts, with another answer for the first picture. *)
Definition environment (first : response) : env :=
  Env (λ _ u, if String.eqb u "https://i.4cdn.org/g/1.png" then first
              else Sample.serve (Sample.pages "two pics") u)
      None MD5.digest Base64.decode (Sample.loads Sample.docs).

Definition no_header : response := Response "" Sample.abc NoHeader.
Definition zero_length : response := Response "" Sample.abc (Length 0).

(** The first picture on disk with other bytes, and not writable. *)
Definition read_only : world :=
  Sample.disk [("1.png", File true false Sample.other_bytes)].

(** The first picture on disk, and not readable. *)
Definition unreadable : world :=
  Sample.disk [("1.png", File false true Sample.abc)].

(** The API has the thread at the first request and has lost it at every
    later one. *)
Definition vanishing : env :=
  Env (λ n u, match n with
              | O => Sample.serve (Sample.pages "two pics") u
              | S _ => Response "" [] NoHeader
              end)
      None MD5.digest Base64.decode (Sample.loads Sample.docs).

End Faulty.

(** ** The vocabulary of the statements *)

Definition candidate (image : post) : string := filename image +:+ ext image.

(** No interrupt arrives at a time from [a] up to, not including, [b]. *)
Definition quiet (E : env) (a b : nat) : Prop :=
  ∀ k, sigint E = Some k → (k < a ∨ b ≤ k)%nat.

(** [open(p, 'wb')] succeeds: a writable file is there, or nothing is and
    the directory above is. *)
Definition can_open (f : gmap path node) (p : path) : Prop :=
  (∃ r d, f !! p = Some (File r true d)) ∨ (f !! p = None ∧ parent_is_dir f p = true).

(** Whether the file is readable after [open(p, 'wb')]. *)
Definition opened_mode (f : gmap path node) (p : path) : bool :=
  match f !! p with
  | Some (File r _ _) => r
  | _ => true
  end.

(** The name of the attachment on the media host, [str(tim) + ext]. *)
Definition remote_name (image : post) : string :=
  match tim image with
  | Some t => str_of_int t +:+ ext image
  | None => ""
  end.

(** The name [__download_image] chooses for [image], the path it writes
    to, the scraper after the choice and the URL it fetches. *)
Definition local_name (self : Scraper) (image : post) : string :=
  if keep_names self then fst (original_name (downloaded_files self) image)
  else remote_name image.

Definition local_path (self : Scraper) (image : post) : string :=
  path_join (destination self) (local_name self image).

Definition named (self : Scraper) (image : post) : Scraper :=
  if keep_names self
  then set_downloaded_files (snd (original_name (downloaded_files self) image)) self
  else self.

Definition remote_url (self : Scraper) (image : post) : string :=
  image_url (board self) (remote_name image).

(** The rest of [__download_image] once the file is found missing or
    different: lines 82-118. *)
Definition transfer (E : env) (self : Scraper) (image : post) : M Scraper :=
  response <- requests_get E (remote_url self image);;
  size <- match header_content_length response with
          | NoHeader => raise (KeyError "content-length")
          | NotANumber => raise ValueError
          | Length n => ret n
          end;;
  save_response E (local_path self image) size response;;
  ret (named self image).

(** The file of [image] is there and readable, and its MD5 is not the one
    the post declares. *)
Definition differs (E : env) (f : gmap path node) (self : Scraper) (image : post) : Prop :=
  ∃ wr data raw,
    f !! components (local_path self image) = Some (File true wr data)
    ∧ b64decode E (md5 image) = Some raw
    ∧ hex (hashlib_md5 E data) ≠ hex raw.

(** The computation [m] never ends in [SystemExit]. *)
Definition no_exit {A} (m : M A) : Prop :=
  ∀ w c, fst (m w) ≠ Raise (SystemExit c).

(** The thread of [url] exists when it is asked for as request number [n]:
    the API answers with a body that is not empty. *)
Definition thread_found (E : env) (n : nat) (url : string) : bool :=
  match split_on slash url !! 3%nat, split_on slash url !! 5%nat with
  | Some b, Some t => negb (String.length (text (net E n (api_url b t))) =? 0)%nat
  | _, _ => false
  end.

(** Every thread of [urls] exists when [main] builds its scraper; the
    scrapers are built in turn, each with one request, the first of them
    request number [n]. *)
Fixpoint all_found (E : env) (n : nat) (urls : list string) : bool :=
  match urls with
  | [] => true
  | url :: rest => thread_found E n url && all_found E (S n) rest
  end.

(** [r] can match a prefix of [s] and leave [t]. *)
Definition leaves (n : nat) (r : regex) (s t : chars) : Prop := In t (ends n r s).

(** What [check_url] accepts, read off its pattern: any character but a
    newline where the host has a dot, an id that may be empty, and a
    newline that may follow. *)
Definition accepted_url (url : string) : Prop :=
  ∃ (d1 d2 : ascii) (host : string) (board id tail : chars),
    (host = "4channel" ∨ host = "4chan")
    ∧ Ascii.eqb d1 newline = false
    ∧ Ascii.eqb d2 newline = false
    ∧ (1 <= length board <= 5)%nat
    ∧ forallb is_lower board = true
    ∧ forallb is_digit id = true
    ∧ (tail = [] ∨ tail = [newline])
    ∧ chars_of url = chars_of "https://boards" ++ d1 :: chars_of host
                     ++ d2 :: chars_of "org/" ++ board ++ chars_of "/thread/" ++ id ++ tail.

(** [sep] does not occur in [s]. *)
Fixpoint free_of (sep : ascii) (s : string) : bool :=
  match s with
  | EmptyString => true
  | String c t => negb (Ascii.eqb c sep) && free_of sep t
  end.

(** [open(p, 'wb')] fails: a directory or a file that cannot be written is
    there, or nothing is and the directory above is missing. *)
Definition cannot_open (f : gmap path node) (p : path) : Prop :=
  f !! p = Some Dir
  ∨ (∃ r d, f !! p = Some (File r false d))
  ∨ (f !! p = None ∧ parent_is_dir f p = false).

Definition invalid_message (url : string) : string := url +:+ " is an invalid thread URL.".

(** The scraper that [__init__] leaves for the board [b] and the thread
    [t] once the document [doc] has been fetched. *)
Definition new_scraper (url : string) (keep : bool) (b t : string) (doc : thread) : Scraper :=
  {| url := url; keep_names := keep; board := b; thread_id := t;
     destination := path_join b t; downloaded_files := []; bar_length := 20;
     the_thread := doc; image_total := 0; image_count := 0 |}.

(** The URLs of [urls] whose thread is found, when the scrapers are built
    in turn and the first request is number [n]. *)
Fixpoint found_urls (E : env) (n : nat) (urls : list string) : list string :=
  match urls with
  | [] => []
  | u :: rest =>
      if thread_found E n u then u :: found_urls E (S n) rest
      else found_urls E (S n) rest
  end.

(** The world after the first loop of [main]: one line is printed for
    every URL that is not valid, and nothing else has changed. *)
Definition reported (a : args) (w : world) : world :=
  World (fs w) (requests w)
        (stdout w ++ map invalid_message (List.filter (λ u, negb (check_url u)) (URLs a)))
        (clock w).

(** Every scraper of [threads] is scraped in turn, each to its end, from
    the world [w] to the world [w']. *)
Fixpoint scraped (E : env) (threads : list Scraper) (w w' : world) : Prop :=
  match threads with
  | [] => w' = w
  | t :: rest => ∃ t' w1, Scrape E t w = (Ok t', w1) ∧ scraped E rest w1 w'
  end.

(** * Properties *)

(** ** The model at work *)

Example parse_url_sample :
  fst (parse_url "https://boards.4channel.org/g/thread/51971506" Sample.empty_world)
  = Ok ("g", "51971506").
Proof. reflexivity. Qed.

(** A thread with two attachments, nothing on disk: two files, both with
    the declared MD5; the thread is fetched by [__init__] and again by
    [Scrape]. *)
Example run_two_pics :
  let r := script (Sample.environment "two pics" None)
             (Args [Sample.thread_url] false) Sample.empty_world in
  fst r = 0%Z
  ∧ fs (snd r) !! ["g"; "51971506"; "1.png"] = Some (File true true Sample.abc)
  ∧ fs (snd r) !! ["g"; "51971506"; "2.png"] = Some (File true true Sample.abc)
  ∧ size (fs (snd r)) = 4%nat
  ∧ option_map hex (Base64.decode Sample.md5_of_abc) = Some (hex (MD5.digest Sample.abc))
  ∧ requests (snd r) = [ "https://a.4cdn.org/g/thread/51971506.json";
                         "https://a.4cdn.org/g/thread/51971506.json";
                         "https://i.4cdn.org/g/1.png";
                         "https://i.4cdn.org/g/2.png" ].
Proof. vm_compute. repeat split; reflexivity. Qed.

(** The same run once more, on the disk the first run left: both files
    are skipped and only the thread is requested. *)
Example run_two_pics_again :
  let E := Sample.environment "two pics" None in
  let a := Args [Sample.thread_url] false in
  let first := snd (script E a Sample.empty_world) in
  let r := script E a (World (fs first) [] [] 0) in
  fst r = 0%Z
  ∧ requests (snd r) = [ "https://a.4cdn.org/g/thread/51971506.json";
                         "https://a.4cdn.org/g/thread/51971506.json" ]
  ∧ stdout (snd r) = [ "1.png already exists. Skipping...";
                       "2.png already exists. Skipping..." ].
Proof. vm_compute. repeat split; reflexivity. Qed.

(** Original names: three posts named [pic.png]. *)
Example run_three_pics_keep_names :
  let r := script (Sample.environment "three pics" None)
             (Args [Sample.thread_url] true) Sample.empty_world in
  fst r = 0%Z
  ∧ fs (snd r) !! ["g"; "51971506"; "pic.png"] = Some (File true true Sample.abc)
  ∧ fs (snd r) !! ["g"; "51971506"; "pic_1.png"] = Some (File true true Sample.abc)
  ∧ fs (snd r) !! ["g"; "51971506"; "pic_2.png"] = Some (File true true Sample.abc).
Proof. vm_compute. repeat split; reflexivity. Qed.

(** Original names: the posts [pic], [pic_1], [pic].  The third post is
    given the name of the second, whose file is found on disk with the
    declared MD5, so the third attachment is never requested. *)
Example run_clash_keep_names :
  let r := script (Sample.environment "clash" None)
             (Args [Sample.thread_url] true) Sample.empty_world in
  fst r = 0%Z
  ∧ requests (snd r) = [ "https://a.4cdn.org/g/thread/51971506.json";
                         "https://a.4cdn.org/g/thread/51971506.json";
                         "https://i.4cdn.org/g/1.png";
                         "https://i.4cdn.org/g/2.png" ]
  ∧ stdout (snd r) = [ "pic_1.png already exists. Skipping..." ].
Proof. vm_compute. repeat split; reflexivity. Qed.

(** A URL that is not valid and a thread that does not exist do not stop
    the run: the third URL is scraped, and the status is 1. *)
Example run_goes_on_after_failures :
  let r := script (Sample.environment "two pics" None)
             (Args [ "bad"; "https://boards.4chan.org/b/thread/1"; Sample.thread_url ] false)
             Sample.empty_world in
  fst r = 1%Z
  ∧ stdout (snd r) = [ "bad is an invalid thread URL.";
                       "Thread with ID 1 in board b does not exist." ]
  ∧ fs (snd r) !! ["g"; "51971506"; "1.png"] = Some (File true true Sample.abc)
  ∧ fs (snd r) !! ["g"; "51971506"; "2.png"] = Some (File true true Sample.abc)
  ∧ fs (snd r) !! ["b"; "1"] = Some Dir.
Proof. vm_compute. repeat split; reflexivity. Qed.

(** The user interrupts while the first attachment is written: status
    130, no file, and the notice of the [__main__] block. *)
Example run_interrupted :
  let r := script (Sample.environment "two pics" (Some 3%nat))
             (Args [Sample.thread_url] false) Sample.empty_world in
  fst r = 130%Z
  ∧ fs (snd r) !! ["g"; "51971506"; "1.png"] = None
  ∧ stdout (snd r) = [ String newline "Program Aborted." ].
Proof. vm_compute. repeat split; reflexivity. Qed.

(** A media response without [Content-length] ends the script with the
    status of an exception that nothing catches. *)
Example run_without_content_length :
  let E := Env (λ _ u, if String.eqb u "https://i.4cdn.org/g/1.png"
                       then Response "" Sample.abc NoHeader
                       else Sample.serve (Sample.pages "two pics") u)
               None MD5.digest Base64.decode (Sample.loads Sample.docs) in
  main E (Args [Sample.thread_url] false) Sample.empty_world
    = (Raise (KeyError "content-length"),
       snd (main E (Args [Sample.thread_url] false) Sample.empty_world))
  ∧ fst (script E (Args [Sample.thread_url] false) Sample.empty_world) = 1%Z.
Proof. vm_compute. repeat split; reflexivity. Qed.

Example check_url_ok :
  check_url "https://boards.4channel.org/g/thread/51971506" = true.
Proof. vm_compute. reflexivity. Qed.

Example check_url_http :
  check_url "http://boards.4channel.org/g/thread/51971506" = false.
Proof. vm_compute. reflexivity. Qed.

Example check_url_long_board :
  check_url "https://boards.4chan.org/abcdef/thread/1" = false.
Proof. vm_compute. reflexivity. Qed.

Example check_url_prefixed :
  check_url "xhttps://boards.4chan.org/g/thread/1" = false.
Proof. vm_compute. reflexivity. Qed.

Example md5_empty : hex (MD5.digest []) = "d41d8cd98f00b204e9800998ecf8427e".
Proof. vm_compute. reflexivity. Qed.

Example md5_abc :
  hex (MD5.digest (bytes_of_string "abc")) = "900150983cd24fb0d6963f7d28e17f72".
Proof. vm_compute. reflexivity. Qed.

Example md5_two_blocks :
  hex (MD5.digest (repeat (byte_of_ascii "x") 70)) = "7d56c0f83fd1e320d60ea2f13dfdeedd".
Proof. vm_compute. reflexivity. Qed.

Example b64_md5_empty :
  option_map hex (Base64.decode "1B2M2Y8AsgTpgAmY7PhCfg==")
  = Some "d41d8cd98f00b204e9800998ecf8427e".
Proof. vm_compute. reflexivity. Qed.

Example b64_md5_abc :
  option_map hex (Base64.decode "kAFQmDzST7DWlj99KOF/cg==")
  = Some "900150983cd24fb0d6963f7d28e17f72".
Proof. vm_compute. reflexivity. Qed.


(** ** File names in original-name mode *)

Lemma count_app x l1 l2 : count x (l1 ++ l2) = (count x l1 + count x l2)%nat.
Proof. unfold count. by rewrite List.filter_app, length_app. Qed.

Lemma count_self x : count x [x] = 1%nat.
Proof. unfold count. simpl. by rewrite String.eqb_refl. Qed.

Lemma contains_count x l : contains x l = negb (count x l =? 0)%nat.
Proof.
  unfold contains, count. induction l as [|y l IH]; simpl; [done|].
  destruct (String.eqb x y); simpl; [done|]. exact IH.
Qed.


(** The branch in closed form: the ledger always grows by the candidate
    name; the result carries a suffix exactly when the candidate was in
    the ledger before. *)
Lemma original_name_eq ledger image :
  original_name ledger image =
  (if (count (candidate image) ledger =? 0)%nat then candidate image
   else filename image +:+ "_"
          +:+ str_of_int (Z.of_nat (count (candidate image) ledger))
          +:+ ext image,
   ledger ++ [candidate image]).
Proof.
  unfold original_name. fold (candidate image).
  rewrite removelast_last, contains_count, count_app, count_self.
  destruct (count (candidate image) ledger =? 0)%nat; simpl; [done|].
  replace (Z.of_nat (count (candidate image) ledger + 1) - 1)%Z
    with (Z.of_nat (count (candidate image) ledger)) by lia.
  done.
Qed.


Lemma original_names_ledger ledger images :
  snd (original_names ledger images) = ledger ++ map candidate images.
Proof.
  revert ledger. induction images as [|image rest IH]; intros ledger; simpl.
  - by rewrite app_nil_r.
  - rewrite original_name_eq.
    specialize (IH (ledger ++ [candidate image])).
    destruct (original_names (ledger ++ [candidate image]) rest) as [names l'].
    simpl in *. by rewrite IH, <- app_assoc.
Qed.

Lemma string_app_length (a b : string) :
  String.length (a +:+ b) = (String.length a + String.length b)%nat.
Proof. induction a as [|c a IH]; simpl; [done|]. by rewrite IH. Qed.

Lemma string_app_inv_head (a b c : string) : a +:+ b = a +:+ c → b = c.
Proof. induction a as [|x a IH]; simpl; [done|]. intros [= H]. auto. Qed.

(** A suffixed name is never the candidate it was made from. *)
Lemma suffixed_ne_candidate image k :
  filename image +:+ "_" +:+ str_of_int k +:+ ext image ≠ candidate image.
Proof.
  unfold candidate. intros H. apply string_app_inv_head in H.
  apply (f_equal String.length) in H.
  rewrite string_app_length in H. simpl in H.
  rewrite string_app_length in H. lia.
Qed.


(** ** The download of one attachment *)

Lemma tick_quiet E w b :
  quiet E (clock w) b → (clock w < b)%nat →
  tick E w = (Ok tt, World (fs w) (requests w) (stdout w) (S (clock w))).
Proof.
  intros Hq Hlt. unfold tick. case_bool_decide as Hs; [|done].
  apply Hq in Hs. lia.
Qed.

Lemma tick_sigint E w :
  sigint E = Some (clock w) →
  tick E w = (Raise KeyboardInterrupt, World (fs w) (requests w) (stdout w) (S (clock w))).
Proof. intros Hs. unfold tick. by rewrite bool_decide_eq_true_2. Qed.

Lemma iter_slices_concat fuel s n :
  (0 < n)%nat → (length s ≤ fuel)%nat → concat (iter_slices fuel s n) = s.
Proof.
  intros Hn. revert s. induction fuel as [|fuel IH]; intros s Hlen.
  - destruct s; simpl in *; [done|lia].
  - destruct s as [|x s]; [done|].
    cbn [iter_slices concat]. rewrite IH.
    + apply take_drop.
    + rewrite length_drop. simpl in *. lia.
Qed.

Lemma tick_other E w :
  sigint E ≠ Some (clock w) →
  tick E w = (Ok tt, World (fs w) (requests w) (stdout w) (S (clock w))).
Proof. intros Hs. unfold tick. by rewrite bool_decide_eq_false_2. Qed.

Lemma write_chunks_ok E p size chunks : ∀ dl w r wr data,
  fs w !! components p = Some (File r wr data) →
  size ≠ 0%Z ∨ chunks = [] →
  quiet E (clock w) (clock w + length chunks) →
  write_chunks E p size dl chunks w =
    (Ok tt, World (<[components p := File r wr (data ++ concat chunks)]> (fs w))
                  (requests w) (stdout w) (clock w + length chunks)).
Proof.
  induction chunks as [|chunk rest IH]; intros dl w r wr data Hf Hs Hq.
  - simpl. unfold ret. rewrite app_nil_r, insert_id by done.
    destruct w; simpl. by rewrite Nat.add_0_r.
  - destruct Hs as [Hs|Hs]; [|done].
    cbn [write_chunks]. unfold bind at 1.
    rewrite (tick_quiet E w (clock w + length (chunk :: rest)))
      by first [exact Hq | simpl; lia].
    set (w1 := World (fs w) (requests w) (stdout w) (S (clock w))).
    assert (Hq1 : quiet E (clock w1) (clock w1 + length rest)).
    { simpl. intros k Hk. apply Hq in Hk. simpl in Hk. lia. }
    destruct chunk as [|b chunk].
    + rewrite (IH dl w1 r wr data Hf (or_introl Hs) Hq1). simpl.
      f_equal. f_equal. lia.
    + unfold bind. unfold file_write at 1. simpl fs at 1. rewrite Hf.
      destruct (size =? 0)%Z eqn:Hz; [lia|].
      unfold ret at 1.
      set (w2 := set_fs _ w1).
      rewrite (IH _ w2 r wr (data ++ b :: chunk)).
      * simpl. rewrite insert_insert_eq. f_equal. f_equal; [|lia].
        by rewrite <- app_assoc.
      * simpl. by rewrite lookup_insert_eq.
      * by left.
      * exact Hq1.
Qed.

Lemma write_chunks_interrupted E p size chunks : ∀ dl w r wr data k,
  fs w !! components p = Some (File r wr data) →
  size ≠ 0%Z →
  sigint E = Some k →
  (clock w ≤ k < clock w + length chunks)%nat →
  write_chunks E p size dl chunks w =
    (Raise KeyboardInterrupt,
     World (<[components p := File r wr (data ++ concat (take (k - clock w) chunks))]> (fs w))
           (requests w) (stdout w) (S k)).
Proof.
  induction chunks as [|chunk rest IH]; intros dl w r wr data k Hf Hs Hk Hin.
  - simpl in Hin. lia.
  - cbn [write_chunks]. unfold bind at 1.
    destruct (decide (k = clock w)) as [->|Hne].
    + rewrite tick_sigint by done. rewrite Nat.sub_diag. simpl.
      by rewrite app_nil_r, insert_id.
    + rewrite tick_other by (rewrite Hk; congruence).
      set (w1 := World (fs w) (requests w) (stdout w) (S (clock w))).
      assert (Hin1 : (clock w1 ≤ k < clock w1 + length rest)%nat).
      { simpl in *. lia. }
      replace (k - clock w)%nat with (S (k - clock w1)) by (simpl; lia).
      destruct chunk as [|b chunk].
      * rewrite (IH dl w1 r wr data k Hf Hs Hk Hin1). done.
      * unfold bind. unfold file_write at 1. simpl fs at 1. rewrite Hf.
        destruct (size =? 0)%Z eqn:Hz; [lia|].
        unfold ret at 1.
        set (w2 := set_fs _ w1).
        rewrite (IH _ w2 r wr (data ++ b :: chunk) k); try done.
        -- simpl. rewrite insert_insert_eq. f_equal. f_equal. f_equal. f_equal.
           by rewrite <- app_assoc.
        -- simpl. by rewrite lookup_insert_eq.
Qed.

(** Whatever happens in the loop, the file it writes to stays a file, the
    other paths stay as they are and no request is made. *)
Lemma write_chunks_frame E p size chunks : ∀ dl w r wr data res w',
  fs w !! components p = Some (File r wr data) →
  write_chunks E p size dl chunks w = (res, w') →
  (∃ data', fs w' !! components p = Some (File r wr data'))
  ∧ (∀ q, q ≠ components p → fs w' !! q = fs w !! q)
  ∧ requests w' = requests w.
Proof.
  induction chunks as [|chunk rest IH]; intros dl w r wr data res w' Hf Hrun.
  - simpl in Hrun. injection Hrun as <- <-. split; [eauto|split; done].
  - cbn [write_chunks] in Hrun. unfold bind at 1, tick in Hrun.
    case_bool_decide.
    { injection Hrun as <- <-. simpl. split; [eauto|split; done]. }
    set (w1 := World (fs w) (requests w) (stdout w) (S (clock w))) in *.
    destruct chunk as [|b chunk].
    + apply (IH dl w1 r wr data res w' Hf Hrun).
    + unfold bind at 1, file_write at 1 in Hrun. simpl fs at 1 in Hrun.
      rewrite Hf in Hrun. unfold bind at 1 in Hrun.
      destruct (size =? 0)%Z eqn:Hz.
      * injection Hrun as <- <-. simpl. rewrite lookup_insert_eq.
        split; [eauto|]. split; [|done].
        intros q Hq. by rewrite lookup_insert_ne.
      * unfold ret at 1 in Hrun.
        eapply IH in Hrun as (Ha & Hb & Hc).
        2:{ simpl. by rewrite lookup_insert_eq. }
        split; [exact Ha|]. split; [|exact Hc].
        intros q Hq. rewrite (Hb q Hq). simpl. by rewrite lookup_insert_ne.
Qed.

Lemma open_wb_ok p w :
  can_open (fs w) (components p) →
  open_wb p w =
    (Ok tt, set_fs <[components p := File (opened_mode (fs w) (components p)) true []]> w).
Proof.
  unfold open_wb, opened_mode. by intros [(r & d & ->)|[-> ->]].
Qed.

Lemma open_wb_cases p w :
  (∃ r, open_wb p w = (Ok tt, set_fs <[components p := File r true []]> w))
  ∨ open_wb p w = (Raise (OSError p), w).
Proof.
  unfold open_wb.
  destruct (fs w !! components p) as [[|r [] d]|]; eauto.
  destruct (parent_is_dir _ _); eauto.
Qed.

Lemma iter_content_concat resp : concat (iter_content resp 1024) = content resp.
Proof. apply iter_slices_concat; lia. Qed.

Lemma save_response_ok E p size resp w :
  can_open (fs w) (components p) →
  size ≠ 0%Z ∨ content resp = [] →
  quiet E (clock w) (clock w + length (iter_content resp 1024) + 1) →
  save_response E p size resp w =
    (Ok tt, World (<[components p :=
                       File (opened_mode (fs w) (components p)) true (content resp)]> (fs w))
                  (requests w) (stdout w)
                  (clock w + length (iter_content resp 1024) + 1)).
Proof.
  intros Hopen Hsize Hq.
  pose proof (open_wb_ok p w Hopen) as Ho.
  set (r := opened_mode (fs w) (components p)) in *.
  unfold save_response, bind at 1, attempt. rewrite Ho.
  unfold finally, try_except, bind at 1.
  set (w1 := set_fs _ w).
  rewrite (write_chunks_ok E p size _ 0%Z w1 r true []).
  - rewrite (tick_quiet E _ (clock w + length (iter_content resp 1024) + 1)).
    + simpl. rewrite insert_insert_eq, iter_content_concat.
      f_equal. f_equal. lia.
    + simpl. intros k Hk. apply Hq in Hk. lia.
    + simpl. lia.
  - simpl. by rewrite lookup_insert_eq.
  - destruct Hsize as [?|Hc]; [by left|right].
    unfold iter_content. by rewrite Hc.
  - simpl. intros k Hk. apply Hq in Hk. lia.
Qed.

Lemma save_response_interrupted E p size resp w k :
  can_open (fs w) (components p) →
  size ≠ 0%Z →
  sigint E = Some k →
  (clock w ≤ k ≤ clock w + length (iter_content resp 1024))%nat →
  save_response E p size resp w =
    (Raise KeyboardInterrupt,
     World (delete (components p) (fs w)) (requests w) (stdout w) (S k)).
Proof.
  intros Hopen Hsize Hk Hin.
  pose proof (open_wb_ok p w Hopen) as Ho.
  set (r := opened_mode (fs w) (components p)) in *.
  unfold save_response, bind at 1, attempt. rewrite Ho.
  unfold finally, try_except, bind at 1.
  set (w1 := set_fs _ w).
  destruct (decide (k = clock w + length (iter_content resp 1024))%nat) as [Hlast|Hne].
  - rewrite (write_chunks_ok E p size _ 0%Z w1 r true []).
    + rewrite tick_sigint by (simpl; rewrite Hk; f_equal; lia).
      unfold bind, os_remove. simpl. rewrite lookup_insert_eq. simpl.
      unfold set_fs. simpl. rewrite !delete_insert_eq. f_equal. f_equal. lia.
    + simpl. by rewrite lookup_insert_eq.
    + by left.
    + simpl. intros k' Hk'. rewrite Hk in Hk'. injection Hk' as <-. lia.
  - rewrite (write_chunks_interrupted E p size _ 0%Z w1 r true [] k).
    + unfold bind, os_remove. simpl. rewrite lookup_insert_eq. simpl.
      unfold set_fs. simpl. by rewrite !delete_insert_eq.
    + simpl. by rewrite lookup_insert_eq.
    + done.
    + done.
    + simpl. lia.
Qed.

Lemma save_response_frame E p size resp w res w' :
  save_response E p size resp w = (res, w') →
  (∀ q, q ≠ components p → fs w' !! q = fs w !! q)
  ∧ requests w' = requests w
  ∧ (res = Raise KeyboardInterrupt → fs w' !! components p = None).
Proof.
  intros Hrun.
  unfold save_response, bind at 1, attempt in Hrun.
  destruct (open_wb_cases p w) as [[r Ho]|Ho]; rewrite Ho in Hrun.
  - unfold finally, try_except, bind at 1 in Hrun.
    set (w1 := set_fs _ w) in *.
    destruct (write_chunks E p size 0 (iter_content resp 1024) w1) as [o w2] eqn:Hw.
    eapply write_chunks_frame in Hw as ((d' & Ha) & Hb & Hc).
    2:{ simpl. by rewrite lookup_insert_eq. }
    assert (Hq : ∀ q, q ≠ components p → fs w2 !! q = fs w !! q).
    { intros q Hq. rewrite (Hb q Hq). simpl. by rewrite lookup_insert_ne. }
    destruct o as [[]|e].
    + unfold tick in Hrun. case_bool_decide.
      * unfold bind, os_remove in Hrun. simpl in Hrun. rewrite Ha in Hrun.
        simpl in Hrun. injection Hrun as <- <-. simpl.
        split; [|split; [done|]].
        -- intros q Hne. rewrite lookup_delete_ne by done. by apply Hq.
        -- intros _. by rewrite lookup_delete_eq.
      * simpl in Hrun. injection Hrun as <- <-. simpl. done.
    + destruct e; simpl in Hrun;
        try (injection Hrun as <- <-; split; [done|split; [done|done]]).
      unfold bind, os_remove in Hrun. rewrite Ha in Hrun. simpl in Hrun.
      injection Hrun as <- <-. simpl.
      split; [|split; [done|]].
      * intros q Hne. rewrite lookup_delete_ne by done. by apply Hq.
      * intros _. by rewrite lookup_delete_eq.
  - simpl in Hrun. injection Hrun as <- <-. done.
Qed.

Lemma naming_step self image (k : string * Scraper → M Scraper) w :
  is_Some (tim image) →
  bind (if keep_names self
        then let '(name, ledger) := original_name (downloaded_files self) image in
             ret (name, set_downloaded_files ledger self)
        else match tim image with
             | Some t => ret (str_of_int t +:+ ext image, self)
             | None => raise (KeyError "tim")
             end) k w
  = k (local_name self image, named self image) w.
Proof.
  intros [t Ht]. unfold local_name, named, remote_name, bind.
  destruct (keep_names self).
  - by destruct (original_name _ _).
  - by rewrite Ht.
Qed.

Lemma named_destination self image : destination (named self image) = destination self.
Proof. unfold named. by destruct (keep_names self). Qed.

Lemma named_board self image : board (named self image) = board self.
Proof. unfold named. by destruct (keep_names self). Qed.

Lemma download_skip E self image w wr data raw :
  is_Some (tim image) →
  fs w !! components (local_path self image) = Some (File true wr data) →
  b64decode E (md5 image) = Some raw →
  hex (hashlib_md5 E data) = hex raw →
  download_image E self image w =
    (Ok (named self image),
     World (fs w) (requests w)
           (stdout w ++ [local_name self image +:+ " already exists. Skipping..."])
           (clock w)).
Proof.
  intros Ht Hf Hdec Heq. unfold download_image.
  rewrite naming_step by done. cbv beta iota.
  rewrite named_destination. fold (local_path self image).
  unfold bind at 1, os_path_exists. rewrite Hf.
  rewrite bool_decide_eq_true_2 by eauto.
  rewrite Hdec. unfold bind, md5check, read_file, bind. rewrite Hf.
  unfold ret at 1. rewrite Heq, String.eqb_refl. simpl. done.
Qed.

Lemma download_falls_through E self image w :
  is_Some (tim image) →
  fs w !! components (local_path self image) = None ∨ differs E (fs w) self image →
  download_image E self image w = transfer E self image w.
Proof.
  intros Ht Hcase. unfold download_image.
  rewrite naming_step by done. cbv beta iota.
  rewrite named_destination, named_board. fold (local_path self image).
  unfold bind at 1, os_path_exists.
  assert (Htail : ∀ w0,
    match tim image with
    | Some t =>
        response <- requests_get E (image_url (board self) (str_of_int t +:+ ext image));;
        size <- match header_content_length response with
                | NoHeader => raise (KeyError "content-length")
                | NotANumber => raise ValueError
                | Length n => ret n
                end;;
        save_response E (local_path self image) size response;;
        ret (named self image)
    | None => raise (KeyError "tim")
    end w0 = transfer E self image w0).
  { intros w0. unfold transfer, remote_url, remote_name.
    destruct Ht as [t ->]. done. }
  destruct Hcase as [Hnone|(wr & data & raw & Hf & Hdec & Hne)].
  - rewrite Hnone. rewrite bool_decide_eq_false_2 by (intros [? ?]; done).
    unfold bind at 1, ret at 1. cbv beta iota. apply Htail.
  - rewrite Hf. rewrite bool_decide_eq_true_2 by eauto.
    rewrite Hdec. unfold bind at 1, bind at 1, md5check, bind at 1, read_file.
    rewrite Hf. unfold ret at 1.
    destruct (String.eqb_spec (hex (hashlib_md5 E data)) (hex raw)) as [?|_]; [done|].
    unfold ret at 1. cbv beta iota. apply Htail.
Qed.

Lemma download_unreadable E self image w raw :
  is_Some (tim image) →
  b64decode E (md5 image) = Some raw →
  fs w !! components (local_path self image) = Some Dir
  ∨ (∃ wr data, fs w !! components (local_path self image) = Some (File false wr data)) →
  download_image E self image w = (Raise (OSError (local_path self image)), w).
Proof.
  intros Ht Hdec Hcase. unfold download_image.
  rewrite naming_step by done. cbv beta iota.
  rewrite named_destination. fold (local_path self image).
  unfold bind at 1, os_path_exists.
  destruct Hcase as [Hf|(wr & data & Hf)]; rewrite Hf;
    (rewrite bool_decide_eq_true_2 by eauto);
    rewrite Hdec; unfold bind, md5check, read_file, bind; by rewrite Hf.
Qed.

Lemma requests_get_ok E u w :
  sigint E ≠ Some (clock w) →
  requests_get E u w =
    (Ok (net E (length (requests w)) u),
     World (fs w) (requests w ++ [u]) (stdout w) (S (clock w))).
Proof. intros Hs. unfold requests_get, bind. by rewrite tick_other. Qed.

Lemma transfer_ok E self image w n :
  let resp := net E (length (requests w)) (remote_url self image) in
  let p := components (local_path self image) in
  can_open (fs w) p →
  header_content_length resp = Length n →
  n ≠ 0%Z ∨ content resp = [] →
  quiet E (clock w) (clock w + length (iter_content resp 1024) + 2) →
  transfer E self image w =
    (Ok (named self image),
     World (<[p := File (opened_mode (fs w) p) true (content resp)]> (fs w))
           (requests w ++ [remote_url self image]) (stdout w)
           (clock w + length (iter_content resp 1024) + 2)).
Proof.
  intros resp p Hopen Hlen Hn Hq. unfold transfer, bind at 1.
  rewrite requests_get_ok.
  2:{ intros Hs. apply Hq in Hs. lia. }
  fold resp. rewrite Hlen. unfold bind at 1, ret at 1. unfold bind.
  rewrite (save_response_ok E _ n resp); simpl; try done.
  - unfold ret. f_equal. f_equal. lia.
  - intros k Hk. apply Hq in Hk. lia.
Qed.

Lemma transfer_requests E self image w :
  sigint E ≠ Some (clock w) →
  requests (snd (transfer E self image w)) = requests w ++ [remote_url self image].
Proof.
  intros Hs. unfold transfer, bind at 1. rewrite requests_get_ok by done.
  set (w1 := World _ _ _ _). set (resp := net E _ _).
  destruct (header_content_length resp); try done.
  unfold bind at 1, ret at 1. unfold bind.
  destruct (save_response E (local_path self image) n resp w1) as [o w2] eqn:Hsave.
  apply save_response_frame in Hsave as (_ & Hr & _).
  by destruct o.
Qed.

Lemma transfer_interrupted E self image w n k :
  let resp := net E (length (requests w)) (remote_url self image) in
  let p := components (local_path self image) in
  can_open (fs w) p →
  header_content_length resp = Length n →
  n ≠ 0%Z →
  sigint E = Some k →
  (clock w < k ≤ clock w + length (iter_content resp 1024) + 1)%nat →
  transfer E self image w =
    (Raise KeyboardInterrupt,
     World (delete p (fs w)) (requests w ++ [remote_url self image]) (stdout w) (S k)).
Proof.
  intros resp p Hopen Hlen Hn Hk Hin. unfold transfer, bind at 1.
  rewrite requests_get_ok by (rewrite Hk; intros [= ->]; lia).
  fold resp. rewrite Hlen. unfold bind at 1, ret at 1. unfold bind.
  rewrite (save_response_interrupted E _ n resp _ k); simpl; try done. lia.
Qed.

(** C2: when the file of an attachment is there, readable, and its MD5 in
    hex is the declared one, [__download_image] returns without a request
    and without touching the files; when the two differ it sends one GET
    for the attachment and the file holds the bytes of the response
    afterwards, provided the file can be written, the response carries a
    sound [Content-length] and the user does not interrupt. *)
Theorem existing_file_skipped_or_fetched E self image w wr data raw :
  is_Some (tim image) →
  fs w !! components (local_path self image) = Some (File true wr data) →
  b64decode E (md5 image) = Some raw →
  (hex (hashlib_md5 E data) = hex raw →
   ∃ w', download_image E self image w = (Ok (named self image), w')
         ∧ requests w' = requests w
         ∧ fs w' = fs w)
  ∧ (hex (hashlib_md5 E data) ≠ hex raw →
     let resp := net E (length (requests w)) (remote_url self image) in
     ∀ n, wr = true →
          header_content_length resp = Length n →
          n ≠ 0%Z ∨ content resp = [] →
          quiet E (clock w) (clock w + length (iter_content resp 1024) + 2) →
     ∃ w', download_image E self image w = (Ok (named self image), w')
           ∧ requests w' = requests w ++ [remote_url self image]
           ∧ fs w' = <[components (local_path self image) :=
                         File true true (content resp)]> (fs w)).
Proof.
  intros Ht Hf Hdec. split.
  - intros Heq. eexists. split; [by eapply download_skip|]. done.
  - intros Hne resp n -> Hlen Hn Hq.
    rewrite download_falls_through by (try done; right; by exists true, data, raw).
    eexists. split.
    + apply (transfer_ok E self image w n); try done.
      left. eauto.
    + simpl. split; [done|]. unfold opened_mode. by rewrite Hf.
Qed.

(** C2 at work: with [abc] on disk the first picture is skipped; with
    other bytes on disk it is fetched once and the file holds [abc]. *)
Lemma existing_file_witness :
  let E := Sample.environment "two pics" None in
  let s := Sample.scraper false in
  let same := Sample.disk [("1.png", File true true Sample.abc)] in
  let other := Sample.disk [("1.png", File true true Sample.other_bytes)] in
  (∃ w', download_image E s (Sample.pic 1) same = (Ok s, w')
         ∧ requests w' = [] ∧ fs w' = fs same)
  ∧ (∃ w', download_image E s (Sample.pic 1) other = (Ok s, w')
           ∧ requests w' = ["https://i.4cdn.org/g/1.png"]
           ∧ fs w' !! ["g"; "51971506"; "1.png"] = Some (File true true Sample.abc)).
Proof.
  intros E s same other.
  assert (Ht : is_Some (tim (Sample.pic 1))) by (by eexists).
  assert (Hdec : b64decode E (md5 (Sample.pic 1)) = Some (MD5.digest Sample.abc))
    by (vm_compute; reflexivity).
  split.
  - assert (Hf : fs same !! components (local_path s (Sample.pic 1))
                 = Some (File true true Sample.abc)) by (vm_compute; reflexivity).
    assert (Heq : hex (hashlib_md5 E Sample.abc) = hex (MD5.digest Sample.abc))
      by (vm_compute; reflexivity).
    pose proof (existing_file_skipped_or_fetched E s (Sample.pic 1) same
                  true Sample.abc (MD5.digest Sample.abc) Ht Hf Hdec) as [H _].
    destruct (H Heq) as (w' & H1 & H2 & H3).
    exists w'. split; [exact H1|]. split; [exact H2|exact H3].
  - assert (Hf : fs other !! components (local_path s (Sample.pic 1))
                 = Some (File true true Sample.other_bytes)) by (vm_compute; reflexivity).
    assert (Hne : hex (hashlib_md5 E Sample.other_bytes) ≠ hex (MD5.digest Sample.abc))
      by (vm_compute; discriminate).
    assert (Hlen : header_content_length
                     (net E (length (requests other)) (remote_url s (Sample.pic 1)))
                   = Length 3) by (vm_compute; reflexivity).
    assert (Hq : quiet E (clock other)
                   (clock other + length (iter_content
                      (net E (length (requests other)) (remote_url s (Sample.pic 1))) 1024) + 2))
      by (intros k Hk; discriminate Hk).
    assert (Hn : (3 ≠ 0)%Z) by discriminate.
    pose proof (existing_file_skipped_or_fetched E s (Sample.pic 1) other
                  true Sample.other_bytes (MD5.digest Sample.abc) Ht Hf Hdec) as [_ H].
    destruct (H Hne 3%Z eq_refl Hlen (or_introl Hn) Hq) as (w' & Hrun & Hreq & Hfs).
    exists w'. split; [exact Hrun|]. split; [exact Hreq|].
    rewrite Hfs. vm_compute. reflexivity.
Defined.

(** C5, as the code has it: when the file is there and its MD5 differs
    from the declared one, [__download_image] goes on to the download and
    sends the GET; when the file is there and cannot be read (it is a
    directory, or not readable), the error of [open] leaves
    [__download_image] and nothing is requested. *)
Theorem existing_file_differs_or_unreadable E self image w :
  is_Some (tim image) →
  (differs E (fs w) self image →
   sigint E ≠ Some (clock w) →
   download_image E self image w = transfer E self image w
   ∧ requests (snd (download_image E self image w))
     = requests w ++ [remote_url self image])
  ∧ (∀ raw,
       b64decode E (md5 image) = Some raw →
       fs w !! components (local_path self image) = Some Dir
       ∨ (∃ wr data,
            fs w !! components (local_path self image) = Some (File false wr data)) →
       download_image E self image w = (Raise (OSError (local_path self image)), w)).
Proof.
  intros Ht. split.
  - intros Hd Hs.
    assert (Heq : download_image E self image w = transfer E self image w)
      by (apply download_falls_through; [done|by right]).
    split; [exact Heq|]. rewrite Heq. by apply transfer_requests.
  - intros raw Hdec Hcase. by eapply download_unreadable.
Qed.

Lemma existing_file_differs_witness :
  let E := Sample.environment "two pics" None in
  let s := Sample.scraper false in
  let other := Sample.disk [("1.png", File true true Sample.other_bytes)] in
  let locked := Sample.disk [("1.png", File false true Sample.abc)] in
  requests (snd (download_image E s (Sample.pic 1) other)) = ["https://i.4cdn.org/g/1.png"]
  ∧ download_image E s (Sample.pic 1) locked = (Raise (OSError "g/51971506/1.png"), locked).
Proof.
  intros E s other locked.
  assert (Ht : is_Some (tim (Sample.pic 1))) by (by eexists).
  split.
  - pose proof (existing_file_differs_or_unreadable E s (Sample.pic 1) other Ht) as [H _].
    assert (Hd : differs E (fs other) s (Sample.pic 1)).
    { exists true, Sample.other_bytes, (MD5.digest Sample.abc).
      split; [vm_compute; reflexivity|]. split; [vm_compute; reflexivity|].
      vm_compute. discriminate. }
    assert (Hs : sigint E ≠ Some (clock other)) by discriminate.
    exact (proj2 (H Hd Hs)).
  - pose proof (existing_file_differs_or_unreadable E s (Sample.pic 1) locked Ht) as [_ H].
    assert (Hdec : b64decode E (md5 (Sample.pic 1)) = Some (MD5.digest Sample.abc))
      by (vm_compute; reflexivity).
    assert (Hf : fs locked !! components (local_path s (Sample.pic 1))
                 = Some (File false true Sample.abc)) by (vm_compute; reflexivity).
    exact (H _ Hdec (or_intror (ex_intro _ true (ex_intro _ Sample.abc Hf)))).
Defined.

(** C5 as stated fails: a file that is there and cannot be read makes
    [__download_image] raise the error of [open]; it does not go on to the
    download and sends no request. *)
Lemma unreadable_file_raises :
  let E := Sample.environment "two pics" None in
  let locked := Sample.disk [("1.png", File false true Sample.abc)] in
  download_image E (Sample.scraper false) (Sample.pic 1) locked
    = (Raise (OSError "g/51971506/1.png"), locked)
  ∧ requests (snd (download_image E (Sample.scraper false) (Sample.pic 1) locked)) = []
  ∧ ¬ ∃ self', fst (download_image E (Sample.scraper false) (Sample.pic 1) locked)
                = Ok self'.
Proof.
  intros E locked.
  assert (H : download_image E (Sample.scraper false) (Sample.pic 1) locked
              = (Raise (OSError "g/51971506/1.png"), locked))
    by (vm_compute; reflexivity).
  rewrite H. split; [done|]. split; [done|]. intros [? ?]. discriminate.
Qed.

(** C6: an interrupt that arrives while the chunks are written, or right
    after the last one, leaves [save_response] as [KeyboardInterrupt] with
    the file removed and every other path as before; and whenever
    [save_response] ends in [KeyboardInterrupt], no file is at the path.
    Seen from [__download_image], the interrupt leaves it too. *)
Theorem interrupt_removes_partial_file E p size resp w :
  (∀ res w',
     save_response E p size resp w = (res, w') →
     res = Raise KeyboardInterrupt →
     fs w' !! components p = None)
  ∧ (∀ k,
       can_open (fs w) (components p) →
       size ≠ 0%Z →
       sigint E = Some k →
       (clock w ≤ k ≤ clock w + length (iter_content resp 1024))%nat →
       save_response E p size resp w =
         (Raise KeyboardInterrupt,
          World (delete (components p) (fs w)) (requests w) (stdout w) (S k)))
  ∧ (∀ self image k n,
       p = local_path self image →
       resp = net E (length (requests w)) (remote_url self image) →
       is_Some (tim image) →
       fs w !! components p = None ∨ differs E (fs w) self image →
       can_open (fs w) (components p) →
       header_content_length resp = Length n →
       n ≠ 0%Z →
       sigint E = Some k →
       (clock w < k ≤ clock w + length (iter_content resp 1024) + 1)%nat →
       fst (download_image E self image w) = Raise KeyboardInterrupt
       ∧ fs (snd (download_image E self image w)) !! components p = None).
Proof.
  split; [|split].
  - intros res w' Hrun Hres.
    apply save_response_frame in Hrun as (_ & _ & H). exact (H Hres).
  - intros k. apply save_response_interrupted.
  - intros self image k n -> -> Ht Hcase Hopen Hlen Hn Hk Hin.
    rewrite download_falls_through by done.
    rewrite (transfer_interrupted E self image w n k) by done.
    simpl. split; [done|]. apply lookup_delete_eq.
Qed.

(** C6 at work: the body of 2500 bytes comes in three chunks; the user
    interrupts when the second chunk is about to be written. *)
Lemma interrupt_witness :
  let E := Sample.environment "two pics" (Some 2%nat) in
  let s := Sample.scraper false in
  let w := Sample.disk [] in
  fst (download_image E s Sample.large w) = Raise KeyboardInterrupt
  ∧ fs (snd (download_image E s Sample.large w)) !! ["g"; "51971506"; "9.bin"] = None.
Proof.
  intros E s w.
  pose proof (interrupt_removes_partial_file E (local_path s Sample.large) 2500%Z
                (net E (length (requests w)) (remote_url s Sample.large)) w)
    as (_ & _ & H).
  assert (Ht : is_Some (tim Sample.large)) by (by eexists).
  assert (Hnone : fs w !! components (local_path s Sample.large) = None)
    by (vm_compute; reflexivity).
  assert (Hopen : can_open (fs w) (components (local_path s Sample.large))).
  { right. split; [exact Hnone|]. vm_compute. reflexivity. }
  assert (Hlen : header_content_length
                   (net E (length (requests w)) (remote_url s Sample.large))
                 = Length 2500) by (vm_compute; reflexivity).
  assert (Hn : (2500 ≠ 0)%Z) by discriminate.
  assert (Hin : (clock w < 2
                 ≤ clock w + length (iter_content
                     (net E (length (requests w)) (remote_url s Sample.large)) 1024) + 1)%nat).
  { assert (Hl : length (iter_content
                   (net E (length (requests w)) (remote_url s Sample.large)) 1024) = 3%nat)
      by (vm_compute; reflexivity).
    rewrite Hl. simpl. lia. }
  exact (H s Sample.large 2%nat 2500%Z eq_refl eq_refl Ht (or_introl Hnone)
           Hopen Hlen Hn eq_refl Hin).
Defined.

(** ** Fetching a thread *)

Lemma get_thread_eq E self w :
  sigint E ≠ Some (clock w) →
  get_thread E self w =
    let u := api_url (board self) (thread_id self) in
    let resp := net E (length (requests w)) u in
    let w' := World (fs w) (requests w ++ [u]) (stdout w) (S (clock w)) in
    if (String.length (text resp) =? 0)%nat
    then (Raise (ThreadDoesNotExist (board self) (thread_id self)), w')
    else match json_loads E (text resp) with
         | Some t => (Ok (set_thread t self), w')
         | None => (Raise JSONDecodeError, w')
         end.
Proof.
  intros Hs. unfold get_thread, bind. rewrite requests_get_ok by done.
  cbv zeta. destruct (String.length _ =? 0)%nat; [done|].
  by destruct (json_loads E _).
Qed.

Lemma length_zero_empty (s : string) : (String.length s =? 0)%nat = true ↔ s = "".
Proof. destruct s; simpl; split; congruence. Qed.

(** C8: when the body of the API's answer is empty, [__get_thread] raises
    [ThreadDoesNotExist] with the board and the thread id it asked for;
    when it is not, the body goes to [json.loads], whose failure leaves
    [__get_thread], is not caught by the loop of [main] that builds the
    scrapers, and ends the script with status 1. *)
Theorem get_thread_empty_or_parsed E self w :
  sigint E ≠ Some (clock w) →
  let u := api_url (board self) (thread_id self) in
  let resp := net E (length (requests w)) u in
  let w' := World (fs w) (requests w ++ [u]) (stdout w) (S (clock w)) in
  (text resp = "" →
   get_thread E self w = (Raise (ThreadDoesNotExist (board self) (thread_id self)), w'))
  ∧ (text resp ≠ "" →
     get_thread E self w =
       match json_loads E (text resp) with
       | Some t => (Ok (set_thread t self), w')
       | None => (Raise JSONDecodeError, w')
       end)
  ∧ (∀ url keep rest threads exitcode w0 w1,
       Scraper_init E url keep w0 = (Raise JSONDecodeError, w1) →
       construct E keep (url :: rest) threads exitcode w0 = (Raise JSONDecodeError, w1))
  ∧ (∀ a w0 w1,
       main E a w0 = (Raise JSONDecodeError, w1) →
       script E a w0 = (1%Z, w1)).
Proof.
  intros Hs u resp w'. repeat split.
  - intros Hempty. rewrite get_thread_eq by done. cbv zeta. fold u resp.
    by rewrite (proj2 (length_zero_empty _) Hempty).
  - intros Hne. rewrite get_thread_eq by done. cbv zeta. fold u resp.
    destruct (String.length (text resp) =? 0)%nat eqn:Hl; [|done].
    by apply length_zero_empty in Hl.
  - intros url keep rest threads exitcode w0 w1 Hinit.
    cbn [construct]. unfold bind at 1, try_except, bind at 1. by rewrite Hinit.
  - intros a w0 w1 Hmain. unfold script, try_except. by rewrite Hmain.
Qed.

(** C8 at work: for the sample thread the API answers with an empty
    body, then with a body that is no document. *)
Lemma get_thread_witness :
  let s := Sample.scraper false in
  let w' := World ∅ ["https://a.4cdn.org/g/thread/51971506.json"] [] 1 in
  get_thread (Sample.environment "" None) s Sample.empty_world
    = (Raise (ThreadDoesNotExist "g" "51971506"), w')
  ∧ get_thread (Sample.environment "garbage" None) s Sample.empty_world
    = (Raise JSONDecodeError, w').
Proof.
  intros s w'. split.
  - assert (Hs : sigint (Sample.environment "" None) ≠ Some (clock Sample.empty_world))
      by discriminate.
    pose proof (get_thread_empty_or_parsed _ s _ Hs) as (H & _).
    exact (H eq_refl).
  - assert (Hs : sigint (Sample.environment "garbage" None) ≠ Some (clock Sample.empty_world))
      by discriminate.
    pose proof (get_thread_empty_or_parsed _ s _ Hs) as (_ & H & _).
    assert (Hne : text (net (Sample.environment "garbage" None)
                          (length (requests Sample.empty_world))
                          (api_url (board s) (thread_id s))) ≠ "")
      by (vm_compute; discriminate).
    exact (H Hne).
Defined.

(** ** Building a scraper *)

Lemma take_rev_cons {A} (x : A) (l : list A) k :
  (k ≤ length l)%nat → take k (rev (x :: l)) = take k (rev l).
Proof. intros Hk. simpl. rewrite take_app_le by (by rewrite length_rev). done. Qed.

(** [os.makedirs] succeeds when nothing is at the path and everything
    above it is a directory or missing; the path is a directory then, and
    only the path and what is above it can have changed. *)
Lemma makedirs_from_ok rev_parts : ∀ w,
  rev_parts ≠ [] →
  fs w !! rev rev_parts = None →
  (∀ k, (0 < k < length rev_parts)%nat →
        fs w !! take k (rev rev_parts) = None
        ∨ fs w !! take k (rev rev_parts) = Some Dir) →
  ∃ f, makedirs_from rev_parts w = (Ok tt, World f (requests w) (stdout w) (clock w))
       ∧ f !! rev rev_parts = Some Dir
       ∧ (∀ q, (∀ k, q ≠ take k (rev rev_parts)) → f !! q = fs w !! q).
Proof.
  induction rev_parts as [|x rev_head IH]; intros w Hne Hnone Hanc; [done|].
  cbn [makedirs_from]. unfold bind.
  assert (Hstep : ∀ w1 : world,
    fs w1 !! rev (x :: rev_head) = None →
    parent_is_dir (fs w1) (rev (x :: rev_head)) = true →
    mkdir_at (rev (x :: rev_head)) w1
    = (Ok tt, World (<[rev (x :: rev_head) := Dir]> (fs w1))
                    (requests w1) (stdout w1) (clock w1))).
  { intros w1 H1 H2. unfold mkdir_at. by rewrite H1, H2. }
  assert (Hparent : removelast (rev (x :: rev_head)) = rev rev_head).
  { simpl. apply removelast_last. }
  assert (Hself : ∀ k, rev (x :: rev_head) ≠ take k (rev rev_head)).
  { intros k Heq. apply (f_equal length) in Heq.
    rewrite length_take, !length_rev in Heq. simpl in Heq. lia. }
  destruct rev_head as [|y rev_head'] eqn:Hhead.
  - unfold ret. rewrite Hstep; [|done|done].
    eexists. split; [destruct w; reflexivity|]. simpl.
    split; [apply lookup_insert_eq|].
    intros q Hq. apply lookup_insert_ne. intros <-.
    apply (Hq 1%nat). reflexivity.
  - assert (Hne2 : rev_head ≠ []) by (by rewrite Hhead).
    rewrite <- Hhead in *. clear Hhead.
    assert (Hprefix : take (length rev_head) (rev (x :: rev_head)) = rev rev_head).
    { rewrite take_rev_cons by done. rewrite <- (length_rev rev_head). apply firstn_all. }
    destruct (fs w !! rev rev_head) as [n|] eqn:Hup.
    + assert (n = Dir) as ->.
      { destruct (Hanc (length rev_head)) as [H|H].
        - destruct rev_head; [done|simpl; lia].
        - rewrite Hprefix in H. congruence.
        - rewrite Hprefix in H. congruence. }
      rewrite Hstep; [|done|].
      * eexists. split; [destruct w; reflexivity|]. simpl.
        split; [apply lookup_insert_eq|].
        intros q Hq. apply lookup_insert_ne. intros <-.
        apply (Hq (length (rev (x :: rev_head)))). symmetry. apply firstn_all.
      * unfold parent_is_dir. rewrite Hparent.
        destruct (rev rev_head) as [|[|] [|]]; try done; by rewrite Hup.
    + destruct (IH w) as (f & Hrun & Hdir & Hframe).
      * done.
      * done.
      * intros k Hk. rewrite <- (take_rev_cons x) by lia.
        apply Hanc. simpl. lia.
      * rewrite Hrun. rewrite Hstep.
        -- eexists. split; [reflexivity|]. simpl.
           split; [apply lookup_insert_eq|].
           intros q Hq. rewrite lookup_insert_ne.
           ++ apply Hframe. intros k Heq. subst q.
              destruct (decide (k ≤ length rev_head)%nat) as [Hle|Hgt].
              ** apply (Hq k). symmetry. by apply take_rev_cons.
              ** apply (Hq (length rev_head)).
                 etrans; [|symmetry; apply Hprefix].
                 apply firstn_all2. rewrite length_rev. lia.
           ++ intros <-. apply (Hq (length (rev (x :: rev_head)))).
              symmetry. apply firstn_all.
        -- cbn [fs]. rewrite Hframe; [done|]. apply Hself.
        -- cbn [fs]. unfold parent_is_dir. rewrite Hparent.
           destruct (rev rev_head) as [|[|] [|]]; try done; by rewrite Hdir.
Qed.

(** C9: [__init__] for a URL whose thread the API does not have makes the
    directory [<board>/<thread id>] and then raises [ThreadDoesNotExist];
    the directory is there in the world the exception leaves behind. *)
Theorem init_makes_directory_before_fetch E url keep w b t :
  split_on slash url !! 3%nat = Some b →
  split_on slash url !! 5%nat = Some t →
  let p := components (path_join b t) in
  p ≠ [] →
  fs w !! p = None →
  (∀ k, (0 < k < length p)%nat →
        fs w !! take k p = None ∨ fs w !! take k p = Some Dir) →
  sigint E ≠ Some (clock w) →
  text (net E (length (requests w)) (api_url b t)) = "" →
  ∃ w', Scraper_init E url keep w = (Raise (ThreadDoesNotExist b t), w')
        ∧ fs w' !! p = Some Dir
        ∧ requests w' = requests w ++ [api_url b t].
Proof.
  intros Hb Ht p Hp Hnone Hanc Hs Htext.
  unfold Scraper_init, bind at 1, parse_url. rewrite Hb, Ht.
  unfold ret at 1. cbv beta iota. unfold bind at 1, os_path_exists.
  fold p. rewrite Hnone, bool_decide_eq_false_2 by (intros [? ?]; done).
  cbn [negb]. unfold bind at 1, os_makedirs. fold p.
  destruct (makedirs_from_ok (rev p) w) as (f & Hrun & Hdir & _).
  - intros Hrev. apply Hp. by rewrite <- (rev_involutive p), Hrev.
  - by rewrite rev_involutive.
  - intros k Hk. rewrite rev_involutive. apply Hanc. by rewrite length_rev in Hk.
  - rewrite Hrun. rewrite rev_involutive in Hdir.
    rewrite get_thread_eq by done. cbv zeta. cbn [board thread_id requests fs].
    rewrite (proj2 (length_zero_empty _) Htext). eauto.
Qed.

(** C9 at work: in an empty working directory, for the sample URL. *)
Lemma init_directory_witness :
  ∃ w', Scraper_init (Sample.environment "" None) Sample.thread_url false Sample.empty_world
          = (Raise (ThreadDoesNotExist "g" "51971506"), w')
        ∧ fs w' !! ["g"; "51971506"] = Some Dir
        ∧ requests w' = ["https://a.4cdn.org/g/thread/51971506.json"].
Proof.
  assert (Hp : components (path_join "g" "51971506") ≠ []) by discriminate.
  assert (Hanc : ∀ k, (0 < k < length (components (path_join "g" "51971506")))%nat →
                   fs Sample.empty_world !! take k (components (path_join "g" "51971506")) = None
                   ∨ fs Sample.empty_world !! take k (components (path_join "g" "51971506"))
                     = Some Dir).
  { intros k _. left. apply lookup_empty. }
  assert (Hs : sigint (Sample.environment "" None) ≠ Some (clock Sample.empty_world))
    by discriminate.
  exact (init_makes_directory_before_fetch (Sample.environment "" None)
           Sample.thread_url false Sample.empty_world "g" "51971506"
           eq_refl eq_refl Hp (lookup_empty _) Hanc Hs eq_refl).
Defined.

(** ** Exceptions that reach the top *)

Create HintDb no_exit.

Lemma no_exit_ret {A} (a : A) : no_exit (ret a).
Proof. intros w c. discriminate. Qed.

Lemma no_exit_raise {A} e : (∀ c, e ≠ SystemExit c) → no_exit (@raise A e).
Proof. intros He w c. simpl. intros [= ->]. by eapply He. Qed.

Lemma no_exit_bind {A B} (m : M A) (k : A → M B) :
  no_exit m → (∀ a, no_exit (k a)) → no_exit (bind m k).
Proof.
  intros Hm Hk w c. unfold bind. specialize (Hm w c).
  destruct (m w) as [[a|e] w1]; [apply Hk|].
  simpl in *. intros [= ->]. by apply Hm.
Qed.

Lemma no_exit_try {A} (m : M A) h :
  no_exit m → (∀ e k, h e = Some k → no_exit k) → no_exit (try_except m h).
Proof.
  intros Hm Hh w c. unfold try_except. specialize (Hm w c).
  destruct (m w) as [[a|e] w1]; [done|].
  destruct (h e) as [k|] eqn:He; [by eapply Hh|exact Hm].
Qed.

Lemma no_exit_finally {A} (m : M A) f :
  no_exit m → no_exit f → no_exit (finally m f).
Proof.
  intros Hm Hf w c. unfold finally. specialize (Hm w c).
  destruct (m w) as [r w1]. specialize (Hf w1 c).
  destruct (f w1) as [[[]|e] w2]; [exact Hm|].
  simpl in *. intros [= ->]. by apply Hf.
Qed.

Lemma no_exit_attempt {A} (m : M A) : no_exit (attempt m).
Proof. intros w c. unfold attempt. by destruct (m w). Qed.

(** The calls that are one step of the world. *)
Ltac no_exit_step :=
  let w := fresh "w" in
  let c := fresh "c" in
  intros w c; cbv beta zeta delta
    [tick print os_path_exists mkdir_at read_file open_wb file_write os_remove
     parse_url ret raise];
  repeat case_match; simpl; congruence.

Lemma no_exit_tick E : no_exit (tick E).
Proof. no_exit_step. Qed.
Lemma no_exit_print s : no_exit (print s).
Proof. no_exit_step. Qed.
Lemma no_exit_exists p : no_exit (os_path_exists p).
Proof. no_exit_step. Qed.
Lemma no_exit_mkdir p : no_exit (mkdir_at p).
Proof. no_exit_step. Qed.
Lemma no_exit_read p : no_exit (read_file p).
Proof. no_exit_step. Qed.
Lemma no_exit_open p : no_exit (open_wb p).
Proof. no_exit_step. Qed.
Lemma no_exit_write p chunk : no_exit (file_write p chunk).
Proof. no_exit_step. Qed.
Lemma no_exit_remove p : no_exit (os_remove p).
Proof. no_exit_step. Qed.
Lemma no_exit_parse url : no_exit (parse_url url).
Proof. no_exit_step. Qed.

#[local] Hint Resolve no_exit_ret no_exit_attempt no_exit_tick no_exit_print
  no_exit_exists no_exit_mkdir no_exit_read no_exit_open no_exit_write
  no_exit_remove no_exit_parse : no_exit.

(** Composite computations, by their structure. *)
Ltac no_exit :=
  repeat first
    [ progress auto with no_exit
    | apply no_exit_bind; [|intros ?]
    | apply no_exit_finally
    | apply no_exit_try; [|intros ? ? ?]
    | apply no_exit_raise; intros ?; discriminate
    | match goal with
      | H : match ?e with _ => _ end = Some _ |- _ => destruct e; try discriminate H
      | H : Some _ = Some _ |- _ => injection H as <-
      | |- no_exit (match ?x with _ => _ end) => destruct x
      | |- no_exit (if ?x then _ else _) => destruct x
      | |- no_exit (let (_, _) := ?x in _) => destruct x
      end ].

Lemma no_exit_requests_get E u : no_exit (requests_get E u).
Proof.
  unfold requests_get. apply no_exit_bind; [no_exit|]. intros _ w c. discriminate.
Qed.
#[local] Hint Resolve no_exit_requests_get : no_exit.

Lemma no_exit_makedirs rev_parts : no_exit (makedirs_from rev_parts).
Proof.
  induction rev_parts as [|x rev_head IH]; cbn [makedirs_from]; [no_exit|].
  apply no_exit_bind; [|no_exit].
  destruct rev_head; [no_exit|].
  intros w c. destruct (fs w !! _); [discriminate|apply IH].
Qed.
#[local] Hint Resolve no_exit_makedirs : no_exit.

Lemma no_exit_get_thread E self : no_exit (get_thread E self).
Proof. unfold get_thread. no_exit. Qed.
#[local] Hint Resolve no_exit_get_thread : no_exit.

Lemma no_exit_write_chunks E p size chunks : ∀ dl, no_exit (write_chunks E p size dl chunks).
Proof.
  induction chunks as [|chunk rest IH]; intros dl; cbn [write_chunks]; [no_exit|].
  apply no_exit_bind; [no_exit|]. intros _. destruct chunk; [apply IH|].
  apply no_exit_bind; [no_exit|]. intros _.
  apply no_exit_bind; [no_exit|]. intros _. apply IH.
Qed.
#[local] Hint Resolve no_exit_write_chunks : no_exit.

Lemma no_exit_save_response E p size resp : no_exit (save_response E p size resp).
Proof.
  intros w c. unfold save_response, bind at 1, attempt.
  destruct (open_wb_cases p w) as [[r ->]| ->];
    match goal with
    | |- fst (?m ?w1) ≠ _ =>
        let H := fresh in assert (H : no_exit m) by no_exit; apply H
    end.
Qed.
#[local] Hint Resolve no_exit_save_response : no_exit.

Lemma no_exit_download_image E self image : no_exit (download_image E self image).
Proof. unfold download_image, md5check. no_exit. Qed.
#[local] Hint Resolve no_exit_download_image : no_exit.

Lemma no_exit_download_all E images : ∀ self i, no_exit (download_all E self i images).
Proof.
  induction images as [|image rest IH]; intros self i; cbn [download_all]; [no_exit|].
  apply no_exit_bind; [no_exit|]. intros self'. apply IH.
Qed.
#[local] Hint Resolve no_exit_download_all : no_exit.

Lemma no_exit_Scrape E self : no_exit (Scrape E self).
Proof. unfold Scrape, get_images. no_exit. Qed.
#[local] Hint Resolve no_exit_Scrape : no_exit.

Lemma no_exit_scrape_all E threads : no_exit (scrape_all E threads).
Proof.
  induction threads as [|t rest IH]; cbn [scrape_all]; [no_exit|].
  apply no_exit_bind; [no_exit|]. intros _. apply IH.
Qed.

Lemma no_exit_Scraper_init E url keep : no_exit (Scraper_init E url keep).
Proof. unfold Scraper_init, os_makedirs. no_exit. Qed.

Lemma makedirs_from_requests rev_parts : ∀ w res w',
  makedirs_from rev_parts w = (res, w') →
  requests w' = requests w ∧ clock w' = clock w
  ∧ ∀ e, res = Raise e → ∃ s, e = OSError s.
Proof.
  assert (Hmk : ∀ p w res w', mkdir_at p w = (res, w') →
            requests w' = requests w ∧ clock w' = clock w
            ∧ ∀ e, res = Raise e → ∃ s, e = OSError s).
  { intros p w res w'. unfold mkdir_at.
    repeat case_match; intros [= <- <-]; simpl; (split; [done|split; [done|]]);
      intros e [= <-]; eauto. }
  induction rev_parts as [|x rev_head IH]; intros w res w'; cbn [makedirs_from].
  - intros [= <- <-]. split; [done|split; [done|]]. intros e [= <-]. eauto.
  - unfold bind. destruct rev_head as [|y rev_head'] eqn:Hhead.
    + unfold ret. apply Hmk.
    + rewrite <- Hhead in *. destruct (fs w !! rev rev_head).
      * apply Hmk.
      * destruct (makedirs_from rev_head w) as [[[]|e] w1] eqn:Hrun;
          apply IH in Hrun as (Hr & Hc & He).
        -- intros Hm. apply Hmk in Hm as (Hr' & Hc' & He').
           split; [congruence|split; [congruence|done]].
        -- intros [= <- <-]. split; [done|split; [done|]].
           intros e' [= <-]. by apply He.
Qed.

(** What [__init__] can end in: a scraper when the thread is found,
    [ThreadDoesNotExist] when it is not, in both cases after one request;
    or another exception, which is not [SystemExit]. *)
Lemma Scraper_init_cases E url keep w res w' :
  Scraper_init E url keep w = (res, w') →
  match res with
  | Ok _ =>
      thread_found E (length (requests w)) url = true
      ∧ length (requests w') = S (length (requests w))
  | Raise (ThreadDoesNotExist _ _) =>
      thread_found E (length (requests w)) url = false
      ∧ length (requests w') = S (length (requests w))
  | Raise (SystemExit _) => False
  | Raise _ => True
  end.
Proof.
  unfold Scraper_init, bind at 1, parse_url, thread_found.
  destruct (split_on slash url !! 3%nat) as [b|];
    [|intros [= <- <-]; done].
  destruct (split_on slash url !! 5%nat) as [t|];
    [|intros [= <- <-]; done].
  unfold ret at 1. cbv beta iota. unfold bind at 1, os_path_exists.
  unfold bind at 1.
  assert (Hget : ∀ w1, requests w1 = requests w →
     get_thread E {| url := url; keep_names := keep; board := b; thread_id := t;
                     destination := path_join b t; downloaded_files := [];
                     bar_length := 20; the_thread := Thread [];
                     image_total := 0; image_count := 0 |} w1 = (res, w') →
     match res with
     | Ok _ =>
         negb (String.length (text (net E (length (requests w)) (api_url b t))) =? 0)%nat = true
         ∧ length (requests w') = S (length (requests w))
     | Raise (ThreadDoesNotExist _ _) =>
         negb (String.length (text (net E (length (requests w)) (api_url b t))) =? 0)%nat = false
         ∧ length (requests w') = S (length (requests w))
     | Raise (SystemExit _) => False
     | Raise _ => True
     end).
  { intros w1 Hr. unfold get_thread, bind at 1, requests_get, bind at 1, tick.
    case_bool_decide; [intros [= <- <-]; done|].
    cbn [board thread_id requests]. rewrite Hr.
    destruct (String.length _ =? 0)%nat.
    - intros [= <- <-]. simpl. by rewrite length_app, Nat.add_1_r.
    - destruct (json_loads E _); intros [= <- <-]; simpl; [|done].
      by rewrite length_app, Nat.add_1_r. }
  destruct (negb (bool_decide _)).
  - unfold os_makedirs.
    match goal with
    | |- context [makedirs_from ?rp w] =>
        destruct (makedirs_from rp w) as [[[]|e] w1] eqn:Hmk
    end; apply makedirs_from_requests in Hmk as (Hr & _ & He).
    + by apply Hget.
    + intros [= <- <-]. destruct (He e eq_refl) as [s ->]. done.
  - unfold ret at 1. by apply Hget.
Qed.

(** The loop that builds the scrapers: when it ends normally, the exit
    code is the one it started with if every thread was found, and 1 if
    not; it never ends in [SystemExit]. *)
Lemma construct_cases E keep urls : ∀ threads exitcode w res w',
  construct E keep urls threads exitcode w = (res, w') →
  match res with
  | Ok (_, exitcode') =>
      exitcode' = if all_found E (length (requests w)) urls then exitcode else 1%Z
  | Raise (SystemExit _) => False
  | Raise _ => True
  end.
Proof.
  induction urls as [|url rest IH]; intros threads exitcode w res w'.
  - simpl. by intros [= <- <-].
  - cbn [construct all_found]. unfold bind at 1, try_except, bind at 1.
    destruct (Scraper_init E url keep w) as [[s|e] w1] eqn:Hinit;
      apply Scraper_init_cases in Hinit.
    + destruct Hinit as [Hfound Hlen]. unfold ret at 1. cbv beta iota.
      intros Hrest. apply IH in Hrest. rewrite Hlen in Hrest.
      by rewrite Hfound.
    + destruct e; try (intros [= <- <-]; done).
      destruct Hinit as [Hfound Hlen]. unfold bind at 1, print, ret at 1.
      cbv beta iota. intros Hrest. apply IH in Hrest.
      cbn [requests] in Hrest. rewrite Hlen in Hrest. rewrite Hfound.
      destruct res as [[? ?]|]; [|done].
      cbn [andb]. by destruct (all_found E _ rest).
Qed.

(** The loop that checks the URLs keeps the valid ones, in order, and
    turns the exit code to 1 when it meets one that is not. *)
Lemma validate_eq urls : ∀ validURLs exitcode w,
  ∃ w', validate urls validURLs exitcode w =
          (Ok (validURLs ++ List.filter check_url urls,
               if forallb check_url urls then exitcode else 1%Z), w')
        ∧ requests w' = requests w ∧ fs w' = fs w ∧ clock w' = clock w.
Proof.
  induction urls as [|url rest IH]; intros validURLs exitcode w.
  - simpl. exists w. by rewrite app_nil_r.
  - cbn [validate List.filter forallb]. unfold bind at 1, try_except.
    destruct (check_url url); cbn [negb andb].
    + unfold bind at 1, ret at 1, ret at 1. cbv beta iota.
      destruct (IH (validURLs ++ [url]) exitcode w) as (w' & -> & Hw).
      exists w'. by rewrite <- app_assoc.
    + unfold bind at 1, raise at 1. cbv beta iota.
      unfold bind at 1, print, ret at 1. cbv beta iota.
      match goal with
      | |- context [validate rest validURLs 1%Z ?w1] =>
          destruct (IH validURLs 1%Z w1) as (w' & -> & Hw)
      end.
      exists w'. split; [|exact Hw]. by destruct (forallb check_url rest).
Qed.

(** [main] ends in [SystemExit], with 0 when every URL is valid and every
    thread is found and with 1 otherwise, or in an exception of the work
    it does; it does not return. *)
Lemma main_cases E a w res w' :
  main E a w = (res, w') →
  match res with
  | Ok _ => False
  | Raise (SystemExit c) =>
      c = if forallb check_url (URLs a)
             && all_found E (length (requests w)) (List.filter check_url (URLs a))
          then 0%Z else 1%Z
  | Raise _ => True
  end.
Proof.
  unfold main, bind at 1.
  destruct (validate_eq (URLs a) [] 0%Z w) as (w1 & -> & Hr & _).
  cbv beta iota. cbn [app]. unfold bind at 1.
  destruct (construct E (arg_keep_names a) _ [] _ w1) as [[[threads ec]|e] w2] eqn:Hc;
    apply construct_cases in Hc.
  - unfold bind. pose proof (no_exit_scrape_all E threads w2) as Hne.
    destruct (scrape_all E threads w2) as [[[]|e] w3].
    + intros [= <- <-]. rewrite Hc, Hr.
      destruct (forallb check_url (URLs a));
        destruct (all_found E (length (requests w)) (List.filter check_url (URLs a)));
        reflexivity.
    + intros [= <- <-]. destruct e; try done. by destruct (Hne code).
  - intros [= <- <-]. by destruct e.
Qed.

(** ** The URLs that [check_url] accepts *)

Lemma leaves_seq n r1 r2 s u t :
  leaves n r1 s u → leaves n r2 u t → leaves n (Seq r1 r2) s t.
Proof. unfold leaves. simpl. intros H1 H2. apply in_flat_map. eauto. Qed.

Lemma leaves_alt_l n r1 r2 s t : leaves n r1 s t → leaves n (Alt r1 r2) s t.
Proof. unfold leaves. simpl. intros H. apply in_or_app. by left. Qed.

Lemma leaves_alt_r n r1 r2 s t : leaves n r2 s t → leaves n (Alt r1 r2) s t.
Proof. unfold leaves. simpl. intros H. apply in_or_app. by right. Qed.

Lemma leaves_str n l t : leaves n (str l) (l ++ t) t.
Proof.
  induction l as [|c l IH]; [by left|].
  apply (leaves_seq n _ _ _ (l ++ t)); [|exact IH].
  unfold leaves. simpl. rewrite Ascii.eqb_refl. by left.
Qed.

Lemma leaves_lit n x t : leaves n (lit x) (chars_of x ++ t) t.
Proof. apply leaves_str. Qed.

Lemma leaves_dot n c t : Ascii.eqb c newline = false → leaves n Dot (c :: t) t.
Proof. unfold leaves. simpl. intros ->. by left. Qed.

Lemma leaves_caret s : leaves (length s) Caret s s.
Proof. unfold leaves. simpl. rewrite Nat.eqb_refl. by left. Qed.

Lemma leaves_dollar n : leaves n Dollar [] [].
Proof. by left. Qed.

Lemma leaves_repeat n lo hi a z b t :
  forallb (ascii_between a z) b = true →
  (lo ≤ length b ≤ hi)%nat →
  leaves n (Repeat lo hi (Range a z)) (b ++ t) t.
Proof.
  unfold leaves. simpl. revert lo hi.
  induction b as [|c b IH]; intros lo hi Hall Hlen.
  - simpl in Hlen. assert (lo = 0)%nat as -> by lia.
    destruct hi; simpl; by left.
  - simpl in Hall. apply andb_prop in Hall as [Hc Hall].
    destruct hi as [|hi]; [simpl in Hlen; lia|].
    cbn [rep_iter]. apply in_or_app. right.
    cbn [ends app]. rewrite Hc. cbn [flat_map]. rewrite app_nil_r.
    apply IH; [done|]. simpl in Hlen. lia.
Qed.

Lemma leaves_star n a z b t :
  forallb (ascii_between a z) b = true →
  leaves n (Star (Range a z)) (b ++ t) t.
Proof.
  unfold leaves. simpl.
  assert (H : ∀ fuel, (length (b ++ t) ≤ fuel)%nat →
              forallb (ascii_between a z) b = true →
              In t (star_iter (ends n (Range a z)) fuel (b ++ t))).
  { induction b as [|c b IH]; intros fuel Hfuel Hall.
    - destruct fuel; by left.
    - simpl in Hall. apply andb_prop in Hall as [Hc Hall].
      destruct fuel as [|fuel]; [simpl in Hfuel; lia|].
      cbn [star_iter]. right.
      cbn [ends app]. rewrite Hc. cbn [List.filter].
      replace (length (b ++ t) <? length (c :: b ++ t))%nat with true
        by (symmetry; apply Nat.ltb_lt; simpl; lia).
      cbn [flat_map]. rewrite app_nil_r.
      apply IH; [simpl in Hfuel; lia|done]. }
  intros Hall. by apply H.
Qed.

Lemma search_from_start r s :
  ends (length s) r s ≠ [] → search r s = true.
Proof.
  intros H. unfold search. apply existsb_exists. exists 0%nat.
  split; [apply in_seq; lia|].
  rewrite drop_0. by destruct (ends (length s) r s).
Qed.

Lemma chars_of_app (a b : string) : chars_of (a +:+ b) = chars_of a ++ chars_of b.
Proof. induction a as [|c a IH]; simpl; [done|]. by rewrite IH. Qed.

Lemma chars_of_string_of l : chars_of (string_of l) = l.
Proof. apply list_ascii_of_string_of_list_ascii. Qed.

(** Every URL of the grammar of the specification is accepted. *)
Lemma check_url_accepts_grammar url : spec_url_grammar url → check_url url = true.
Proof.
  intros (host & board & id & Hhost & Hlen & Hlow & _ & Hdig & ->).
  unfold check_url.
  rewrite search_from_start; [done|].
  assert (Hs : chars_of ("https://boards." +:+ host +:+ "/" +:+ string_of board
                         +:+ "/thread/" +:+ string_of id)
             = chars_of ("https://boards." +:+ host +:+ "/")
               ++ board ++ chars_of "/thread/" ++ id ++ []).
  { rewrite !chars_of_app, !chars_of_string_of, app_nil_r.
    by rewrite <- !app_assoc. }
  rewrite Hs. clear Hs.
  match goal with
  | |- ends ?n exp ?s ≠ [] =>
      assert (H : leaves n exp s []);
        [|intros Hnil; unfold leaves in H; by rewrite Hnil in H]
  end.
  unfold exp.
  eapply leaves_seq; [|apply leaves_dollar].
  eapply leaves_seq; [|by apply (leaves_star _ _ _ id [])].
  eapply leaves_seq; [|apply leaves_lit].
  eapply leaves_seq; [|by apply (leaves_repeat _ _ _ _ _ board)].
  eapply leaves_seq; [apply leaves_caret|].
  unfold spec_host_suffixes in Hhost.
  apply elem_of_cons in Hhost as [->|Hhost].
  - apply leaves_alt_r.
    eapply leaves_seq; [|apply (leaves_lit _ "org/")].
    eapply leaves_seq; [|by apply (leaves_dot _ ".")].
    eapply leaves_seq; [|apply (leaves_lit _ "4chan")].
    eapply leaves_seq; [|by apply (leaves_dot _ ".")].
    apply (leaves_lit _ "https://boards").
  - apply list_elem_of_singleton in Hhost as ->.
    apply leaves_alt_l.
    eapply leaves_seq; [|apply (leaves_lit _ "org/")].
    eapply leaves_seq; [|by apply (leaves_dot _ ".")].
    eapply leaves_seq; [|apply (leaves_lit _ "4channel")].
    eapply leaves_seq; [|by apply (leaves_dot _ ".")].
    apply (leaves_lit _ "https://boards").
Qed.

(** The grammar on the characters of the URL. *)
Lemma spec_url_grammar_chars url :
  spec_url_grammar url →
  ∃ host board id,
    host ∈ spec_host_suffixes
    ∧ forallb is_lower board = true
    ∧ id ≠ []
    ∧ forallb is_digit id = true
    ∧ chars_of url = chars_of ("https://boards." +:+ host +:+ "/")
                     ++ board ++ chars_of "/thread/" ++ id.
Proof.
  intros (host & board & id & Hhost & _ & Hlow & Hid & Hdig & ->).
  exists host, board, id. repeat (split; [done|]).
  rewrite !chars_of_app, !chars_of_string_of. by rewrite <- !app_assoc.
Qed.

(** Peels the letters of the board off an equation between the rest of a
    URL and [board ++ "/thread/" ++ id]. *)
Ltac peel_board H Hlow :=
  repeat match type of H with
         | _ = ?b ++ _ =>
             is_var b; destruct b as [|? b]; cbn [app chars_of list_ascii_of_string] in H;
             [ try discriminate H
             | injection H as <- H; cbn in Hlow; try discriminate Hlow ]
         end.

Ltac refute_grammar :=
  let host := fresh "host" in
  let board := fresh "board" in
  let id := fresh "id" in
  let Hhost := fresh "Hhost" in
  let Hlow := fresh "Hlow" in
  let Hid := fresh "Hid" in
  let Hdig := fresh "Hdig" in
  let H := fresh "H" in
  intros (host & board & id & Hhost & Hlow & Hid & Hdig & H)%spec_url_grammar_chars;
  unfold spec_host_suffixes in Hhost;
  apply elem_of_cons in Hhost as [->|Hhost%list_elem_of_singleton];
  [|subst host];
  cbn [app chars_of list_ascii_of_string append] in H;
  try discriminate H;
  repeat (injection H as H);
  peel_board H Hlow;
  try discriminate H;
  try (injection H as <-; first [done | discriminate Hdig]).

Example grammar_rejects_other_host :
  ¬ spec_url_grammar "https://boardsx4chan.org/g/thread/1".
Proof. refute_grammar. Qed.

Example grammar_rejects_empty_id :
  ¬ spec_url_grammar "https://boards.4chan.org/g/thread/".
Proof. refute_grammar. Qed.

Example grammar_rejects_final_newline :
  ¬ spec_url_grammar (String.append "https://boards.4chan.org/g/thread/1" (String newline "")).
Proof. refute_grammar. Qed.

Lemma leaves_seq_inv n r1 r2 s t :
  leaves n (Seq r1 r2) s t → ∃ u, leaves n r1 s u ∧ leaves n r2 u t.
Proof. unfold leaves. simpl. intros H. apply in_flat_map in H. exact H. Qed.

Lemma leaves_alt_inv n r1 r2 s t :
  leaves n (Alt r1 r2) s t → leaves n r1 s t ∨ leaves n r2 s t.
Proof. unfold leaves. simpl. apply in_app_or. Qed.

Lemma leaves_str_inv n l : ∀ s t, leaves n (str l) s t → s = l ++ t.
Proof.
  induction l as [|c l IH]; intros s t H.
  - destruct H as [->|[]]. done.
  - apply leaves_seq_inv in H as (u & H1 & H2).
    unfold leaves in H1. simpl in H1.
    destruct s as [|x s]; [done|].
    destruct (Ascii.eqb_spec x c) as [->|]; [|done].
    destruct H1 as [<-|[]]. apply IH in H2. by rewrite H2.
Qed.

Lemma leaves_lit_inv n x s t : leaves n (lit x) s t → s = chars_of x ++ t.
Proof. apply leaves_str_inv. Qed.

Lemma leaves_dot_inv n s t :
  leaves n Dot s t → ∃ c, s = c :: t ∧ Ascii.eqb c newline = false.
Proof.
  unfold leaves. simpl. destruct s as [|c s]; [done|].
  destruct (Ascii.eqb c newline) eqn:Hc; [done|].
  intros [<-|[]]. eauto.
Qed.

Lemma leaves_caret_inv n s t : leaves n Caret s t → t = s ∧ length s = n.
Proof.
  unfold leaves. simpl. destruct (Nat.eqb_spec (length s) n); [|done].
  by intros [<-|[]].
Qed.

Lemma leaves_dollar_inv n s t : leaves n Dollar s t → t = s ∧ (s = [] ∨ s = [newline]).
Proof.
  unfold leaves. simpl. destruct s as [|c [|? ?]]; try done.
  - intros [<-|[]]. auto.
  - destruct (Ascii.eqb_spec c newline) as [->|]; [|done].
    intros [<-|[]]. auto.
Qed.

Lemma leaves_dollar_tail n s : s = [] ∨ s = [newline] → leaves n Dollar s s.
Proof. unfold leaves. intros [->| ->]; by left. Qed.

Lemma leaves_repeat_inv n lo hi a z s t :
  leaves n (Repeat lo hi (Range a z)) s t →
  ∃ b, s = b ++ t ∧ forallb (ascii_between a z) b = true ∧ (lo ≤ length b ≤ hi)%nat.
Proof.
  unfold leaves. simpl. revert lo s.
  induction hi as [|hi IH]; intros lo s H; cbn [rep_iter] in H;
    apply in_app_or in H as [H|H].
  - destruct (Nat.eqb_spec lo 0) as [->|]; [|done].
    destruct H as [<-|[]]. by exists [].
  - done.
  - destruct (Nat.eqb_spec lo 0) as [->|]; [|done].
    destruct H as [<-|[]]. exists []. simpl. split; [done|]. split; [done|lia].
  - apply in_flat_map in H as (u & Hu & H). simpl in Hu.
    destruct s as [|c s]; [done|].
    destruct (ascii_between a z c) eqn:Hc; [|done].
    destruct Hu as [<-|[]].
    apply IH in H as (b & -> & Hall & Hlen).
    exists (c :: b). simpl. rewrite Hc, Hall. split; [done|]. split; [done|lia].
Qed.

Lemma leaves_star_inv n a z s t :
  leaves n (Star (Range a z)) s t →
  ∃ b, s = b ++ t ∧ forallb (ascii_between a z) b = true.
Proof.
  unfold leaves. simpl. generalize (length s) as fuel. intros fuel. revert s.
  induction fuel as [|fuel IH]; intros s H; cbn [star_iter] in H.
  - destruct H as [<-|[]]. by exists [].
  - destruct H as [<-|H]; [by exists []|].
    apply in_flat_map in H as (u & Hu & H).
    apply filter_In in Hu as [Hu _]. simpl in Hu.
    destruct s as [|c s]; [done|].
    destruct (ascii_between a z c) eqn:Hc; [|done].
    destruct Hu as [<-|[]].
    apply IH in H as (b & -> & Hall).
    exists (c :: b). simpl. by rewrite Hc, Hall.
Qed.

Lemma search_inv r s :
  search r s = true → ∃ p, (p ≤ length s)%nat ∧ ∃ t, leaves (length s) r (drop p s) t.
Proof.
  unfold search. intros H. apply existsb_exists in H as (p & Hp & H).
  apply in_seq in Hp. exists p. split; [lia|].
  unfold leaves. destruct (ends _ r _) as [|t ?]; [done|]. exists t. by left.
Qed.

(** [check_url] accepts exactly the URLs of [accepted_url]. *)
Lemma check_url_language url : check_url url = true ↔ accepted_url url.
Proof.
  unfold check_url. split.
  - destruct (search exp (chars_of url)) eqn:Hs; [|done]. intros _.
    apply search_inv in Hs as (p & Hp & t & H).
    unfold exp in H.
    apply leaves_seq_inv in H as (u5 & H & Hdollar).
    apply leaves_seq_inv in H as (u4 & H & Hstar).
    apply leaves_seq_inv in H as (u3 & H & Hthread).
    apply leaves_seq_inv in H as (u2 & H & Hboard).
    apply leaves_seq_inv in H as (u1 & Hcaret & Hhost).
    apply leaves_caret_inv in Hcaret as [-> Hlen].
    assert (p = 0)%nat as -> by (rewrite length_drop in Hlen; lia).
    rewrite drop_0 in Hhost.
    apply leaves_dollar_inv in Hdollar as [-> Htail].
    apply leaves_star_inv in Hstar as (id & -> & Hid).
    apply leaves_lit_inv in Hthread as ->.
    apply leaves_repeat_inv in Hboard as (board & -> & Hlow & Hblen).
    assert (Hh : ∀ name, leaves (length (chars_of url))
              (Seq (Seq (Seq (Seq (lit "https://boards") Dot) (lit name)) Dot) (lit "org/"))
              (chars_of url) (board ++ chars_of "/thread/" ++ id ++ u5) →
            ∃ d1 d2, Ascii.eqb d1 newline = false ∧ Ascii.eqb d2 newline = false
              ∧ chars_of url = chars_of "https://boards" ++ d1 :: chars_of name
                     ++ d2 :: chars_of "org/" ++ board ++ chars_of "/thread/" ++ id ++ u5).
    { intros name H.
      apply leaves_seq_inv in H as (v4 & H & Horg).
      apply leaves_seq_inv in H as (v3 & H & Hd2).
      apply leaves_seq_inv in H as (v2 & H & Hname).
      apply leaves_seq_inv in H as (v1 & H & Hd1).
      apply leaves_lit_inv in Horg as ->.
      apply leaves_dot_inv in Hd2 as (d2 & -> & Hd2).
      apply leaves_lit_inv in Hname as ->.
      apply leaves_dot_inv in Hd1 as (d1 & -> & Hd1).
      apply leaves_lit_inv in H.
      exists d1, d2. split; [done|]. split; [done|].
      exact H. }
    apply leaves_alt_inv in Hhost as [Hhost|Hhost];
      apply Hh in Hhost as (d1 & d2 & Hd1 & Hd2 & Heq).
    + exists d1, d2, "4channel", board, id, u5. auto 10.
    + exists d1, d2, "4chan", board, id, u5. auto 10.
  - intros (d1 & d2 & host & board & id & tail & Hhost & Hd1 & Hd2 & Hlen & Hlow & Hid
            & Htail & Heq).
    rewrite search_from_start; [done|]. rewrite Heq.
    match goal with
    | |- ends ?n exp ?s ≠ [] =>
        assert (H : leaves n exp s tail);
          [|intros Hnil; unfold leaves in H; by rewrite Hnil in H]
    end.
    unfold exp.
    eapply leaves_seq.
    2:{ by apply leaves_dollar_tail. }
    eapply leaves_seq; [|by apply (leaves_star _ _ _ id tail)].
    eapply leaves_seq; [|apply leaves_lit].
    eapply leaves_seq; [|by apply (leaves_repeat _ _ _ _ _ board)].
    eapply leaves_seq; [apply leaves_caret|].
    assert (Hh : ∀ name rest,
              leaves (length (chars_of "https://boards" ++ d1 :: chars_of host
                     ++ d2 :: chars_of "org/" ++ board ++ chars_of "/thread/" ++ id ++ tail))
                (Seq (Seq (Seq (Seq (lit "https://boards") Dot) (lit name)) Dot) (lit "org/"))
                (chars_of "https://boards" ++ d1 :: chars_of name
                     ++ d2 :: chars_of "org/" ++ rest) rest).
    { intros name rest.
      eapply leaves_seq; [|apply (leaves_lit _ "org/")].
      eapply leaves_seq; [|by apply (leaves_dot _ d2)].
      eapply leaves_seq; [|apply (leaves_lit _ name)].
      eapply leaves_seq; [|by apply (leaves_dot _ d1)].
      apply (leaves_lit _ "https://boards"). }
    destruct Hhost as [-> | ->]; [apply leaves_alt_l|apply leaves_alt_r]; apply Hh.
Qed.

(** C1: every URL of the grammar is accepted, but [check_url] is not the
    grammar: what it accepts is [accepted_url], and so it also accepts a
    host in which another character stands for a dot, a URL without a
    thread id, and a URL followed by a newline. *)
Theorem check_url_accepts_outside_grammar :
  (∀ url, spec_url_grammar url → check_url url = true)
  ∧ (∀ url, check_url url = true ↔ accepted_url url)
  ∧ (check_url "https://boardsx4chan.org/g/thread/1" = true
     ∧ ¬ spec_url_grammar "https://boardsx4chan.org/g/thread/1")
  ∧ (check_url "https://boards.4chan.org/g/thread/" = true
     ∧ ¬ spec_url_grammar "https://boards.4chan.org/g/thread/")
  ∧ (check_url (String.append "https://boards.4chan.org/g/thread/1" (String newline ""))
       = true
     ∧ ¬ spec_url_grammar
           (String.append "https://boards.4chan.org/g/thread/1" (String newline ""))).
Proof.
  split; [exact check_url_accepts_grammar|].
  split; [exact check_url_language|].
  split; [split; [vm_compute; reflexivity|exact grammar_rejects_other_host]|].
  split; [split; [vm_compute; reflexivity|exact grammar_rejects_empty_id]|].
  split; [vm_compute; reflexivity|exact grammar_rejects_final_newline].
Qed.

(** ** The ledger of a run *)

Lemma bind_Ok {A B} (m : M A) (k : A → M B) w b w' :
  bind m k w = (Ok b, w') → ∃ a w1, m w = (Ok a, w1) ∧ k a w1 = (Ok b, w').
Proof.
  unfold bind. destruct (m w) as [[a|e] w1]; [eauto|discriminate].
Qed.

(** When [__download_image] returns, the scraper is the one after the
    choice of the name. *)
Lemma download_image_named E self image w self' w' :
  download_image E self image w = (Ok self', w') → self' = named self image.
Proof.
  unfold download_image. intros H.
  apply bind_Ok in H as ([name self1] & w1 & Hname & H).
  assert (Hself : self1 = named self image).
  { unfold named. destruct (keep_names self).
    - destruct (original_name _ _). unfold ret in Hname. by simplify_eq.
    - destruct (tim image); [|discriminate]. unfold ret in Hname.
      by simplify_eq. }
  subst self1.
  apply bind_Ok in H as (present & w2 & _ & H).
  apply bind_Ok in H as (skip & w3 & _ & H).
  destruct skip; [unfold ret in H; by simplify_eq|].
  destruct (tim image); [|discriminate].
  apply bind_Ok in H as (resp & w4 & _ & H).
  apply bind_Ok in H as (size & w5 & _ & H).
  apply bind_Ok in H as ([] & w6 & _ & H).
  unfold ret in H. by simplify_eq.
Qed.

Lemma named_ledger self image :
  keep_names self = true →
  downloaded_files (named self image) = downloaded_files self ++ [candidate image].
Proof. unfold named. intros ->. simpl. by rewrite original_name_eq. Qed.

Lemma named_keep_names self image : keep_names (named self image) = keep_names self.
Proof. unfold named. by destruct (keep_names self) eqn:H. Qed.

(** In original-name mode the ledger of a run that went through [images]
    holds their candidate names. *)
Lemma download_all_ledger E images : ∀ self i w self' w',
  keep_names self = true →
  download_all E self i images w = (Ok self', w') →
  downloaded_files self' = downloaded_files self ++ map candidate images.
Proof.
  induction images as [|image rest IH]; intros self i w self' w' Hkeep H.
  - cbn [download_all] in H. unfold ret in H. simplify_eq. by rewrite app_nil_r.
  - cbn [download_all] in H. apply bind_Ok in H as (self1 & w1 & H1 & H).
    apply download_image_named in H1 as ->.
    apply IH in H.
    + rewrite H, named_ledger by exact Hkeep. cbn [map]. by rewrite <- app_assoc.
    + rewrite named_keep_names. exact Hkeep.
Qed.

(** C4, as the code has it: what is appended to the ledger is the
    candidate name [<filename><ext>] without a suffix, so the ledger holds
    the candidate names seen so far, in order, also after the loop of
    [__get_images]; the appended name is the name chosen exactly when the
    candidate was not in the ledger before. *)
Theorem ledger_holds_candidates :
  (∀ ledger image,
     snd (original_name ledger image) = ledger ++ [candidate image])
  ∧ (∀ ledger images,
       snd (original_names ledger images) = ledger ++ map candidate images)
  ∧ (∀ ledger image,
       fst (original_name ledger image) = candidate image
       ↔ count (candidate image) ledger = 0%nat)
  ∧ (∀ E images self i w self' w',
       keep_names self = true →
       download_all E self i images w = (Ok self', w') →
       downloaded_files self' = downloaded_files self ++ map candidate images).
Proof.
  split; [|split; [|split]]; [| | |intros E images; apply download_all_ledger].
  - intros. by rewrite original_name_eq.
  - apply original_names_ledger.
  - intros ledger image. rewrite original_name_eq. cbn [fst].
    destruct (Nat.eqb_spec (count (candidate image) ledger) 0) as [H0|H0].
    + done.
    + split; [|done]. intros H. by apply suffixed_ne_candidate in H.
Qed.

(** C4 as stated fails: after two posts named [pic.png] the names chosen
    are [pic.png] and [pic_1.png], while the ledger holds [pic.png] twice;
    the name appended for the second post is not the name chosen for it. *)
Lemma ledger_differs_from_assigned_names :
  original_names [] [Sample.pic 1; Sample.pic 2]
    = (["pic.png"; "pic_1.png"], ["pic.png"; "pic.png"])
  ∧ last (snd (original_name ["pic.png"] (Sample.pic 2)))
      ≠ Some (fst (original_name ["pic.png"] (Sample.pic 2)))
  ∧ snd (original_names [] [Sample.pic 1; Sample.pic 2])
      ≠ fst (original_names [] [Sample.pic 1; Sample.pic 2]).
Proof. split; [reflexivity|]. split; vm_compute; congruence. Qed.

(** ** Taking a URL apart *)

Lemma split_on_cons sep s : ∃ x r, split_on sep s = x :: r.
Proof.
  induction s as [|c s (x & r & IH)]; simpl; [eauto|].
  destruct (Ascii.eqb c sep); [eauto|]. rewrite IH. eauto.
Qed.

Lemma split_on_free sep s : free_of sep s = true → split_on sep s = [s].
Proof.
  induction s as [|c s IH]; simpl; [done|].
  intros [Hc Hs]%andb_prop. apply negb_true_iff in Hc. rewrite Hc, IH by done. done.
Qed.

(** Splitting at a separator: the parts before it, then the parts after. *)
Lemma split_on_app sep a b :
  split_on sep (a +:+ String sep b) = split_on sep a ++ split_on sep b.
Proof.
  induction a as [|c a IH]; simpl.
  - by rewrite Ascii.eqb_refl.
  - destruct (Ascii.eqb c sep); [by rewrite IH|].
    rewrite IH. destruct (split_on_cons sep a) as (x & r & ->). done.
Qed.

Lemma split_on_free_app sep a b :
  free_of sep a = true →
  split_on sep (a +:+ String sep b) = a :: split_on sep b.
Proof. intros H. by rewrite split_on_app, split_on_free. Qed.

Lemma split_on_length sep s :
  length (split_on sep s) = S (length (List.filter (Ascii.eqb sep) (chars_of s))).
Proof.
  induction s as [|c s IH]; simpl; [done|].
  rewrite (Ascii.eqb_sym sep c).
  destruct (Ascii.eqb c sep); simpl; [by rewrite IH|].
  destruct (split_on_cons sep s) as (x & r & Hs). rewrite Hs in *. exact IH.
Qed.

Lemma free_of_string_of sep (P : ascii → bool) l :
  P sep = false → forallb P l = true → free_of sep (string_of l) = true.
Proof.
  intros Hsep. induction l as [|c l IH]; simpl; [done|].
  intros [Hc Hl]%andb_prop. rewrite IH by done.
  destruct (Ascii.eqb_spec c sep) as [->|]; [congruence|done].
Qed.

(** Every URL that [check_url] accepts has the six parts that
    [__parse_url] indexes. *)
Lemma accepted_url_parts url :
  accepted_url url → (6 ≤ length (split_on slash url))%nat.
Proof.
  intros (d1 & d2 & host & board & id & tail & _ & _ & _ & _ & _ & _ & _ & Heq).
  rewrite split_on_length, Heq.
  set (n := λ l : chars, length (List.filter (Ascii.eqb slash) l)).
  assert (Happ : ∀ l1 l2, n (l1 ++ l2) = (n l1 + n l2)%nat).
  { intros. unfold n. by rewrite List.filter_app, length_app. }
  assert (Hcons : ∀ x l, (n l ≤ n (x :: l))%nat).
  { intros. unfold n. cbn [List.filter].
    destruct (Ascii.eqb slash x); cbn [length]; lia. }
  fold (n (chars_of "https://boards" ++ d1 :: chars_of host ++ d2 :: chars_of "org/"
             ++ board ++ chars_of "/thread/" ++ id ++ tail)).
  rewrite Happ.
  pose proof (Hcons d1 (chars_of host ++ d2 :: chars_of "org/"
                          ++ board ++ chars_of "/thread/" ++ id ++ tail)) as H1.
  rewrite Happ in H1.
  pose proof (Hcons d2 (chars_of "org/" ++ board ++ chars_of "/thread/" ++ id ++ tail)) as H2.
  rewrite !Happ in H2.
  assert (n (chars_of "https://boards") = 2%nat) as -> by reflexivity.
  assert (n (chars_of "org/") = 1%nat) as Ho by reflexivity.
  assert (n (chars_of "/thread/") = 2%nat) as Ht by reflexivity.
  lia.
Qed.

(** X1: a URL that [check_url] accepts is one that [__parse_url] can
    take apart: split at the slashes it has the parts 3 and 5 that are
    indexed, so no [IndexError] is raised, and those two parts are returned
    as the board and the thread id. *)
Theorem validated_url_parses url w :
  check_url url = true →
  ∃ b t, parse_url url w = (Ok (b, t), w)
         ∧ split_on slash url !! 3%nat = Some b
         ∧ split_on slash url !! 5%nat = Some t.
Proof.
  intros H%check_url_language%accepted_url_parts.
  unfold parse_url.
  destruct (lookup_lt_is_Some_2 (split_on slash url) 3) as [b Hb]; [lia|].
  destruct (lookup_lt_is_Some_2 (split_on slash url) 5) as [t Ht]; [lia|].
  rewrite Hb, Ht. eauto.
Qed.

Lemma validated_url_witness :
  ∃ b t, parse_url Sample.thread_url Sample.empty_world = (Ok (b, t), Sample.empty_world)
         ∧ split_on slash Sample.thread_url !! 3%nat = Some b
         ∧ split_on slash Sample.thread_url !! 5%nat = Some t.
Proof.
  assert (H : check_url Sample.thread_url = true) by (vm_compute; reflexivity).
  exact (validated_url_parses Sample.thread_url Sample.empty_world H).
Defined.

(** X2: for a URL of the documented form, [https://boards.] then
    [4chan.org] or [4channel.org], a board of lower-case letters,
    [/thread/] and an id of digits, [__parse_url] returns that board and
    that id. *)
Theorem grammar_url_parses url host board id w :
  host ∈ spec_host_suffixes →
  forallb is_lower board = true →
  forallb is_digit id = true →
  url = "https://boards." +:+ host +:+ "/" +:+ string_of board
        +:+ "/thread/" +:+ string_of id →
  parse_url url w = (Ok (string_of board, string_of id), w).
Proof.
  intros Hhost Hlow Hdig ->.
  assert (Hb : free_of slash (string_of board) = true)
    by (by apply (free_of_string_of slash is_lower)).
  assert (Hi : free_of slash (string_of id) = true)
    by (by apply (free_of_string_of slash is_digit)).
  assert (Hrest : split_on slash (string_of board +:+ "/thread/" +:+ string_of id)
                  = [string_of board; "thread"; string_of id]).
  { change (string_of board +:+ "/thread/" +:+ string_of id)
      with (string_of board +:+ String slash ("thread" +:+ String slash (string_of id))).
    rewrite split_on_free_app by done.
    rewrite split_on_free_app by done.
    by rewrite split_on_free. }
  unfold parse_url, spec_host_suffixes in *.
  apply elem_of_cons in Hhost as [->|Hhost%list_elem_of_singleton]; [|subst host].
  - change ("https://boards." +:+ "4chan.org" +:+ "/" +:+ string_of board
            +:+ "/thread/" +:+ string_of id)
      with ("https:" +:+ String slash ("" +:+ String slash ("boards.4chan.org"
            +:+ String slash (string_of board +:+ "/thread/" +:+ string_of id)))).
    rewrite !split_on_free_app by done. by rewrite Hrest.
  - change ("https://boards." +:+ "4channel.org" +:+ "/" +:+ string_of board
            +:+ "/thread/" +:+ string_of id)
      with ("https:" +:+ String slash ("" +:+ String slash ("boards.4channel.org"
            +:+ String slash (string_of board +:+ "/thread/" +:+ string_of id)))).
    rewrite !split_on_free_app by done. by rewrite Hrest.
Qed.

Lemma grammar_url_parses_witness :
  parse_url "https://boards.4channel.org/g/thread/51971506" Sample.empty_world
  = (Ok ("g", "51971506"), Sample.empty_world).
Proof.
  assert (Hhost : "4channel.org" ∈ spec_host_suffixes)
    by (right; left).
  exact (grammar_url_parses "https://boards.4channel.org/g/thread/51971506"
           "4channel.org" (chars_of "g") (chars_of "51971506") Sample.empty_world
           Hhost eq_refl eq_refl eq_refl).
Defined.

(** A slash where the pattern has a dot moves the parts: the URL is
    accepted, and the board and the thread id are not the ones of the
    path. *)
Example slash_for_dot_moves_parts :
  check_url "https://boards/4chan.org/g/thread/1" = true
  ∧ fst (parse_url "https://boards/4chan.org/g/thread/1" Sample.empty_world)
    = Ok ("4chan.org", "thread").
Proof. split; vm_compute; reflexivity. Qed.

(** ** Where a file is stored *)

Lemma ends_with_slash_inv s :
  ends_with_slash s = true → ∃ s', s = s' +:+ String slash "".
Proof.
  induction s as [|c s IH]; [done|].
  destruct s as [|c' s'].
  - simpl. intros ->%Ascii.eqb_eq. by exists "".
  - intros H. destruct IH as [s0 Hs0]; [exact H|]. exists (String c s0).
    rewrite Hs0. reflexivity.
Qed.

Lemma starts_with_slash_app a b :
  a ≠ "" → starts_with_slash (a +:+ b) = starts_with_slash a.
Proof. by destruct a. Qed.

Lemma free_of_no_leading_slash s : free_of slash s = true → starts_with_slash s = false.
Proof. destruct s as [|c s]; [done|]. simpl. by intros [->%negb_true_iff _]%andb_prop. Qed.

Lemma nonempty_parts_app (l1 l2 : list string) :
  List.filter (λ c, negb (is_empty c)) (l1 ++ l2)
  = List.filter (λ c, negb (is_empty c)) l1 ++ List.filter (λ c, negb (is_empty c)) l2.
Proof. apply List.filter_app. Qed.

(** A name without a slash is joined below the directory; a name that
    starts with a slash replaces the directory. *)
Lemma components_join dir name :
  name ≠ "" → free_of slash name = true →
  components (path_join dir name) = components dir ++ [name].
Proof.
  intros Hne Hfree. unfold path_join.
  rewrite (free_of_no_leading_slash name) by done.
  assert (Hname : List.filter (λ c, negb (is_empty c)) (split_on slash name) = [name]).
  { rewrite split_on_free by done. simpl. by destruct name. }
  destruct dir as [|c dir].
  { change (components name = components "" ++ [name]). unfold components.
    rewrite (free_of_no_leading_slash name) by done. by rewrite Hname. }
  cbn [is_empty orb].
  destruct (ends_with_slash (String c dir)) eqn:Hend.
  - destruct (ends_with_slash_inv _ Hend) as [d' Hd'].
    unfold components. rewrite starts_with_slash_app by done.
    assert (H1 : List.filter (λ c, negb (is_empty c)) (split_on slash (String c dir))
                 = List.filter (λ c, negb (is_empty c)) (split_on slash d')).
    { rewrite Hd', split_on_app, nonempty_parts_app. simpl. by rewrite app_nil_r. }
    assert (H2 : String c dir +:+ name = d' +:+ String slash name).
    { rewrite Hd'. clear. induction d' as [|x d' IH]; [done|].
      change (String x ((d' +:+ String slash "") +:+ name)
              = String x (d' +:+ String slash name)). by rewrite IH. }
    rewrite H1, H2, split_on_app, nonempty_parts_app, Hname.
    by rewrite app_assoc.
  - unfold components. rewrite starts_with_slash_app by done.
    change (String c dir +:+ "/" +:+ name) with (String c dir +:+ String slash name).
    by rewrite split_on_app, nonempty_parts_app, Hname, app_assoc.
Qed.

(** X4: with [--keep-names], an original file name that starts with a
    slash is not stored below the directory of the thread: [os.path.join]
    drops the directory, and the path of the file is the absolute path that
    the name and the extension spell. *)
Theorem absolute_filename_leaves_destination self image :
  keep_names self = true →
  count (candidate image) (downloaded_files self) = 0%nat →
  starts_with_slash (filename image) = true →
  local_path self image = candidate image
  ∧ ∃ rest, components (local_path self image) = "" :: rest.
Proof.
  intros Hkeep Hcount Hslash.
  assert (Hname : local_name self image = candidate image).
  { unfold local_name. rewrite Hkeep, original_name_eq, Hcount. done. }
  assert (Hs : starts_with_slash (candidate image) = true).
  { unfold candidate. by destruct (filename image). }
  unfold local_path. rewrite Hname. unfold path_join. rewrite Hs.
  split; [done|]. unfold components. rewrite Hs. eauto.
Qed.

Lemma absolute_filename_witness :
  let image := Post (Some 7%Z) "/tmp/x" ".png" Sample.md5_of_abc in
  local_path (Sample.scraper true) image = "/tmp/x.png"
  ∧ ∃ rest, components (local_path (Sample.scraper true) image) = "" :: rest.
Proof.
  intros image.
  exact (absolute_filename_leaves_destination (Sample.scraper true) image
           eq_refl eq_refl eq_refl).
Defined.

Lemma string_app_inv_tail (a b c : string) : a +:+ c = b +:+ c → a = b.
Proof.
  revert b. induction a as [|x a IH]; intros [|y b] H; try done.
  - apply (f_equal String.length) in H. change ("" +:+ c) with c in H.
    rewrite (string_app_length (String y b)) in H. simpl in H. lia.
  - apply (f_equal String.length) in H. change ("" +:+ c) with c in H.
    rewrite (string_app_length (String x a)) in H. simpl in H. lia.
  - injection H as -> H. f_equal. by apply IH.
Qed.

(** X5: without [--keep-names] a file is named by the server's id and
    the extension, two posts with the same extension and different ids get
    different names, and the ledger of names is left alone. *)
Theorem server_names_distinct self image1 image2 t1 t2 :
  keep_names self = false →
  tim image1 = Some t1 →
  tim image2 = Some t2 →
  ext image1 = ext image2 →
  t1 ≠ t2 →
  local_name self image1 = str_of_int t1 +:+ ext image1
  ∧ local_name self image1 ≠ local_name self image2
  ∧ named self image1 = self.
Proof.
  intros Hkeep H1 H2 Hext Hne. unfold local_name, named, remote_name.
  rewrite Hkeep, H1, H2, Hext. split; [done|]. split; [|done].
  intros H%string_app_inv_tail. unfold str_of_int in H.
  by apply (inj pretty) in H.
Qed.

Lemma server_names_witness :
  local_name (Sample.scraper false) (Sample.pic 1) = "1.png"
  ∧ local_name (Sample.scraper false) (Sample.pic 1)
    ≠ local_name (Sample.scraper false) (Sample.pic 2)
  ∧ named (Sample.scraper false) (Sample.pic 1) = Sample.scraper false.
Proof.
  assert (Hne : (1 ≠ 2)%Z) by discriminate.
  exact (server_names_distinct (Sample.scraper false) (Sample.pic 1) (Sample.pic 2)
           1%Z 2%Z eq_refl eq_refl eq_refl eq_refl Hne).
Defined.

Lemma count_not_in x l : ¬ In x l → count x l = 0%nat.
Proof.
  unfold count. induction l as [|y l IH]; simpl; [done|].
  intros H. destruct (String.eqb_spec x y) as [->|]; [tauto|]. apply IH. tauto.
Qed.

Lemma original_names_distinct images : ∀ ledger,
  NoDup (map candidate images) →
  (∀ c, In c ledger → ¬ In c (map candidate images)) →
  fst (original_names ledger images) = map candidate images.
Proof.
  induction images as [|image rest IH]; intros ledger Hnd Hdis; [done|].
  cbn [original_names map]. rewrite original_name_eq.
  apply NoDup_cons in Hnd as [Hnotin Hnd].
  rewrite count_not_in.
  2:{ intros Hin. apply (Hdis _ Hin). by left. }
  cbn [Nat.eqb].
  specialize (IH (ledger ++ [candidate image]) Hnd).
  destruct (original_names (ledger ++ [candidate image]) rest) as [names l'].
  cbn [fst] in *. rewrite IH; [done|].
  intros c [Hc|Hc]%in_app_or Hin.
  - apply (Hdis c Hc). by right.
  - destruct Hc as [<-|[]]. apply Hnotin. by apply list_elem_of_In.
Qed.

(** X6: with [--keep-names], when no two posts have the same original
    name and extension, every file gets exactly its original name, without
    a suffix, and the names are pairwise different. *)
Theorem distinct_candidates_keep_names images :
  NoDup (map candidate images) →
  fst (original_names [] images) = map candidate images
  ∧ NoDup (fst (original_names [] images)).
Proof.
  intros Hnd. rewrite original_names_distinct; [done|done|]. by intros c [].
Qed.

Lemma distinct_candidates_witness :
  fst (original_names [] [Sample.pic 1; Sample.pic_1 2]) = ["pic.png"; "pic_1.png"]
  ∧ NoDup (fst (original_names [] [Sample.pic 1; Sample.pic_1 2])).
Proof.
  assert (Hnd : NoDup (map candidate [Sample.pic 1; Sample.pic_1 2])).
  { apply NoDup_cons. split; [|apply NoDup_singleton].
    intros H%list_elem_of_singleton. discriminate H. }
  exact (distinct_candidates_keep_names [Sample.pic 1; Sample.pic_1 2] Hnd).
Defined.

(** ** A download that succeeds, and the next one *)

Lemma open_wb_fails p w :
  cannot_open (fs w) (components p) → open_wb p w = (Raise (OSError p), w).
Proof.
  unfold open_wb. intros [->|[(r & d & ->)|[-> ->]]]; done.
Qed.

Lemma download_missing E self image w n :
  let resp := net E (length (requests w)) (remote_url self image) in
  let p := components (local_path self image) in
  is_Some (tim image) →
  fs w !! p = None →
  parent_is_dir (fs w) p = true →
  header_content_length resp = Length n →
  n ≠ 0%Z ∨ content resp = [] →
  quiet E (clock w) (clock w + length (iter_content resp 1024) + 2) →
  download_image E self image w =
    (Ok (named self image),
     World (<[p := File true true (content resp)]> (fs w))
           (requests w ++ [remote_url self image]) (stdout w)
           (clock w + length (iter_content resp 1024) + 2)).
Proof.
  intros resp p Ht Hnone Hparent Hlen Hn Hq.
  rewrite download_falls_through by (try done; by left).
  rewrite (transfer_ok E self image w n); try done.
  - subst p. unfold opened_mode. by rewrite Hnone.
  - by right.
Qed.

Lemma parent_of_child_is_dir (f : gmap path node) (dir : path) name :
  dir = [] ∨ f !! dir = Some Dir → parent_is_dir f (dir ++ [name]) = true.
Proof.
  intros H. unfold parent_is_dir. rewrite removelast_last.
  destruct H as [->|H]; [done|].
  destruct dir as [|[|a s] [|y l]]; try done; by rewrite H.
Qed.

Lemma quiet_never E a b : sigint E = None → quiet E a b.
Proof. intros H k Hk. congruence. Qed.

(** X7: when no file is at the path yet, its directory is there, the
    answer carries a content length that is not zero (or has no body) and no
    interrupt arrives, [__download_image] ends normally after one request
    for the image, with the body of the answer in the file, every other
    path as before and nothing printed by [print]. *)
Theorem missing_file_fetched E self image w n :
  let resp := net E (length (requests w)) (remote_url self image) in
  let p := components (local_path self image) in
  is_Some (tim image) →
  fs w !! p = None →
  parent_is_dir (fs w) p = true →
  header_content_length resp = Length n →
  n ≠ 0%Z ∨ content resp = [] →
  quiet E (clock w) (clock w + length (iter_content resp 1024) + 2) →
  ∃ w', download_image E self image w = (Ok (named self image), w')
        ∧ fs w' = <[p := File true true (content resp)]> (fs w)
        ∧ requests w' = requests w ++ [remote_url self image]
        ∧ stdout w' = stdout w.
Proof.
  intros resp p Ht Hnone Hparent Hlen Hn Hq.
  eexists. split; [by apply (download_missing E self image w n)|]. done.
Qed.

Lemma missing_file_witness :
  let E := Sample.environment "two pics" None in
  ∃ w', download_image E (Sample.scraper false) (Sample.pic 1) (Sample.disk [])
          = (Ok (Sample.scraper false), w')
        ∧ fs w' = <[ ["g"; "51971506"; "1.png"] := File true true Sample.abc ]>
                    (fs (Sample.disk []))
        ∧ requests w' = ["https://i.4cdn.org/g/1.png"]
        ∧ stdout w' = [].
Proof.
  intros E.
  assert (Ht : is_Some (tim (Sample.pic 1))) by (by eexists).
  assert (Hnone : fs (Sample.disk [])
                    !! components (local_path (Sample.scraper false) (Sample.pic 1)) = None)
    by (vm_compute; reflexivity).
  assert (Hparent : parent_is_dir (fs (Sample.disk []))
                      (components (local_path (Sample.scraper false) (Sample.pic 1))) = true)
    by (vm_compute; reflexivity).
  assert (Hlen : header_content_length
                   (net E (length (requests (Sample.disk [])))
                      (remote_url (Sample.scraper false) (Sample.pic 1))) = Length 3)
    by (vm_compute; reflexivity).
  assert (Hn : (3 ≠ 0)%Z) by discriminate.
  assert (Hq : quiet E (clock (Sample.disk []))
                 (clock (Sample.disk [])
                  + length (iter_content
                      (net E (length (requests (Sample.disk [])))
                         (remote_url (Sample.scraper false) (Sample.pic 1))) 1024) + 2))
    by (intros k Hk; discriminate Hk).
  exact (missing_file_fetched E (Sample.scraper false) (Sample.pic 1) (Sample.disk []) 3%Z
           Ht Hnone Hparent Hlen (or_introl Hn) Hq).
Defined.

(** X3: a file name that is not empty, holds no slash and is neither [.]
    nor [..] (names that the operating system resolves to the directory
    and to its parent) is stored directly below the directory of the
    thread.  The path [__download_image] computes is the path of the
    directory followed by the name; and when the directory is there,
    nothing is at that path yet, the answer has a usable content length
    and no interrupt arrives, the call ends normally with the body of the
    answer in a file at that path and every other path as before. *)
Theorem local_path_inside_destination E self image w n :
  let name := local_name self image in
  let dir := components (destination self) in
  let resp := net E (length (requests w)) (remote_url self image) in
  name ≠ "" → free_of slash name = true → name ≠ "." → name ≠ ".." →
  is_Some (tim image) →
  dir = [] ∨ fs w !! dir = Some Dir →
  fs w !! (dir ++ [name]) = None →
  header_content_length resp = Length n →
  n ≠ 0%Z ∨ content resp = [] →
  quiet E (clock w) (clock w + length (iter_content resp 1024) + 2) →
  components (local_path self image) = dir ++ [name]
  ∧ ∃ w', download_image E self image w = (Ok (named self image), w')
          ∧ fs w' !! (dir ++ [name]) = Some (File true true (content resp))
          ∧ (∀ q, q ≠ dir ++ [name] → fs w' !! q = fs w !! q).
Proof.
  intros name dir resp Hne Hfree _ _ Ht Hdir Hnone Hlen Hn Hq.
  assert (Hpath : components (local_path self image) = dir ++ [name])
    by (by apply components_join).
  split; [exact Hpath|].
  eexists. split.
  - apply (download_missing E self image w n); try done.
    + by rewrite Hpath.
    + rewrite Hpath. by apply parent_of_child_is_dir.
  - cbn [fs]. rewrite Hpath. split; [apply lookup_insert_eq|].
    intros q Hq'. by apply lookup_insert_ne.
Qed.

Lemma local_path_inside_witness :
  let E := Sample.environment "two pics" None in
  components (local_path (Sample.scraper false) (Sample.pic 1)) = ["g"; "51971506"; "1.png"]
  ∧ ∃ w', download_image E (Sample.scraper false) (Sample.pic 1) (Sample.disk [])
          = (Ok (Sample.scraper false), w')
          ∧ fs w' !! ["g"; "51971506"; "1.png"] = Some (File true true Sample.abc)
          ∧ fs w' !! ["g"; "51971506"] = Some Dir.
Proof.
  intros E.
  assert (Hne : local_name (Sample.scraper false) (Sample.pic 1) ≠ "") by discriminate.
  assert (Hdot : local_name (Sample.scraper false) (Sample.pic 1) ≠ ".") by discriminate.
  assert (Hdots : local_name (Sample.scraper false) (Sample.pic 1) ≠ "..") by discriminate.
  assert (Ht : is_Some (tim (Sample.pic 1))) by (by eexists).
  assert (Hdir : components (destination (Sample.scraper false)) = []
                 ∨ fs (Sample.disk []) !! components (destination (Sample.scraper false))
                   = Some Dir) by (right; vm_compute; reflexivity).
  assert (Hnone : fs (Sample.disk [])
                    !! (components (destination (Sample.scraper false))
                        ++ [local_name (Sample.scraper false) (Sample.pic 1)]) = None)
    by (vm_compute; reflexivity).
  assert (Hlen : header_content_length
                   (net E (length (requests (Sample.disk [])))
                      (remote_url (Sample.scraper false) (Sample.pic 1))) = Length 3)
    by (vm_compute; reflexivity).
  assert (Hn : (3 ≠ 0)%Z ∨ content (net E (length (requests (Sample.disk [])))
                                       (remote_url (Sample.scraper false) (Sample.pic 1))) = [])
    by (left; discriminate).
  assert (Hq : quiet E (clock (Sample.disk []))
                 (clock (Sample.disk [])
                  + length (iter_content
                              (net E (length (requests (Sample.disk [])))
                                 (remote_url (Sample.scraper false) (Sample.pic 1))) 1024)
                  + 2)) by (by apply quiet_never).
  destruct (local_path_inside_destination E (Sample.scraper false) (Sample.pic 1)
              (Sample.disk []) 3%Z Hne eq_refl Hdot Hdots Ht Hdir Hnone Hlen Hn Hq)
    as (Hpath & w' & Hrun & Hfile & Hframe).
  split; [exact Hpath|]. exists w'. split; [exact Hrun|]. split; [exact Hfile|].
  rewrite Hframe by discriminate. vm_compute. reflexivity.
Defined.



Lemma hex_digit_inj (m n : N) :
  (m < 16)%N → (n < 16)%N → hex_digit m = hex_digit n → m = n.
Proof.
  intros Hm Hn.
  assert (Hm' : (m = 0 ∨ m = 1 ∨ m = 2 ∨ m = 3 ∨ m = 4 ∨ m = 5 ∨ m = 6 ∨ m = 7 ∨ m = 8
                 ∨ m = 9 ∨ m = 10 ∨ m = 11 ∨ m = 12 ∨ m = 13 ∨ m = 14 ∨ m = 15)%N) by lia.
  assert (Hn' : (n = 0 ∨ n = 1 ∨ n = 2 ∨ n = 3 ∨ n = 4 ∨ n = 5 ∨ n = 6 ∨ n = 7 ∨ n = 8
                 ∨ n = 9 ∨ n = 10 ∨ n = 11 ∨ n = 12 ∨ n = 13 ∨ n = 14 ∨ n = 15)%N) by lia.
  clear Hm Hn.
  repeat destruct Hm' as [->|Hm']; try subst m;
    repeat destruct Hn' as [->|Hn']; try subst n;
    intros H; first [reflexivity | discriminate H].
Qed.

Lemma byte_to_N_inj (a b : Byte.byte) : Byte.to_N a = Byte.to_N b → a = b.
Proof.
  intros H. apply (f_equal Byte.of_N) in H. rewrite !Byte.of_to_N in H. congruence.
Qed.

(** [bytes.hex()] determines the bytes. *)
Lemma hex_inj (a b : bytes) : hex a = hex b → a = b.
Proof.
  revert b. induction a as [|x a IH]; intros [|y b] H; try done.
  cbn [hex] in H. injection H as H1 H2 H3.
  pose proof (Byte.to_N_bounded x) as Hx. pose proof (Byte.to_N_bounded y) as Hy.
  apply hex_digit_inj in H1; [|apply N.Div0.div_lt_upper_bound; lia..].
  apply hex_digit_inj in H2; [|apply N.mod_lt; lia..].
  f_equal; [|by apply IH].
  apply byte_to_N_inj.
  rewrite (N.div_mod (Byte.to_N x) 16), (N.div_mod (Byte.to_N y) 16) by lia.
  by rewrite H1, H2.
Qed.

(** X15: on a readable file [__md5check] changes nothing and answers
    whether the MD5 of the bytes in the file is the digest whose hexadecimal
    form it was given: equal hexadecimal strings mean equal digests. *)
Theorem md5check_exact E p raw w wr data :
  fs w !! components p = Some (File true wr data) →
  ∃ same, md5check E p (hex raw) w = (Ok same, w)
          ∧ (same = true ↔ hashlib_md5 E data = raw).
Proof.
  intros Hf. unfold md5check, bind, read_file. rewrite Hf. unfold ret.
  eexists. split; [reflexivity|]. rewrite String.eqb_eq. split.
  - apply hex_inj.
  - by intros ->.
Qed.

Lemma md5check_witness :
  let E := Sample.environment "two pics" None in
  let w := Sample.disk [("1.png", File true true Sample.abc)] in
  ∃ same, md5check E "g/51971506/1.png" (hex (MD5.digest Sample.abc)) w = (Ok same, w)
          ∧ (same = true ↔ hashlib_md5 E Sample.abc = MD5.digest Sample.abc).
Proof.
  intros E w.
  assert (Hf : fs w !! components "g/51971506/1.png" = Some (File true true Sample.abc))
    by (vm_compute; reflexivity).
  exact (md5check_exact E "g/51971506/1.png" (MD5.digest Sample.abc) w true Sample.abc Hf).
Defined.

(** ** A download that fails *)

(** X9: when the answer to the request for the image has no
    [Content-length] header, [__download_image] raises [KeyError]; when the
    header is not a number it raises [ValueError].  In both cases the
    request was made and no file was opened: the files are as before. *)
Theorem bad_content_length_keeps_file E self image w :
  let resp := net E (length (requests w)) (remote_url self image) in
  let w' := World (fs w) (requests w ++ [remote_url self image]) (stdout w) (S (clock w)) in
  is_Some (tim image) →
  fs w !! components (local_path self image) = None ∨ differs E (fs w) self image →
  sigint E ≠ Some (clock w) →
  (header_content_length resp = NoHeader →
   download_image E self image w = (Raise (KeyError "content-length"), w'))
  ∧ (header_content_length resp = NotANumber →
     download_image E self image w = (Raise ValueError, w')).
Proof.
  intros resp w' Ht Hcase Hs. subst resp w'.
  rewrite download_falls_through by done.
  split; intros H; unfold transfer, bind at 1; rewrite requests_get_ok by done;
    cbv beta iota; rewrite H; reflexivity.
Qed.

Lemma bad_content_length_witness :
  let E := Faulty.environment Faulty.no_header in
  let other := Sample.disk [("1.png", File true true Sample.other_bytes)] in
  download_image E (Sample.scraper false) (Sample.pic 1) other
  = (Raise (KeyError "content-length"),
     World (fs other) ["https://i.4cdn.org/g/1.png"] [] 1).
Proof.
  intros E other.
  assert (Ht : is_Some (tim (Sample.pic 1))) by (by eexists).
  assert (Hd : differs E (fs other) (Sample.scraper false) (Sample.pic 1)).
  { exists true, Sample.other_bytes, (MD5.digest Sample.abc).
    split; [vm_compute; reflexivity|]. split; [vm_compute; reflexivity|].
    vm_compute. discriminate. }
  assert (Hs : sigint E ≠ Some (clock other)) by discriminate.
  pose proof (bad_content_length_keeps_file E (Sample.scraper false) (Sample.pic 1) other
                Ht (or_intror Hd) Hs) as [H _].
  exact (H eq_refl).
Defined.

(** X10: when [open(file_path, 'wb')] is reached and fails, because
    nothing is at the path and the directory above is missing, or because
    a readable file with another MD5 is there and cannot be written, the
    error that leaves [__download_image] is not the one of [open]: the
    [finally] clause calls [file.close()] on a name that was never bound,
    so [UnboundLocalError] is raised.  The request was made and the files
    are as before.  (With a directory at the path [open] is not reached:
    [__md5check] fails before the request.) *)
Theorem open_failure_raises_unbound E self image w n :
  let p := components (local_path self image) in
  let resp := net E (length (requests w)) (remote_url self image) in
  is_Some (tim image) →
  (fs w !! p = None ∧ parent_is_dir (fs w) p = false)
  ∨ (∃ data raw, fs w !! p = Some (File true false data)
                 ∧ b64decode E (md5 image) = Some raw
                 ∧ hex (hashlib_md5 E data) ≠ hex raw) →
  sigint E ≠ Some (clock w) →
  header_content_length resp = Length n →
  download_image E self image w =
    (Raise UnboundLocalError,
     World (fs w) (requests w ++ [remote_url self image]) (stdout w) (S (clock w))).
Proof.
  intros p resp Ht Hcase Hs Hlen. subst p resp.
  assert (Hthrough : fs w !! components (local_path self image) = None
                     ∨ differs E (fs w) self image).
  { destruct Hcase as [[Hnone _]|(data & raw & Hf & Hdec & Hne)]; [by left|right].
    by exists false, data, raw. }
  assert (Hopen : cannot_open (fs w) (components (local_path self image))).
  { destruct Hcase as [[Hnone Hpar]|(data & raw & Hf & _)].
    - right. right. done.
    - right. left. by exists true, data. }
  rewrite download_falls_through by done.
  unfold transfer, bind at 1. rewrite requests_get_ok by done. cbv beta iota.
  rewrite Hlen. unfold bind at 1, ret at 1. unfold bind at 1.
  unfold save_response, bind at 1, attempt.
  rewrite open_wb_fails by exact Hopen. reflexivity.
Qed.

Lemma open_failure_witness :
  let E := Sample.environment "two pics" None in
  download_image E (Sample.scraper false) (Sample.pic 1) Faulty.read_only
  = (Raise UnboundLocalError,
     World (fs Faulty.read_only) ["https://i.4cdn.org/g/1.png"] [] 1)
  ∧ download_image E (Sample.scraper false) (Sample.pic 1) Sample.empty_world
    = (Raise UnboundLocalError, World ∅ ["https://i.4cdn.org/g/1.png"] [] 1).
Proof.
  intros E.
  assert (Ht : is_Some (tim (Sample.pic 1))) by (by eexists).
  assert (Hlen : ∀ w, requests w = [] →
            header_content_length
              (net E (length (requests w))
                 (remote_url (Sample.scraper false) (Sample.pic 1))) = Length 3).
  { intros w ->. vm_compute. reflexivity. }
  split.
  - assert (Hf : fs Faulty.read_only
                   !! components (local_path (Sample.scraper false) (Sample.pic 1))
                 = Some (File true false Sample.other_bytes)) by (vm_compute; reflexivity).
    assert (Hcase : (fs Faulty.read_only
                       !! components (local_path (Sample.scraper false) (Sample.pic 1)) = None
                     ∧ parent_is_dir (fs Faulty.read_only)
                         (components (local_path (Sample.scraper false) (Sample.pic 1)))
                       = false)
                    ∨ (∃ data raw,
                         fs Faulty.read_only
                           !! components (local_path (Sample.scraper false) (Sample.pic 1))
                         = Some (File true false data)
                         ∧ b64decode E (md5 (Sample.pic 1)) = Some raw
                         ∧ hex (hashlib_md5 E data) ≠ hex raw)).
    { right. exists Sample.other_bytes, (MD5.digest Sample.abc).
      split; [exact Hf|]. split; [vm_compute; reflexivity|]. vm_compute. discriminate. }
    assert (Hs : sigint E ≠ Some (clock Faulty.read_only)) by discriminate.
    exact (open_failure_raises_unbound E (Sample.scraper false) (Sample.pic 1)
             Faulty.read_only 3%Z Ht Hcase Hs (Hlen Faulty.read_only eq_refl)).
  - assert (Hcase : (fs Sample.empty_world
                       !! components (local_path (Sample.scraper false) (Sample.pic 1)) = None
                     ∧ parent_is_dir (fs Sample.empty_world)
                         (components (local_path (Sample.scraper false) (Sample.pic 1)))
                       = false)
                    ∨ (∃ data raw,
                         fs Sample.empty_world
                           !! components (local_path (Sample.scraper false) (Sample.pic 1))
                         = Some (File true false data)
                         ∧ b64decode E (md5 (Sample.pic 1)) = Some raw
                         ∧ hex (hashlib_md5 E data) ≠ hex raw)).
    { left. split; [apply lookup_empty|]. vm_compute. reflexivity. }
    assert (Hs : sigint E ≠ Some (clock Sample.empty_world)) by discriminate.
    exact (open_failure_raises_unbound E (Sample.scraper false) (Sample.pic 1)
             Sample.empty_world 3%Z Ht Hcase Hs (Hlen Sample.empty_world eq_refl)).
Defined.

Lemma write_chunks_zero E p dl chunk rest w r wr data :
  chunk ≠ [] →
  fs w !! components p = Some (File r wr data) →
  sigint E ≠ Some (clock w) →
  write_chunks E p 0 dl (chunk :: rest) w =
    (Raise ZeroDivisionError,
     World (<[components p := File r wr (data ++ chunk)]> (fs w))
           (requests w) (stdout w) (S (clock w))).
Proof.
  intros Hne Hf Hs. cbn [write_chunks]. unfold bind at 1.
  rewrite tick_other by done.
  destruct chunk as [|b chunk]; [done|].
  unfold bind at 1, file_write. cbn [fs]. rewrite Hf. reflexivity.
Qed.

Lemma iter_content_head resp :
  content resp ≠ [] →
  ∃ rest, iter_content resp 1024 = take 1024 (content resp) :: rest
          ∧ take 1024 (content resp) ≠ [].
Proof.
  unfold iter_content. destruct (content resp) as [|b body]; [done|]. intros _.
  eexists. split; [reflexivity|]. done.
Qed.

(** X11: when the answer announces a content length of zero and has a
    body all the same, the division [dl / size] raises [ZeroDivisionError]
    after the first chunk was written: the file is left holding the first
    1024 bytes of the body, and is not removed. *)
Theorem zero_length_leaves_first_chunk E self image w :
  let resp := net E (length (requests w)) (remote_url self image) in
  let p := components (local_path self image) in
  is_Some (tim image) →
  fs w !! p = None ∨ differs E (fs w) self image →
  can_open (fs w) p →
  header_content_length resp = Length 0 →
  content resp ≠ [] →
  sigint E ≠ Some (clock w) →
  sigint E ≠ Some (S (clock w)) →
  download_image E self image w =
    (Raise ZeroDivisionError,
     World (<[p := File (opened_mode (fs w) p) true (take 1024 (content resp))]> (fs w))
           (requests w ++ [remote_url self image]) (stdout w) (S (S (clock w)))).
Proof.
  intros resp p Ht Hcase Hopen Hlen Hne Hs0 Hs1. subst resp p.
  rewrite download_falls_through by done.
  unfold transfer, bind at 1. rewrite requests_get_ok by done. cbv beta iota.
  rewrite Hlen. unfold bind at 1, ret at 1. unfold bind at 1.
  unfold save_response, bind at 1, attempt.
  rewrite open_wb_ok by exact Hopen.
  destruct (iter_content_head _ Hne) as (rest & -> & Hchunk).
  unfold finally, try_except, bind at 1.
  erewrite write_chunks_zero; [|exact Hchunk|cbn [fs set_fs]; apply lookup_insert_eq|exact Hs1].
  cbn [set_fs fs requests stdout clock app]. by rewrite insert_insert_eq.
Qed.

Lemma zero_length_witness :
  let E := Faulty.environment Faulty.zero_length in
  fst (download_image E (Sample.scraper false) (Sample.pic 1) (Sample.disk []))
  = Raise ZeroDivisionError
  ∧ fs (snd (download_image E (Sample.scraper false) (Sample.pic 1) (Sample.disk [])))
      !! ["g"; "51971506"; "1.png"] = Some (File true true Sample.abc).
Proof.
  intros E.
  assert (Ht : is_Some (tim (Sample.pic 1))) by (by eexists).
  assert (Hnone : fs (Sample.disk [])
                    !! components (local_path (Sample.scraper false) (Sample.pic 1)) = None)
    by (vm_compute; reflexivity).
  assert (Hopen : can_open (fs (Sample.disk []))
                    (components (local_path (Sample.scraper false) (Sample.pic 1)))).
  { right. split; [exact Hnone|]. vm_compute. reflexivity. }
  assert (Hlen : header_content_length
                   (net E (length (requests (Sample.disk [])))
                      (remote_url (Sample.scraper false) (Sample.pic 1))) = Length 0)
    by (vm_compute; reflexivity).
  assert (Hne : content (net E (length (requests (Sample.disk [])))
                           (remote_url (Sample.scraper false) (Sample.pic 1))) ≠ [])
    by (vm_compute; discriminate).
  assert (Hs0 : sigint E ≠ Some (clock (Sample.disk []))) by discriminate.
  assert (Hs1 : sigint E ≠ Some (S (clock (Sample.disk [])))) by discriminate.
  rewrite (zero_length_leaves_first_chunk E (Sample.scraper false) (Sample.pic 1)
             (Sample.disk []) Ht (or_introl Hnone) Hopen Hlen Hne Hs0 Hs1).
  split; [reflexivity|]. cbn [snd fs]. rewrite lookup_insert_eq.
  vm_compute. reflexivity.
Defined.

(** X20: an interrupt that arrives during the request for the image,
    before the file is opened, leaves [__download_image] as
    [KeyboardInterrupt] with the disk as it was: a file that was at the
    path with other contents is neither truncated nor removed, and the
    request is not recorded. *)
Theorem interrupt_during_request_keeps_file E self image w :
  is_Some (tim image) →
  fs w !! components (local_path self image) = None ∨ differs E (fs w) self image →
  sigint E = Some (clock w) →
  download_image E self image w =
    (Raise KeyboardInterrupt, World (fs w) (requests w) (stdout w) (S (clock w))).
Proof.
  intros Ht Hcase Hs.
  rewrite download_falls_through by done.
  unfold transfer, bind at 1, requests_get, bind at 1.
  by rewrite tick_sigint.
Qed.

Lemma interrupt_during_request_witness :
  let E := Sample.environment "two pics" (Some 0%nat) in
  let other := Sample.disk [("1.png", File true true Sample.other_bytes)] in
  download_image E (Sample.scraper false) (Sample.pic 1) other
  = (Raise KeyboardInterrupt, World (fs other) [] [] 1).
Proof.
  intros E other.
  assert (Ht : is_Some (tim (Sample.pic 1))) by (by eexists).
  assert (Hd : differs E (fs other) (Sample.scraper false) (Sample.pic 1)).
  { exists true, Sample.other_bytes, (MD5.digest Sample.abc).
    split; [vm_compute; reflexivity|]. split; [vm_compute; reflexivity|].
    vm_compute. discriminate. }
  exact (interrupt_during_request_keeps_file E (Sample.scraper false) (Sample.pic 1) other
           Ht (or_intror Hd) eq_refl).
Defined.

Lemma bind_cases {A B} (m : M A) (k : A → M B) w res w' :
  bind m k w = (res, w') →
  (∃ a w1, m w = (Ok a, w1) ∧ k a w1 = (res, w'))
  ∨ (∃ e, m w = (Raise e, w') ∧ res = Raise e).
Proof.
  unfold bind. destruct (m w) as [[a|e] w1]; [eauto|].
  intros [= <- <-]. eauto.
Qed.

(** X18: however [__download_image] ends, normally or with any
    exception, no path other than the one of the file it is asked to store
    has changed, and it has made at most one request, for that image. *)
Theorem download_image_touches_only_target E self image w res w' :
  download_image E self image w = (res, w') →
  (∀ q, q ≠ components (local_path self image) → fs w' !! q = fs w !! q)
  ∧ (requests w' = requests w ∨ requests w' = requests w ++ [remote_url self image]).
Proof.
  unfold download_image. intros H.
  apply bind_cases in H as [([name self1] & w1 & Hname & H)|(e & Hname & _)].
  2:{ destruct (keep_names self); [by destruct (original_name _ _)|].
      destruct (tim image); [done|]. injection Hname as _ <-. auto. }
  assert (Hn : w1 = w ∧ name = local_name self image ∧ self1 = named self image).
  { unfold local_name, named, remote_name. destruct (keep_names self).
    - destruct (original_name _ _). unfold ret in Hname. by simplify_eq.
    - destruct (tim image); [|done]. unfold ret in Hname. by simplify_eq. }
  destruct Hn as (-> & -> & ->). clear Hname.
  rewrite named_destination, named_board in H. fold (local_path self image) in H.
  apply bind_cases in H as [(present & w1 & Hp & H)|(e & Hp & _)]; [|done].
  unfold os_path_exists in Hp. injection Hp as _ <-.
  apply bind_cases in H as [(skip & w2 & Hskip & H)|(e & Hskip & _)].
  - assert (Hw2 : fs w2 = fs w ∧ requests w2 = requests w).
    { destruct present; [|unfold ret in Hskip; by simplify_eq].
      destruct (b64decode E (md5 image)); [|done].
      apply bind_cases in Hskip as [(same & w3 & Hsame & Hskip)|(e & Hsame & [=])].
      unfold md5check, bind, read_file in Hsame.
      destruct (fs w !! components (local_path self image)) as [[|[] ? ?]|];
        try done. unfold ret in Hsame. injection Hsame as _ <-.
      destruct same; [|unfold ret in Hskip; by simplify_eq].
      unfold bind, print, ret in Hskip. by simplify_eq. }
    destruct Hw2 as [Hfs Hreq].
    destruct skip; [unfold ret in H; simplify_eq; rewrite Hfs; auto|].
    destruct (tim image) as [t|] eqn:Ht;
      [|unfold raise in H; simplify_eq; rewrite Hfs; auto].
    assert (Hurl : image_url (board self) (str_of_int t +:+ ext image) = remote_url self image).
    { unfold remote_url, remote_name. by rewrite Ht. }
    rewrite Hurl in H.
    apply bind_cases in H as [(resp & w3 & Hget & H)|(e & Hget & _)].
    + unfold requests_get, bind, tick in Hget. case_bool_decide; [done|].
      injection Hget as _ <-.
      apply bind_cases in H as [(size & w4 & Hsize & H)|(e & Hsize & _)].
      * assert (w4 = World (fs w2) (requests w2 ++ [remote_url self image])
                       (stdout w2) (S (clock w2))) as ->.
        { destruct (header_content_length resp); try done.
          unfold ret in Hsize. by simplify_eq. }
        apply bind_cases in H as [([] & w5 & Hsave & H)|(e & Hsave & _)].
        -- unfold ret in H. injection H as _ <-.
           apply save_response_frame in Hsave as (Hf & Hr & _). cbn [fs requests] in *.
           split; [|right; congruence]. intros q Hq. by rewrite Hf, Hfs.
        -- apply save_response_frame in Hsave as (Hf & Hr & _). cbn [fs requests] in *.
           split; [|right; congruence]. intros q Hq. by rewrite Hf, Hfs.
      * assert (w' = World (fs w2) (requests w2 ++ [remote_url self image])
                       (stdout w2) (S (clock w2))) as ->.
        { destruct (header_content_length resp); unfold raise, ret in Hsize;
            by simplify_eq. }
        cbn [fs requests]. rewrite Hfs, Hreq. auto.
    + unfold requests_get, bind, tick in Hget. case_bool_decide; [|done].
      injection Hget as _ <-. cbn [fs requests]. rewrite Hfs, Hreq. auto.
  - destruct present; [|done].
    destruct (b64decode E (md5 image)); [|unfold raise in Hskip; simplify_eq; auto].
    apply bind_cases in Hskip as [(same & w3 & Hsame & Hskip)|(e' & Hsame & _)].
    + unfold md5check, bind, read_file in Hsame.
      destruct (fs w !! components (local_path self image)) as [[|[] ? ?]|];
        try done. unfold ret in Hsame. injection Hsame as _ <-.
      destruct same; [|done]. unfold bind, print, ret in Hskip. done.
    + unfold md5check, bind, read_file in Hsame.
      destruct (fs w !! components (local_path self image)) as [[|[] ? ?]|];
        try done; simplify_eq; auto.
Qed.

Lemma touches_only_target_witness :
  let E := Sample.environment "two pics" None in
  let w := Sample.disk [("2.png", File true true Sample.other_bytes)] in
  let r := download_image E (Sample.scraper false) (Sample.pic 1) w in
  fs (snd r) !! ["g"; "51971506"; "2.png"] = fs w !! ["g"; "51971506"; "2.png"]
  ∧ (requests (snd r) = requests w
     ∨ requests (snd r) = requests w ++ ["https://i.4cdn.org/g/1.png"]).
Proof.
  intros E w r.
  assert (Hr : download_image E (Sample.scraper false) (Sample.pic 1) w = (fst r, snd r))
    by apply surjective_pairing.
  destruct (download_image_touches_only_target E (Sample.scraper false) (Sample.pic 1) w
              (fst r) (snd r) Hr) as [Hfs Hreq].
  split; [|exact Hreq]. apply Hfs. discriminate.
Defined.

(** ** The images of a thread *)

(** In server-id mode, with the directory of the thread in place and none
    of the files there yet, the loop of [__get_images] requests every
    image once, in order, and leaves each body in its file. *)
Lemma download_all_fetches E images : ∀ self i w,
  let dir := components (destination self) in
  keep_names self = false →
  sigint E = None →
  dir = [] ∨ fs w !! dir = Some Dir →
  NoDup (map remote_name images) →
  (∀ im, In im images →
     is_Some (tim im) ∧ remote_name im ≠ "" ∧ free_of slash (remote_name im) = true
     ∧ fs w !! (dir ++ [remote_name im]) = None) →
  (∀ j im, images !! j = Some im →
     ∃ n, header_content_length (net E (length (requests w) + j) (remote_url self im))
          = Length n
          ∧ (n ≠ 0%Z ∨ content (net E (length (requests w) + j) (remote_url self im)) = [])) →
  ∃ self' w',
    download_all E self i images w = (Ok self', w')
    ∧ requests w' = requests w ++ map (remote_url self) images
    ∧ stdout w' = stdout w
    ∧ (∀ j im, images !! j = Some im →
         fs w' !! (dir ++ [remote_name im])
         = Some (File true true
                   (content (net E (length (requests w) + j) (remote_url self im)))))
    ∧ (∀ q, (∀ im, In im images → q ≠ dir ++ [remote_name im]) → fs w' !! q = fs w !! q).
Proof.
  induction images as [|image rest IH]; intros self i w dir Hkeep Hsig Hdir Hnd Him Hresp.
  - exists self, w. cbn [download_all map]. rewrite app_nil_r.
    split; [done|]. split; [done|]. split; [done|]. split; [|done].
    intros j im H. by rewrite lookup_nil in H.
  - cbn [download_all]. unfold bind.
    set (self1 := set_image_count i self).
    assert (Hname : local_name self1 image = remote_name image).
    { unfold local_name. cbn [keep_names self1 set_image_count]. by rewrite Hkeep. }
    assert (Hnamed : named self1 image = self1).
    { unfold named. cbn [keep_names self1 set_image_count]. by rewrite Hkeep. }
    destruct (Him image (or_introl eq_refl)) as (Ht & Hne & Hfree & Hfresh).
    assert (Hpath : components (local_path self1 image) = dir ++ [remote_name image]).
    { unfold local_path. rewrite Hname. by apply components_join. }
    destruct (Hresp 0%nat image eq_refl) as (n & Hlen & Hn).
    rewrite Nat.add_0_r in Hlen, Hn.
    rewrite (download_missing E self1 image w n); try done.
    2:{ by rewrite Hpath. }
    2:{ rewrite Hpath. by apply parent_of_child_is_dir. }
    2:{ by apply quiet_never. }
    rewrite Hnamed, Hpath.
    set (w1 := World _ _ _ _).
    apply NoDup_cons in Hnd as [Hnotin Hnd].
    assert (Hother : ∀ im, In im rest → dir ++ [remote_name im] ≠ dir ++ [remote_name image]).
    { intros im Hin Heq. apply app_inv_head in Heq. injection Heq as Heq.
      apply Hnotin. rewrite <- Heq. apply list_elem_of_In. by apply in_map. }
    destruct (IH self1 (S i) w1) as (self' & w' & Hrun & Hreq & Hout & Hfiles & Hframe).
    + done.
    + done.
    + destruct Hdir as [Hd|Hd]; [by left|right].
      subst w1. cbn [fs]. rewrite lookup_insert_ne; [done|].
      intros Heq. apply (f_equal length) in Heq. rewrite length_app in Heq.
      simpl in Heq. fold dir in Heq. lia.
    + done.
    + intros im Hin. destruct (Him im (or_intror Hin)) as (? & ? & ? & Hf).
      repeat (split; [done|]). subst w1. cbn [fs].
      rewrite lookup_insert_ne; [done|]. intros Heq. by apply (Hother im Hin).
    + intros j im Hj. subst w1. cbn [requests]. rewrite length_app. cbn [length].
      replace (length (requests w) + 1 + j)%nat with (length (requests w) + S j)%nat by lia.
      apply (Hresp (S j) im Hj).
    + change (components (destination self1)) with dir in *.
      change (remote_url self1) with (remote_url self) in *.
      exists self', w'. split; [exact Hrun|]. split.
      { rewrite Hreq. subst w1. cbn [requests map]. by rewrite <- app_assoc. }
      split; [by rewrite Hout|]. split.
      * intros [|j] im Hj.
        -- injection Hj as <-. rewrite Hframe.
           ++ subst w1. cbn [fs]. rewrite lookup_insert_eq, Nat.add_0_r. done.
           ++ intros im Hin Heq. by apply (Hother im Hin).
        -- rewrite (Hfiles j im Hj). subst w1. cbn [requests].
           rewrite length_app. cbn [length].
           by replace (length (requests w) + 1 + j)%nat
                with (length (requests w) + S j)%nat by lia.
      * intros q Hq. rewrite Hframe.
        -- subst w1. cbn [fs]. rewrite lookup_insert_ne; [done|].
           intros Heq. apply (Hq image); [by left|done].
        -- intros im Hin. apply Hq. by right.
Qed.

(** X16: without [--keep-names], with the directory of the thread in
    place, none of the files there yet, server names that are pairwise
    different, answers with a usable content length and no interrupt,
    [__get_images] requests the image of every post that has an attachment
    once, in the order of the posts, and leaves each body in the file named
    after its post; posts without attachment cause no request, nothing else
    on the disk changes and [print] is not called. *)
Theorem get_images_fetches_all E self w :
  let images := List.filter has_attachment (posts (the_thread self)) in
  let dir := components (destination self) in
  keep_names self = false →
  sigint E = None →
  dir = [] ∨ fs w !! dir = Some Dir →
  NoDup (map remote_name images) →
  (∀ im, In im images →
     remote_name im ≠ "" ∧ free_of slash (remote_name im) = true
     ∧ fs w !! (dir ++ [remote_name im]) = None) →
  (∀ j im, images !! j = Some im →
     ∃ n, header_content_length (net E (length (requests w) + j) (remote_url self im))
          = Length n
          ∧ (n ≠ 0%Z ∨ content (net E (length (requests w) + j) (remote_url self im)) = [])) →
  ∃ self' w',
    get_images E self w = (Ok self', w')
    ∧ requests w' = requests w ++ map (remote_url self) images
    ∧ stdout w' = stdout w
    ∧ (∀ j im, images !! j = Some im →
         fs w' !! (dir ++ [remote_name im])
         = Some (File true true
                   (content (net E (length (requests w) + j) (remote_url self im)))))
    ∧ (∀ q, (∀ im, In im images → q ≠ dir ++ [remote_name im]) → fs w' !! q = fs w !! q).
Proof.
  intros images dir Hkeep Hsig Hdir Hnd Him Hresp. unfold get_images. fold images.
  apply (download_all_fetches E images (set_image_total (length images) self) 0 w);
    try done.
  intros im Hin. destruct (Him im Hin) as (? & ? & ?).
  split; [|done]. subst images. apply filter_In in Hin as [_ Hin].
  unfold has_attachment in Hin. by destruct (tim im).
Qed.

Lemma get_images_witness :
  let E := Sample.environment "two pics" None in
  ∃ self' w',
    get_images E (Sample.scraper false) (Sample.disk []) = (Ok self', w')
    ∧ requests w' = ["https://i.4cdn.org/g/1.png"; "https://i.4cdn.org/g/2.png"]
    ∧ fs w' !! ["g"; "51971506"; "1.png"] = Some (File true true Sample.abc)
    ∧ fs w' !! ["g"; "51971506"; "2.png"] = Some (File true true Sample.abc).
Proof.
  intros E.
  assert (Hdir : components (destination (Sample.scraper false)) = []
                 ∨ fs (Sample.disk []) !! components (destination (Sample.scraper false))
                   = Some Dir) by (right; vm_compute; reflexivity).
  assert (Hnd : NoDup (map remote_name
                  (List.filter has_attachment (posts (the_thread (Sample.scraper false)))))).
  { apply NoDup_cons. split; [|apply NoDup_singleton].
    intros H%list_elem_of_singleton. discriminate H. }
  assert (Him : ∀ im,
            In im (List.filter has_attachment (posts (the_thread (Sample.scraper false)))) →
            remote_name im ≠ "" ∧ free_of slash (remote_name im) = true
            ∧ fs (Sample.disk []) !! (components (destination (Sample.scraper false))
                                      ++ [remote_name im]) = None).
  { intros im [<-|[<-|[]]]; (split; [discriminate|]); split; vm_compute; reflexivity. }
  assert (Hresp : ∀ j im,
            List.filter has_attachment (posts (the_thread (Sample.scraper false))) !! j
            = Some im →
            ∃ n, header_content_length
                   (net E (length (requests (Sample.disk [])) + j)
                      (remote_url (Sample.scraper false) im)) = Length n
                 ∧ (n ≠ 0%Z
                    ∨ content (net E (length (requests (Sample.disk [])) + j)
                                 (remote_url (Sample.scraper false) im)) = [])).
  { intros [|[|j]] im Hj; [| |discriminate Hj]; injection Hj as <-;
      exists 3%Z; (split; [vm_compute; reflexivity|left; discriminate]). }
  destruct (get_images_fetches_all E (Sample.scraper false) (Sample.disk [])
              eq_refl eq_refl Hdir Hnd Him Hresp)
    as (self' & w' & Hrun & Hreq & _ & Hfiles & _).
  exists self', w'. split; [exact Hrun|]. split; [exact Hreq|]. split.
  - exact (Hfiles 0%nat (Sample.pic 1) eq_refl).
  - exact (Hfiles 1%nat (Sample.pic 2) eq_refl).
Defined.

(** X13: [Scrape] does not use the thread that [__init__] fetched: it
    fetches the thread again, so its result is the same whatever document
    the scraper held before. *)
Theorem Scrape_replaces_snapshot E self t w :
  Scrape E (set_thread t self) w = Scrape E self w.
Proof.
  unfold Scrape, bind, get_thread, bind. simpl.
  destruct (requests_get E _ w) as [[resp|e] w1]; [|done].
  destruct (String.length (text resp) =? 0)%nat; [done|].
  by destruct (json_loads E (text resp)).
Qed.

(** ** The three loops of [main] *)

(** X12: the first loop of [main] keeps the URLs that [check_url]
    accepts, in their order, prints for each of the others the line
    [<url> is an invalid thread URL.], sets the exit code to 1 as soon as
    one URL is rejected and leaves it alone otherwise; it makes no request
    and touches no file. *)
Theorem validate_reports_invalid urls : ∀ validURLs exitcode w,
  validate urls validURLs exitcode w =
    (Ok (validURLs ++ List.filter check_url urls,
         if forallb check_url urls then exitcode else 1%Z),
     World (fs w) (requests w)
           (stdout w ++ map invalid_message (List.filter (λ u, negb (check_url u)) urls))
           (clock w)).
Proof.
  induction urls as [|url rest IH]; intros validURLs exitcode w.
  - simpl. unfold ret. rewrite !app_nil_r. by destruct w.
  - cbn [validate List.filter forallb]. unfold bind at 1, try_except.
    destruct (check_url url); cbn [negb andb].
    + unfold bind at 1, ret at 1, ret at 1. cbv beta iota.
      rewrite IH. by rewrite <- app_assoc.
    + unfold bind at 1, raise at 1. cbv beta iota.
      unfold bind at 1, print, ret at 1. cbv beta iota.
      rewrite IH. cbn [fs requests stdout clock map].
      rewrite <- app_assoc. by destruct (forallb check_url rest).
Qed.

Lemma Scraper_init_Ok E u keep w s w' :
  Scraper_init E u keep w = (Ok s, w') →
  url s = u ∧ keep_names s = keep ∧ downloaded_files s = [].
Proof.
  unfold Scraper_init. intros H.
  apply bind_Ok in H as ([b t] & w1 & _ & H).
  apply bind_Ok in H as (present & w2 & _ & H).
  apply bind_Ok in H as ([] & w3 & _ & H).
  unfold get_thread in H.
  apply bind_Ok in H as (resp & w4 & _ & H).
  destruct (String.length _ =? 0)%nat; [done|].
  destruct (json_loads E _); [|done].
  unfold ret in H. by simplify_eq.
Qed.

(** X17: when the thread exists, [__init__] ends normally with the URL
    and the flag it was given, the board and the thread id taken from the
    parts 3 and 5 of the URL, the directory [board/thread_id] as
    destination, an empty ledger and the document that the API returned.
    It makes exactly one request, to the API; the directory is created when
    it was missing, and the disk is untouched when it was there. *)
Theorem init_builds_scraper E url keep w b t doc :
  split_on slash url !! 3%nat = Some b →
  split_on slash url !! 5%nat = Some t →
  let p := components (path_join b t) in
  is_Some (fs w !! p)
  ∨ (p ≠ [] ∧ fs w !! p = None
     ∧ ∀ k, (0 < k < length p)%nat →
            fs w !! take k p = None ∨ fs w !! take k p = Some Dir) →
  sigint E ≠ Some (clock w) →
  text (net E (length (requests w)) (api_url b t)) ≠ "" →
  json_loads E (text (net E (length (requests w)) (api_url b t))) = Some doc →
  ∃ w', Scraper_init E url keep w = (Ok (new_scraper url keep b t doc), w')
        ∧ requests w' = requests w ++ [api_url b t]
        ∧ (is_Some (fs w !! p) → fs w' = fs w)
        ∧ (fs w !! p = None → fs w' !! p = Some Dir).
Proof.
  intros Hb Ht p Hcase Hs Htext Hdoc.
  assert (Hl : (String.length (text (net E (length (requests w)) (api_url b t))) =? 0)%nat
               = false).
  { destruct (_ =? 0)%nat eqn:H; [|done]. by apply length_zero_empty in H. }
  unfold Scraper_init, bind at 1, parse_url. rewrite Hb, Ht.
  unfold ret at 1. cbv beta iota. unfold bind at 1, os_path_exists. fold p.
  destruct Hcase as [Hsome|(Hp & Hnone & Hanc)].
  - rewrite bool_decide_eq_true_2 by done. cbn [negb]. unfold bind at 1, ret at 1.
    rewrite get_thread_eq by done. cbv zeta. cbn [board thread_id].
    rewrite Hl, Hdoc. eexists. split; [reflexivity|]. cbn [requests fs].
    split; [done|]. split; [done|]. intros Hn. rewrite Hn in Hsome. by destruct Hsome.
  - rewrite Hnone, bool_decide_eq_false_2 by (intros [? ?]; done).
    cbn [negb]. unfold bind at 1, os_makedirs. fold p.
    destruct (makedirs_from_ok (rev p) w) as (f & Hrun & Hdir & _).
    + intros Hrev. apply Hp. by rewrite <- (rev_involutive p), Hrev.
    + by rewrite rev_involutive.
    + intros k Hk. rewrite rev_involutive. apply Hanc. by rewrite length_rev in Hk.
    + rewrite Hrun. rewrite rev_involutive in Hdir.
      rewrite get_thread_eq by done. cbv zeta. cbn [board thread_id requests fs].
      rewrite Hl, Hdoc. eexists. split; [reflexivity|]. cbn [requests fs].
      split; [done|]. split; [|done]. intros [? Hx]. congruence.
Qed.

Lemma init_builds_witness :
  ∃ w', Scraper_init (Sample.environment "two pics" None) Sample.thread_url false
          Sample.empty_world
        = (Ok (new_scraper Sample.thread_url false "g" "51971506" Sample.two_pics), w')
        ∧ requests w' = ["https://a.4cdn.org/g/thread/51971506.json"]
        ∧ fs w' !! ["g"; "51971506"] = Some Dir.
Proof.
  assert (Hcase : is_Some (fs Sample.empty_world !! components (path_join "g" "51971506"))
            ∨ (components (path_join "g" "51971506") ≠ []
               ∧ fs Sample.empty_world !! components (path_join "g" "51971506") = None
               ∧ ∀ k, (0 < k < length (components (path_join "g" "51971506")))%nat →
                   fs Sample.empty_world !! take k (components (path_join "g" "51971506"))
                   = None
                   ∨ fs Sample.empty_world !! take k (components (path_join "g" "51971506"))
                     = Some Dir)).
  { right. split; [discriminate|]. split; [apply lookup_empty|].
    intros k _. left. apply lookup_empty. }
  assert (Hs : sigint (Sample.environment "two pics" None) ≠ Some (clock Sample.empty_world))
    by discriminate.
  assert (Htext : text (net (Sample.environment "two pics" None)
                          (length (requests Sample.empty_world)) (api_url "g" "51971506"))
                  ≠ "") by (vm_compute; discriminate).
  assert (Hdoc : json_loads (Sample.environment "two pics" None)
                   (text (net (Sample.environment "two pics" None)
                            (length (requests Sample.empty_world)) (api_url "g" "51971506")))
                 = Some Sample.two_pics) by (vm_compute; reflexivity).
  destruct (init_builds_scraper (Sample.environment "two pics" None) Sample.thread_url
              false Sample.empty_world "g" "51971506" Sample.two_pics
              eq_refl eq_refl Hcase Hs Htext Hdoc)
    as (w' & Hrun & Hreq & _ & Hdir).
  exists w'. split; [exact Hrun|]. split; [exact Hreq|].
  exact (Hdir (lookup_empty _)).
Defined.

(** X19: when the second loop of [main] ends normally, the scrapers it
    has added are those of the URLs whose thread was found, in the order of
    the URLs: a missing thread is skipped and the loop goes on.  One
    request was made per URL, every scraper built carries the
    [keep_names] flag of the command line, and the exit code is the one
    the loop started with when every thread was found and 1 otherwise. *)
Theorem construct_builds_found E keep urls : ∀ threads exitcode w threads' exitcode' w',
  construct E keep urls threads exitcode w = (Ok (threads', exitcode'), w') →
  map url threads' = map url threads ++ found_urls E (length (requests w)) urls
  ∧ length (requests w') = (length (requests w) + length urls)%nat
  ∧ (Forall (λ s, keep_names s = keep) threads →
     Forall (λ s, keep_names s = keep) threads')
  ∧ exitcode' = (if all_found E (length (requests w)) urls then exitcode else 1%Z).
Proof.
  induction urls as [|u rest IH]; intros threads exitcode w threads' exitcode' w' H.
  - cbn [construct] in H. unfold ret in H. simplify_eq.
    rewrite app_nil_r, Nat.add_0_r. done.
  - cbn [construct found_urls all_found] in H |- *.
    apply bind_Ok in H as ([threads1 ec1] & w1 & Hstep & H).
    apply IH in H as (Hurls & Hlen & Hkeep & Hcode).
    unfold try_except, bind at 1 in Hstep.
    destruct (Scraper_init E u keep w) as [[s|e] w0] eqn:Hinit.
    + pose proof (Scraper_init_cases _ _ _ _ _ _ Hinit) as [Hfound Hreq].
      apply Scraper_init_Ok in Hinit as (Hu & Hk & _).
      unfold ret in Hstep. simplify_eq. rewrite Hfound.
      rewrite Hurls, Hlen, Hreq, map_app. cbn [map length andb].
      rewrite <- app_assoc. split; [done|]. split; [lia|].
      split; [|done].
      intros Hall. apply Hkeep. apply Forall_app. split; [done|]. by constructor.
    + pose proof (Scraper_init_cases _ _ _ _ _ _ Hinit) as Hcase.
      destruct e; try done. destruct Hcase as [Hfound Hreq].
      unfold bind, print, ret in Hstep. simplify_eq. rewrite Hfound.
      cbn [requests andb] in *. rewrite Hurls, Hlen, Hreq. cbn [length].
      split; [done|]. split; [lia|]. split; [done|].
      by destruct (all_found E (S (length (requests w))) rest).
Qed.

Lemma construct_builds_witness :
  let E := Sample.environment "two pics" None in
  let r := construct E false ["https://boards.4chan.org/b/thread/1"; Sample.thread_url]
             [] 0%Z Sample.empty_world in
  ∃ threads' exitcode',
    fst r = Ok (threads', exitcode')
    ∧ map url threads' = [Sample.thread_url]
    ∧ length (requests (snd r)) = 2%nat
    ∧ exitcode' = 1%Z.
Proof.
  intros E r.
  assert (Hok : match fst r with Ok _ => true | Raise _ => false end = true)
    by (vm_compute; reflexivity).
  destruct (fst r) as [[threads' exitcode']|e] eqn:Hf; [|discriminate].
  exists threads', exitcode'. split; [reflexivity|].
  assert (Hr : construct E false ["https://boards.4chan.org/b/thread/1"; Sample.thread_url]
                 [] 0%Z Sample.empty_world = (Ok (threads', exitcode'), snd r))
    by (rewrite <- Hf; apply surjective_pairing).
  destruct (construct_builds_found E false _ _ _ _ _ _ _ Hr)
    as (Hurls & Hlen & _ & Hcode).
  split; [rewrite Hurls; vm_compute; reflexivity|]. split; [exact Hlen|].
  rewrite Hcode. vm_compute. reflexivity.
Defined.

(** The first loop of [main] in closed form. *)
Lemma validate_run urls : ∀ validURLs exitcode w,
  validate urls validURLs exitcode w =
    (Ok (validURLs ++ List.filter check_url urls,
         if forallb check_url urls then exitcode else 1%Z),
     World (fs w) (requests w)
           (stdout w ++ map invalid_message (List.filter (λ u, negb (check_url u)) urls))
           (clock w)).
Proof.
  induction urls as [|url rest IH]; intros validURLs exitcode w.
  - simpl. unfold ret. rewrite !app_nil_r. by destruct w.
  - cbn [validate List.filter forallb]. unfold bind at 1, try_except.
    destruct (check_url url); cbn [negb andb].
    + unfold bind at 1, ret at 1, ret at 1. cbv beta iota.
      rewrite IH. by rewrite <- app_assoc.
    + unfold bind at 1, raise at 1. cbv beta iota.
      unfold bind at 1, print, ret at 1. cbv beta iota.
      rewrite IH. cbn [fs requests stdout clock map].
      rewrite <- app_assoc. by destruct (forallb check_url rest).
Qed.

(** [main] after its first loop. *)
Lemma main_after_validation E a w :
  main E a w =
    bind (construct E (arg_keep_names a) (List.filter check_url (URLs a)) []
            (if forallb check_url (URLs a) then 0%Z else 1%Z))
         (λ r, bind (scrape_all E (fst r)) (λ _, raise (SystemExit (snd r))))
         (reported a w).
Proof.
  unfold main, bind at 1. rewrite validate_run. cbv beta iota. cbn [app].
  unfold reported, bind.
  destruct (construct E _ _ _ _ _) as [[[threads ec]|e] w1]; reflexivity.
Qed.

(** When the second loop ends normally it has asked for the thread of
    every URL and kept the scrapers of those that were found. *)
Lemma construct_run E keep urls : ∀ threads exitcode w threads' exitcode' w',
  construct E keep urls threads exitcode w = (Ok (threads', exitcode'), w') →
  map url threads' = map url threads ++ found_urls E (length (requests w)) urls
  ∧ length (requests w') = (length (requests w) + length urls)%nat.
Proof.
  induction urls as [|u rest IH]; intros threads exitcode w threads' exitcode' w' H.
  - cbn [construct] in H. unfold ret in H. simplify_eq.
    rewrite app_nil_r, Nat.add_0_r. done.
  - cbn [construct found_urls] in H |- *.
    apply bind_Ok in H as ([threads1 ec1] & w1 & Hstep & H).
    apply IH in H as (Hurls & Hlen).
    unfold try_except, bind at 1 in Hstep.
    destruct (Scraper_init E u keep w) as [[s|e] w0] eqn:Hinit.
    + pose proof (Scraper_init_cases _ _ _ _ _ _ Hinit) as [Hfound Hreq].
      apply Scraper_init_Ok in Hinit as (Hu & _).
      unfold ret in Hstep. simplify_eq. rewrite Hfound.
      rewrite Hurls, Hlen, Hreq, map_app. cbn [map length].
      rewrite <- app_assoc. split; [done|]. lia.
    + pose proof (Scraper_init_cases _ _ _ _ _ _ Hinit) as Hcase.
      destruct e; try done. destruct Hcase as [Hfound Hreq].
      unfold bind, print, ret in Hstep. simplify_eq. rewrite Hfound.
      cbn [requests] in *. rewrite Hurls, Hlen, Hreq. cbn [length].
      split; [done|]. lia.
Qed.

(** What a run of [main] that reaches [exit] has done. *)
Lemma main_exit_run E a w c w' :
  main E a w = (Raise (SystemExit c), w') →
  ∃ threads w1,
    construct E (arg_keep_names a) (List.filter check_url (URLs a)) []
      (if forallb check_url (URLs a) then 0%Z else 1%Z) (reported a w)
    = (Ok (threads, c), w1)
    ∧ scrape_all E threads w1 = (Ok tt, w').
Proof.
  rewrite main_after_validation. unfold bind at 1.
  destruct (construct E _ _ _ _ _) as [[[threads ec]|e] w1] eqn:Hc.
  - cbn [fst snd]. unfold bind.
    pose proof (no_exit_scrape_all E threads w1) as Hne.
    destruct (scrape_all E threads w1) as [[[]|e] w2] eqn:Hs.
    + unfold raise. intros [= <- <-]. exists threads, w1. done.
    + intros [= -> <-]. by destruct (Hne c).
  - intros [= -> <-]. by apply construct_cases in Hc.
Qed.

Lemma scrape_all_scraped E threads : ∀ w w',
  scrape_all E threads w = (Ok tt, w') → scraped E threads w w'.
Proof.
  induction threads as [|t rest IH]; intros w w' H.
  - cbn [scrape_all] in H. unfold ret in H. by simplify_eq.
  - cbn [scrape_all scraped] in H |- *.
    apply bind_Ok in H as (t' & w1 & Ht & H). exists t', w1. split; [exact Ht|]. by apply IH.
Qed.

(** X14: when the first two loops of [main] end normally with at least
    one scraper, and the thread of the first scraper has vanished by the
    time it is scraped (the API answers with an empty body), the third loop
    stops with [ThreadDoesNotExist] after that one request: nothing is
    downloaded and the scrapers after it are not run.  [main] does not
    catch the exception, and the [__main__] block catches only the
    interrupt, so the script ends with status 1. *)
Theorem vanished_thread_aborts_batch E a w t rest exitcode w1 :
  let gone := ThreadDoesNotExist (board t) (thread_id t) in
  let w2 := World (fs w1) (requests w1 ++ [api_url (board t) (thread_id t)])
                  (stdout w1) (S (clock w1)) in
  construct E (arg_keep_names a) (List.filter check_url (URLs a)) []
    (if forallb check_url (URLs a) then 0%Z else 1%Z) (reported a w)
  = (Ok (t :: rest, exitcode), w1) →
  sigint E ≠ Some (clock w1) →
  text (net E (length (requests w1)) (api_url (board t) (thread_id t))) = "" →
  scrape_all E (t :: rest) w1 = (Raise gone, w2)
  ∧ main E a w = (Raise gone, w2)
  ∧ script E a w = (1%Z, w2).
Proof.
  intros gone w2 Hc Hs Htext.
  assert (Hscrape : scrape_all E (t :: rest) w1 = (Raise gone, w2)).
  { cbn [scrape_all]. unfold bind at 1, Scrape, bind at 1.
    rewrite get_thread_eq by done. cbv zeta.
    by rewrite (proj2 (length_zero_empty _) Htext). }
  assert (Hmain : main E a w = (Raise gone, w2)).
  { rewrite main_after_validation. unfold bind at 1. rewrite Hc.
    cbn [fst snd]. unfold bind at 1. by rewrite Hscrape. }
  split; [exact Hscrape|]. split; [exact Hmain|].
  unfold script, try_except. by rewrite Hmain.
Qed.

Lemma vanished_thread_witness :
  let a := Args [Sample.thread_url] false in
  fst (script Faulty.vanishing a (Sample.disk [])) = 1%Z
  ∧ ∃ b t, fst (main Faulty.vanishing a (Sample.disk [])) = Raise (ThreadDoesNotExist b t).
Proof.
  intros a.
  set (r := construct Faulty.vanishing (arg_keep_names a)
              (List.filter check_url (URLs a)) []
              (if forallb check_url (URLs a) then 0%Z else 1%Z)
              (reported a (Sample.disk []))).
  assert (Hok : match fst r with Ok (_ :: _, _) => true | _ => false end = true)
    by (vm_compute; reflexivity).
  assert (Hlen : length (requests (snd r)) = 1%nat) by (vm_compute; reflexivity).
  destruct (fst r) as [[[|t rest] exitcode]|e] eqn:Hf; try discriminate Hok.
  assert (Hr : r = (Ok (t :: rest, exitcode), snd r))
    by (rewrite <- Hf; apply surjective_pairing).
  assert (Hs : sigint Faulty.vanishing ≠ Some (clock (snd r))) by discriminate.
  assert (Htext : text (net Faulty.vanishing (length (requests (snd r)))
                          (api_url (board t) (thread_id t))) = "")
    by (rewrite Hlen; reflexivity).
  destruct (vanished_thread_aborts_batch Faulty.vanishing a (Sample.disk [])
              t rest exitcode (snd r) Hr Hs Htext) as (_ & Hmain & Hscript).
  split; [by rewrite Hscript|]. exists (board t), (thread_id t). by rewrite Hmain.
Defined.

(** ** The exit status *)

(** C7: the exit status is 0, 1 or 130.  It is 0 only if every URL was
    valid and every thread was found when its scraper was built, and it is
    130 exactly when the interrupt of the user leaves [main].  The first
    loop looks at every URL: it keeps the valid ones, reports each of the
    others and goes on.  When [main] reaches its [exit], the status is 0
    exactly when every URL was valid and every thread was found, and 1
    exactly when a URL was not valid or a thread was not found; in such a
    run the second loop has asked for the thread of every valid URL, also
    after a missing one, and has built the scrapers of exactly the URLs
    whose thread was found, and the third loop has scraped every one of
    them. *)
Theorem exit_status E a w :
  let status := fst (script E a w) in
  let valid := List.filter check_url (URLs a) in
  let all_valid := forallb check_url (URLs a) in
  let all_exist := all_found E (length (requests w)) valid in
  (status = 0 ∨ status = 1 ∨ status = 130)%Z
  ∧ (status = 0%Z → all_valid = true ∧ all_exist = true)
  ∧ (status = 130%Z ↔ fst (main E a w) = Raise KeyboardInterrupt)
  ∧ validate (URLs a) [] 0%Z w
    = (Ok (valid, if all_valid then 0%Z else 1%Z), reported a w)
  ∧ (∀ c w', main E a w = (Raise (SystemExit c), w') →
       status = c
       ∧ (c = 0%Z ↔ all_valid = true ∧ all_exist = true)
       ∧ (c = 1%Z ↔ all_valid = false ∨ all_exist = false)
       ∧ ∃ threads w1,
           construct E (arg_keep_names a) valid []
             (if all_valid then 0%Z else 1%Z) (reported a w) = (Ok (threads, c), w1)
           ∧ map url threads = found_urls E (length (requests w)) valid
           ∧ length (requests w1) = (length (requests w) + length valid)%nat
           ∧ scraped E threads w1 w').
Proof.
  intros status valid all_valid all_exist. subst status.
  assert (Hcode : ∀ c w', main E a w = (Raise (SystemExit c), w') →
            c = if all_valid && all_exist then 0%Z else 1%Z).
  { intros c w' H. by apply main_cases in H. }
  assert (Hstatus :
    (fst (script E a w) = 0 ∨ fst (script E a w) = 1 ∨ fst (script E a w) = 130)%Z
    ∧ (fst (script E a w) = 0%Z → all_valid = true ∧ all_exist = true)
    ∧ (fst (script E a w) = 130%Z ↔ fst (main E a w) = Raise KeyboardInterrupt)
    ∧ ∀ c w', main E a w = (Raise (SystemExit c), w') → fst (script E a w) = c).
  { unfold script, try_except.
    destruct (main E a w) as [res w0] eqn:Hmain.
    pose proof (main_cases _ _ _ _ _ Hmain) as Hcases.
    destruct res as [[]|e]; [done|].
    destruct e; cbn [fst bind print raise];
      try (split; [by right; left|]; split; [by intros [=]|];
           split; [by split; intros [=]|]; by intros c0 w1 [=]).
    - split; [by right; right|]. split; [by intros [=]|]. split; [done|].
      by intros c0 w1 [=].
    - specialize (Hcode code w0 eq_refl). subst code.
      split; [destruct (all_valid && all_exist); auto|].
      split; [destruct all_valid, all_exist; cbn [andb]; by intros [=]|].
      split; [split; [destruct (all_valid && all_exist)|]; by intros [=]|].
      by intros c0 w1 [= <- _]. }
  destruct Hstatus as (Hrange & Hzero & Hint & Hexit).
  split; [exact Hrange|]. split; [exact Hzero|]. split; [exact Hint|].
  split; [apply (validate_run (URLs a) [] 0%Z w)|].
  intros c w' Hmain. split; [by apply (Hexit c w')|].
  pose proof (Hcode c w' Hmain) as ->.
  split; [|split].
  - destruct all_valid, all_exist; cbn [andb]; split;
      first [done | intros [? ?]; done].
  - destruct all_valid, all_exist; cbn [andb]; split;
      first [done | intros [?|?]; done | by left | by right].
  - destruct (main_exit_run _ _ _ _ _ Hmain) as (threads & w1 & Hc & Hs).
    exists threads, w1. split; [exact Hc|].
    destruct (construct_run _ _ _ _ _ _ _ _ _ Hc) as (Hurls & Hlen).
    split; [exact Hurls|]. split; [exact Hlen|]. by apply scrape_all_scraped.
Qed.

(** C7 at work: a URL that is not valid and a thread that is missing
    before a good one give 1, and the good one is still built; the good
    one alone gives 0, and an interrupt during the download gives 130. *)
Lemma exit_status_witness :
  let E := Sample.environment "two pics" None in
  let a := Args ["bad"; "https://boards.4chan.org/b/thread/1"; Sample.thread_url] false in
  fst (script E a Sample.empty_world) = 1%Z
  ∧ (∃ threads w1,
       construct E false (List.filter check_url (URLs a)) []
         (if forallb check_url (URLs a) then 0%Z else 1%Z) (reported a Sample.empty_world)
       = (Ok (threads, 1%Z), w1)
       ∧ map url threads = [Sample.thread_url]
       ∧ length (requests w1) = 2%nat)
  ∧ stdout (reported a Sample.empty_world) = ["bad is an invalid thread URL."]
  ∧ fst (script E (Args [Sample.thread_url] false) Sample.empty_world) = 0%Z
  ∧ fst (script (Sample.environment "two pics" (Some 3%nat))
           (Args [Sample.thread_url] false) Sample.empty_world) = 130%Z.
Proof.
  intros E a. split; [|split; [|split; [|split]]].
  - pose proof (exit_status E a Sample.empty_world) as (_ & _ & _ & _ & H).
    assert (Hf : fst (main E a Sample.empty_world) = Raise (SystemExit 1))
      by (vm_compute; reflexivity).
    assert (Hmain : main E a Sample.empty_world
                    = (Raise (SystemExit 1), snd (main E a Sample.empty_world)))
      by (rewrite <- Hf; apply surjective_pairing).
    exact (proj1 (H 1%Z _ Hmain)).
  - pose proof (exit_status E a Sample.empty_world) as (_ & _ & _ & _ & H).
    assert (Hf : fst (main E a Sample.empty_world) = Raise (SystemExit 1))
      by (vm_compute; reflexivity).
    assert (Hmain : main E a Sample.empty_world
                    = (Raise (SystemExit 1), snd (main E a Sample.empty_world)))
      by (rewrite <- Hf; apply surjective_pairing).
    destruct (H 1%Z _ Hmain) as (_ & _ & _ & threads & w1 & Hc & Hurls & Hlen & _).
    exists threads, w1. split; [exact Hc|]. split.
    + rewrite Hurls. vm_compute. reflexivity.
    + rewrite Hlen. vm_compute. reflexivity.
  - vm_compute. reflexivity.
  - pose proof (exit_status E (Args [Sample.thread_url] false) Sample.empty_world)
      as (_ & _ & _ & _ & H).
    assert (Hf : fst (main E (Args [Sample.thread_url] false) Sample.empty_world)
                 = Raise (SystemExit 0)) by (vm_compute; reflexivity).
    assert (Hmain : main E (Args [Sample.thread_url] false) Sample.empty_world
                    = (Raise (SystemExit 0),
                       snd (main E (Args [Sample.thread_url] false) Sample.empty_world)))
      by (rewrite <- Hf; apply surjective_pairing).
    exact (proj1 (H 0%Z _ Hmain)).
  - pose proof (exit_status (Sample.environment "two pics" (Some 3%nat))
                  (Args [Sample.thread_url] false) Sample.empty_world)
      as (_ & _ & H & _).
    assert (Hmain : fst (main (Sample.environment "two pics" (Some 3%nat))
                           (Args [Sample.thread_url] false) Sample.empty_world)
                    = Raise KeyboardInterrupt) by (vm_compute; reflexivity).
    exact (proj2 H Hmain).
Defined.

(** A run in which every URL is valid and every thread is found, and
    which ends with status 1 all the same: a file of the thread is on the
    disk and cannot be read, the error of [open] leaves [main], and no
    handler is there for it. *)
Lemma all_found_run_exits_1 :
  let E := Sample.environment "two pics" None in
  let a := Args [Sample.thread_url] false in
  forallb check_url (URLs a) = true
  ∧ all_found E (length (requests Faulty.unreadable)) (List.filter check_url (URLs a)) = true
  ∧ fst (main E a Faulty.unreadable) = Raise (OSError "g/51971506/1.png")
  ∧ fst (script E a Faulty.unreadable) = 1%Z
  ∧ ¬ (fst (script E a Faulty.unreadable) = 0%Z
       ↔ forallb check_url (URLs a) = true
         ∧ all_found E (length (requests Faulty.unreadable))
             (List.filter check_url (URLs a)) = true).
Proof.
  intros E a.
  assert (Hv : forallb check_url (URLs a) = true) by (vm_compute; reflexivity).
  assert (Hf : all_found E (length (requests Faulty.unreadable))
                 (List.filter check_url (URLs a)) = true) by (vm_compute; reflexivity).
  assert (Hs : fst (script E a Faulty.unreadable) = 1%Z) by (vm_compute; reflexivity).
  split; [exact Hv|]. split; [exact Hf|]. split; [vm_compute; reflexivity|].
  split; [exact Hs|]. intros [_ H]. specialize (H (conj Hv Hf)). rewrite Hs in H.
  discriminate H.
Qed.
